(** * KVS: a key-value storage facade (kvs.py)

    A shallow embedding of the [KVS] class: key normalisation ([_convert]),
    the capability-probed dispatch to the backing object ([hasattr] tests),
    the value pipeline through the serializer, and the life-cycle methods.

    Python data is modelled as follows.
    - [bytes] objects are lists of [byte]; [str] objects are lists of Unicode
      code points ([N]); [int] is [Z].
    - An exception is a value of [exn]; a call that may raise returns [res].
    - The backing object [self._database] is any type [DB] together with
      the table of attributes it exposes (class [Backend]); the built-in
      [dict] used for [':memory:'] is the instance over [gmap bytes bytes].
    - Methods that mutate the backing object thread the store explicitly:
      a method body has type [KVS DB -> res A * KVS DB]. *)

From stdpp Require Import gmap strings list fin_maps pretty.
From Stdlib Require Import Strings.Byte.

Set Warnings "-register-all".

#[global] Instance byte_eq_dec : EqDecision byte := Byte.byte_eq_dec.
#[global] Instance byte_countable : Countable byte :=
  inj_countable Byte.to_N Byte.of_N Byte.of_to_N.

Abbreviation bytes := (list byte).
Abbreviation pystr := (list N).

(** ** Exceptions and results *)

Inductive exn : Type :=
| TypeError (msg : string)
| KeyError
| AttributeError
| UnicodeEncodeError
| Raised (name : string).  (* any other exception raised by a collaborator *)

Inductive res (A : Type) : Type :=
| ok (a : A)
| raise (e : exn).
Arguments ok {A} a.
Arguments raise {A} e.

Definition res_bind {A B} (r : res A) (f : A -> res B) : res B :=
  match r with
  | ok a => f a
  | raise e => raise e
  end.

Definition is_ok {A} (r : res A) : bool :=
  match r with ok _ => true | raise _ => false end.

(** ** Python objects used as keys and values *)

Inductive pyobj : Type :=
| PyNone
| PyBool (b : bool)
| PyInt (n : Z)
| PyFloat (bits : Z)              (* IEEE-754 binary64 bit pattern *)
| PyComplex (re im : Z)           (* two binary64 bit patterns *)
| PyStr (s : pystr)
| PyBytes (b : bytes)
| PyByteArray (b : bytes)
| PyRange (start stop step : Z)    (* as constructed; [step] is not 0 *)
| PyTuple (items : list pyobj)
| PyFrozenSet (items : list pyobj) (* in the order the set iterates in *)
| PyList (items : list pyobj)
| PySet (items : list pyobj)
| PyDict (items : list (pyobj * pyobj)).

(** [value is None] *)
Definition is_None (o : pyobj) : bool :=
  match o with PyNone => true | _ => false end.

Inductive pytype : Type :=
| NoneType | t_bool | t_int | t_float | t_complex | t_str | t_bytes
| t_bytearray | t_range | t_tuple | t_frozenset | t_list | t_set | t_dict.

Definition type_of (o : pyobj) : pytype :=
  match o with
  | PyNone => NoneType
  | PyBool _ => t_bool
  | PyInt _ => t_int
  | PyFloat _ => t_float
  | PyComplex _ _ => t_complex
  | PyStr _ => t_str
  | PyBytes _ => t_bytes
  | PyByteArray _ => t_bytearray
  | PyRange _ _ _ => t_range
  | PyTuple _ => t_tuple
  | PyFrozenSet _ => t_frozenset
  | PyList _ => t_list
  | PySet _ => t_set
  | PyDict _ => t_dict
  end.

(** ** Text: code points, literals, UTF-8 *)

Definition codepoints (s : string) : pystr :=
  List.map Ascii.N_of_ascii (String.list_ascii_of_string s).

Definition byte_of_N (n : N) : byte :=
  default Byte.x00 (Byte.of_N (n `mod` 256)%N).

(** [str.encode(encoding = 'UTF8')] on one code point; lone surrogates are
    rejected (strict error handler). *)
Definition utf8_char (c : N) : res bytes :=
  if (c <? 0x80)%N then ok [byte_of_N c]
  else if (c <? 0x800)%N then
    ok [byte_of_N (N.lor 0xC0 (N.shiftr c 6));
        byte_of_N (N.lor 0x80 (N.land c 0x3F))]
  else if (0xD800 <=? c)%N && (c <=? 0xDFFF)%N then raise UnicodeEncodeError
  else if (c <? 0x10000)%N then
    ok [byte_of_N (N.lor 0xE0 (N.shiftr c 12));
        byte_of_N (N.lor 0x80 (N.land (N.shiftr c 6) 0x3F));
        byte_of_N (N.lor 0x80 (N.land c 0x3F))]
  else
    ok [byte_of_N (N.lor 0xF0 (N.shiftr c 18));
        byte_of_N (N.lor 0x80 (N.land (N.shiftr c 12) 0x3F));
        byte_of_N (N.lor 0x80 (N.land (N.shiftr c 6) 0x3F));
        byte_of_N (N.lor 0x80 (N.land c 0x3F))].

Fixpoint encode (s : pystr) : res bytes :=
  match s with
  | [] => ok []
  | c :: s' =>
      res_bind (utf8_char c) (fun b =>
      res_bind (encode s') (fun bs => ok (b ++ bs)))
  end.

(** A [bytes] literal such as [b'a']. *)
Definition ascii_bytes (s : string) : bytes := String.list_byte_of_string s.

(** ** [str(key)] for the types [_convert] stringifies *)

(** [str(n)] for an [int]: its decimal text. An interpreter that limits the
    digits of this conversion (CPython 3.11 and later, at
    [sys.int_info.default_max_str_digits] unless reconfigured) raises
    [ValueError] beyond the limit instead; [str_int] is the text of the
    integers [within_str_digits], which the statements on integer keys are
    about. *)
Definition str_int (n : Z) : pystr := codepoints (pretty n).

Definition default_max_str_digits : nat := 4300.

(** An integer with no more decimal digits than the limit. *)
Definition within_str_digits (n : Z) : Prop :=
  (length (str_int (Z.abs n)) <= default_max_str_digits)%nat.

Definition str_range (start stop step : Z) : pystr :=
  codepoints "range(" ++ str_int start ++ codepoints ", " ++ str_int stop ++
  (if (step =? 1)%Z then [] else codepoints ", " ++ str_int step) ++
  codepoints ")".

Fixpoint join (sep : pystr) (l : list pystr) : pystr :=
  match l with
  | [] => []
  | [x] => x
  | x :: l' => x ++ sep ++ join sep l'
  end.

Section Str.
(** [repr] of the remaining built-in types (floats, complex numbers,
    frozen sets in their hash order, and strings, bytes, lists, sets and
    dicts occurring inside tuples) is the interpreter's. *)
Variable builtin_repr : pyobj -> pystr.

Fixpoint repr (o : pyobj) : pystr :=
  match o with
  | PyNone => codepoints "None"
  | PyBool true => codepoints "True"
  | PyBool false => codepoints "False"
  | PyInt n => str_int n
  | PyRange start stop step => str_range start stop step
  | PyTuple items =>
      match items with
      | [x] => codepoints "(" ++ repr x ++ codepoints ",)"
      | _ => codepoints "(" ++ join (codepoints ", ") (List.map repr items)
               ++ codepoints ")"
      end
  | _ => builtin_repr o
  end.

(** For every type reaching [str(key)] in [_convert], [__str__] is
    [__repr__]. *)
Definition str (o : pyobj) : pystr := repr o.

(** [KVS._convert] *)
Definition _convert (key : pyobj) : res bytes :=
  match key with
  | PyBytes b => ok b
  | PyStr s => encode s
  | PyByteArray b => ok b
  | PyBool _ | PyInt _ | PyFloat _ | PyComplex _ _ => encode (str key)
  | PyRange _ _ _ | PyTuple _ | PyFrozenSet _ => encode (str key)
  | _ => raise (TypeError "Unsupported type.")
  end.

(** The types accepted by the [isinstance] chain of [_convert]
    ([bool] is a subclass of [int]). *)
Definition supported_type (t : pytype) : bool :=
  match t with
  | t_bytes | t_str | t_bytearray | t_bool | t_int | t_float | t_complex
  | t_range | t_tuple | t_frozenset => true
  | _ => false
  end.
End Str.


(** ** The serializer ([self._serialize]) *)

Record Codec : Type := {
  dumps : pyobj -> res bytes;
  loads : bytes -> res pyobj
}.

(** ** The backing object ([self._database]) *)

(** A method call on the backing object: it may raise, and it may mutate
    the object. *)
Definition call (DB A : Type) : Type := DB -> res A * DB.

(** The attributes the facade probes with [hasattr]; [None] means the
    object does not expose the attribute. A stored value is a byte
    sequence; a look-up may also answer Python's [None]. *)
Class Backend (DB : Type) : Type := {
  attr_contains   : option (bytes -> call DB bool);            (* __contains__ *)
  attr_set        : option (bytes -> bytes -> call DB unit);   (* set *)
  attr_setitem    : option (bytes -> bytes -> call DB unit);   (* __setitem__ *)
  attr_get        : option (bytes -> call DB (option bytes));  (* get *)
  attr_getitem    : option (bytes -> call DB (option bytes));  (* __getitem__ *)
  attr_delete     : option (bytes -> call DB pyobj);           (* delete *)
  attr_delitem    : option (bytes -> call DB pyobj);           (* __delitem__ *)
  attr_keys       : option (call DB (list pyobj));             (* keys *)
  attr_sync       : option (call DB unit);                     (* sync *)
  attr_reorganize : option (call DB unit);                     (* reorganize *)
  attr_close      : option (call DB unit);                     (* close *)
  attr_clear      : option (call DB unit);                     (* clear *)
  attr_flushall   : option (call DB unit);                     (* flushall *)
  attr_flush_all  : option (call DB unit)                      (* flush_all *)
}.

(** [hasattr(database, name)] *)
Definition hasattr {T} (attr : option T) : bool :=
  match attr with Some _ => true | None => false end.

(** Python's built-in [dict] holding encoded values under canonical keys:
    the object created for [':memory:']. *)
#[export] Instance dict_backend : Backend (gmap bytes bytes) := {|
  attr_contains := Some (fun k d =>
    (ok (match d !! k with Some _ => true | None => false end), d));
  attr_set := None;
  attr_setitem := Some (fun k v d => (ok tt, <[k:=v]> d));
  attr_get := Some (fun k d => (ok (d !! k), d));
  attr_getitem := Some (fun k d =>
    (match d !! k with Some v => ok (Some v) | None => raise KeyError end, d));
  attr_delete := None;
  attr_delitem := Some (fun k d =>
    match d !! k with
    | Some _ => (ok PyNone, delete k d)
    | None => (raise KeyError, d)
    end);
  attr_keys := Some (fun d => (ok (PyBytes <$> (map_to_list d).*1), d));
  attr_sync := None;
  attr_reorganize := None;
  attr_close := None;
  attr_clear := Some (fun d => (ok tt, ∅));
  attr_flushall := None;
  attr_flush_all := None
|}.

(** ** The facade *)

(** [__slots__ = ('_database', '_serialize')] *)
Record KVS (DB : Type) : Type := mkKVS {
  _database : DB;
  _serialize : Codec
}.
Arguments mkKVS {DB} _ _.
Arguments _database {DB} _.
Arguments _serialize {DB} _.

(** A method of the facade, run on [self]. *)
Definition method (DB A : Type) : Type := KVS DB -> res A * KVS DB.

Definition ret {DB A} (a : A) : method DB A := fun self => (ok a, self).

Definition throw {DB A} (e : exn) : method DB A := fun self => (raise e, self).

Definition bind {DB A B} (c : method DB A) (k : A -> method DB B)
  : method DB B :=
  fun self =>
    match c self with
    | (ok a, self') => k a self'
    | (raise e, self') => (raise e, self')
    end.

Notation "'let*' x := c 'in' k" := (bind c (fun x => k))
  (at level 10, x name, c at level 100, k at level 200).
Notation "c ;; k" := (bind c (fun _ => k))
  (at level 100, k at level 200, right associativity).

(** A pure computation that may raise. *)
Definition lift {DB A} (r : res A) : method DB A := fun self => (r, self).

(** A call on [self._database]; the object is mutated in place. *)
Definition on_database {DB A} (c : call DB A) : method DB A :=
  fun self =>
    let (r, database) := c (_database self) in
    (r, mkKVS database (_serialize self)).

(** Calling an attribute of [self._database] with arguments [args]; an
    attribute the object lacks raises [AttributeError]. *)
Definition invoke {DB T A} (attr : option T) (args : T -> call DB A)
  : method DB A :=
  match attr with
  | Some f => on_database (args f)
  | None => throw AttributeError
  end.

(** Reading a slot of [self]. *)
Definition slot {DB A} (field : KVS DB -> A) : method DB A :=
  fun self => (ok (field self), self).

(** [try: ... except KeyError: return None] *)
Definition except_KeyError {DB} (c : method DB pyobj) : method DB pyobj :=
  fun self =>
    match c self with
    | (raise KeyError, self') => (ok PyNone, self')
    | r => r
    end.

(** Truth value of what a look-up answered: [None] and [b''] are false. *)
Definition truthy (value : option bytes) : bool :=
  match value with
  | Some (_ :: _) => true
  | _ => false
  end.

Section Facade.
Context {DB : Type} `{Backend DB}.
Variable builtin_repr : pyobj -> pystr.

Abbreviation convert key := (lift (_convert builtin_repr key)).

(** [KVS.__delitem__], alias [delete] *)
Definition __delitem__ (key : pyobj) : method DB pyobj :=
  let* key := convert key in
  except_KeyError
    (if hasattr attr_delete
     then invoke attr_delete (fun delete => delete key)
     else invoke attr_delitem (fun __delitem__ => __delitem__ key)).

(** [KVS.__setitem__], aliases [set] and [put] *)
Definition __setitem__ (key value : pyobj) : method DB pyobj :=
  let* key := convert key in
  if negb (is_None value) then
    let* serialize := slot _serialize in
    let* value := lift (dumps serialize value) in
    (if hasattr attr_set
     then invoke attr_set (fun set => set key value)
     else invoke attr_setitem (fun __setitem__ => __setitem__ key value)) ;;
    ret PyNone
  else
    __delitem__ (PyBytes key) ;;
    ret PyNone.

(** [KVS.__getitem__], alias [get] *)
Definition __getitem__ (key : pyobj) : method DB pyobj :=
  let* key := convert key in
  let* value :=
    (if hasattr attr_get
     then invoke attr_get (fun get => get key)
     else invoke attr_getitem (fun __getitem__ => __getitem__ key)) in
  if truthy value then
    let* serialize := slot _serialize in
    lift (loads serialize (default [] value))
  else ret PyNone.

(** The two arms of [KVS.__contains__]: [key in database] and
    [self.__getitem__(key) is not None]. *)
Definition contains_native (key : bytes) : method DB bool :=
  invoke attr_contains (fun __contains__ => __contains__ key).

Definition contains_fallback (key : bytes) : method DB bool :=
  let* value := __getitem__ (PyBytes key) in
  ret (negb (is_None value)).

(** [KVS.__contains__] *)
Definition __contains__ (key : pyobj) : method DB bool :=
  let* key := convert key in
  if hasattr attr_contains
  then contains_native key
  else contains_fallback key.

(** [KVS.__call__]; an omitted [value] is the default [None]. *)
Definition __call__ (key value : pyobj) : method DB pyobj :=
  if is_None value
  then __getitem__ key
  else __setitem__ key value ;; ret PyNone.

(** [KVS.pop] *)
Definition pop (key : pyobj) : method DB pyobj :=
  let* value := __getitem__ key in
  __delitem__ key ;;
  ret value.

(** [KVS.keys]; the generator is read as the sequence it yields. *)
Definition keys : method DB (list pyobj) :=
  if hasattr attr_keys then invoke attr_keys (fun keys => keys) else ret [].

(** [KVS.sync] *)
Definition sync : method DB unit :=
  if hasattr attr_sync then invoke attr_sync (fun sync => sync) else ret tt.

(** [KVS.optimize] *)
Definition optimize : method DB unit :=
  if hasattr attr_reorganize
  then invoke attr_reorganize (fun reorganize => reorganize)
  else ret tt.

(** [KVS.close] *)
Definition close : method DB unit :=
  sync ;;
  if hasattr attr_close then invoke attr_close (fun close => close)
  else ret tt.

(** [KVS.__del__] *)
Definition __del__ : method DB unit :=
  sync ;;
  close.

Fixpoint delete_each (ks : list pyobj) : method DB unit :=
  match ks with
  | [] => ret tt
  | key :: ks' => __delitem__ key ;; delete_each ks'
  end.

(** [KVS.clear] *)
Definition clear : method DB unit :=
  if hasattr attr_clear then invoke attr_clear (fun clear => clear)
  else if hasattr attr_flushall
  then invoke attr_flushall (fun flushall => flushall)
  else if hasattr attr_flush_all
  then invoke attr_flush_all (fun flush_all => flush_all)
  else
    let* ks := keys in
    delete_each ks ;;
    optimize.
End Facade.

(** [KVS(':memory:', serialize)]: a fresh transient map. *)
Definition KVS_memory (serialize : Codec) : KVS (gmap bytes bytes) :=
  mkKVS ∅ serialize.

(** ** Sample collaborators used in the examples *)

(** An interpreter whose [repr] of the remaining types is left blank. *)
Definition plain_repr : pyobj -> pystr := fun _ => [].

(** A serializer storing byte strings as they are. *)
Definition raw_codec : Codec := {|
  dumps := fun v =>
    match v with
    | PyBytes b => ok b
    | _ => raise (TypeError "a bytes-like object is required")
    end;
  loads := fun b => ok (PyBytes b)
|}.

(** A serializer with a one-byte type tag, for [None], booleans and byte
    strings. *)
Definition tagged_codec : Codec := {|
  dumps := fun v =>
    match v with
    | PyNone => ok (ascii_bytes "N")
    | PyBool true => ok (ascii_bytes "T")
    | PyBool false => ok (ascii_bytes "F")
    | PyBytes b => ok (ascii_bytes "B" ++ b)
    | _ => raise (TypeError "not serializable")
    end;
  loads := fun b =>
    match b with
    | [x] =>
        if decide (x = "N"%byte) then ok PyNone
        else if decide (x = "T"%byte) then ok (PyBool true)
        else if decide (x = "F"%byte) then ok (PyBool false)
        else if decide (x = "B"%byte) then ok (PyBytes [])
        else raise (Raised "ValueError")
    | x :: b' =>
        if decide (x = "B"%byte) then ok (PyBytes b')
        else raise (Raised "ValueError")
    | [] => raise (Raised "ValueError")
    end
|}.

(** [loads] inverts [dumps]. *)
Definition codec_inverts (c : Codec) : Prop :=
  forall v b, dumps c v = ok b -> loads c b = ok v.

(** [dumps] never answers the empty byte string. *)
Definition codec_nonempty (c : Codec) : Prop :=
  forall v b, dumps c v = ok b -> b <> [].

Abbreviation key_a := (PyStr (codepoints "a")).


(** ** The operations a caller can perform, and the states they reach *)

Inductive operation : Type :=
| OpSet (key value : pyobj)
| OpGet (key : pyobj)
| OpDelete (key : pyobj)
| OpContains (key : pyobj)
| OpCall (key value : pyobj)
| OpPop (key : pyobj)
| OpKeys
| OpSync
| OpOptimize
| OpClose
| OpClear.

Section Run.
Context {DB : Type} `{Backend DB}.
Variable builtin_repr : pyobj -> pystr.

(** The store after one operation; an exception it raises is caught by
    the caller, who keeps using the store. *)
Definition perform (o : operation) (self : KVS DB) : KVS DB :=
  match o with
  | OpSet key value => (__setitem__ builtin_repr key value self).2
  | OpGet key => (__getitem__ builtin_repr key self).2
  | OpDelete key => (__delitem__ builtin_repr key self).2
  | OpContains key => (__contains__ builtin_repr key self).2
  | OpCall key value => (__call__ builtin_repr key value self).2
  | OpPop key => (pop builtin_repr key self).2
  | OpKeys => (keys self).2
  | OpSync => (sync self).2
  | OpOptimize => (optimize self).2
  | OpClose => (close self).2
  | OpClear => (clear builtin_repr self).2
  end.

Definition run (ops : list operation) (self : KVS DB) : KVS DB :=
  foldl (fun st o => perform o st) self ops.

(** Whether an operation stores a value under the canonical key [k]. *)
Definition stores (k : bytes) (o : operation) : Prop :=
  match o with
  | OpSet key value | OpCall key value =>
      _convert builtin_repr key = ok k /\ is_None value = false
  | _ => False
  end.
End Run.

(** ** Sample external stores *)

(** A client of a remote store exposing [get], [set], [delete], [flushall]
    and [close]; [released] counts how often its connection was given
    back. *)
Record client : Type := mkClient {
  entries : gmap bytes bytes;
  released : nat
}.

#[export] Instance client_backend : Backend client := {|
  attr_contains := None;
  attr_set := Some (fun k v o =>
    (ok tt, mkClient (<[k:=v]> (entries o)) (released o)));
  attr_setitem := None;
  attr_get := Some (fun k o => (ok (entries o !! k), o));
  attr_getitem := None;
  attr_delete := Some (fun k o =>
    (ok (PyInt (match entries o !! k with Some _ => 1 | None => 0 end)),
     mkClient (delete k (entries o)) (released o)));
  attr_delitem := None;
  attr_keys := None;
  attr_sync := None;
  attr_reorganize := None;
  attr_close := Some (fun o => (ok tt, mkClient (entries o) (S (released o))));
  attr_clear := None;
  attr_flushall := Some (fun o => (ok tt, mkClient ∅ (released o)));
  attr_flush_all := None
|}.

(** An embedded database handle: a mapping with [sync], [reorganize] and
    [close] whose calls, [close] apart, are refused once it is closed. *)
Record handle : Type := mkHandle {
  content : gmap bytes bytes;
  is_open : bool
}.

Definition while_open {A} (c : call handle A) : call handle A :=
  fun h => if is_open h then c h else (raise (Raised "error"), h).

#[export] Instance handle_backend : Backend handle := {|
  attr_contains := Some (fun k => while_open (fun h =>
    (ok (match content h !! k with Some _ => true | None => false end), h)));
  attr_set := None;
  attr_setitem := Some (fun k v => while_open (fun h =>
    (ok tt, mkHandle (<[k:=v]> (content h)) true)));
  attr_get := Some (fun k => while_open (fun h => (ok (content h !! k), h)));
  attr_getitem := Some (fun k => while_open (fun h =>
    (match content h !! k with
     | Some v => ok (Some v)
     | None => raise KeyError
     end, h)));
  attr_delete := None;
  attr_delitem := Some (fun k => while_open (fun h =>
    match content h !! k with
    | Some _ => (ok PyNone, mkHandle (delete k (content h)) true)
    | None => (raise KeyError, h)
    end));
  attr_keys := Some (while_open (fun h =>
    (ok (PyBytes <$> (map_to_list (content h)).*1), h)));
  attr_sync := Some (while_open (fun h => (ok tt, h)));
  attr_reorganize := Some (while_open (fun h => (ok tt, h)));
  attr_close := Some (fun h => (ok tt, mkHandle (content h) false));
  attr_clear := None;
  attr_flushall := None;
  attr_flush_all := None
|}.

(** ** Equality of keys *)

(** [len(range(start, stop, step))]; [step] is not 0. *)
Definition range_len (start stop step : Z) : Z :=
  if (0 <? step)%Z
  then (if (start <? stop)%Z then (stop - start - 1) / step + 1 else 0)%Z
  else (if (stop <? start)%Z then (start - stop - 1) / (- step) + 1 else 0)%Z.

(** The integers a range lists, in order. *)
Definition range_values (start stop step : Z) : list Z :=
  (fun i : nat => (start + Z.of_nat i * step)%Z)
    <$> seq 0 (Z.to_nat (range_len start stop step)).

(** What [==] compares of a key, for the keys whose value is modelled in
    full: a [bool] or an [int] is an integer ([True] is 1, [False] is 0), a
    [str] is its code points, a [bytes] or a [bytearray] is its content,
    and a range is the sequence of integers it lists. *)
Inductive key_value : Type :=
| IntValue (n : Z)
| TextValue (s : pystr)
| BytesValue (b : bytes)
| RangeValue (items : list Z).

#[global] Instance key_value_eq_dec : EqDecision key_value.
Proof. solve_decision. Defined.

Definition value_of_key (key : pyobj) : option key_value :=
  match key with
  | PyBool b => Some (IntValue (if b then 1 else 0))
  | PyInt n => Some (IntValue n)
  | PyStr s => Some (TextValue s)
  | PyBytes b | PyByteArray b => Some (BytesValue b)
  | PyRange start stop step => Some (RangeValue (range_values start stop step))
  | _ => None
  end.

(** [k1 == k2] for two such keys; keys of two of the four kinds are
    unequal. Equality that involves a float, a complex number, a tuple or a
    frozen set is the interpreter's: [None]. *)
Definition py_eq (k1 k2 : pyobj) : option bool :=
  match value_of_key k1, value_of_key k2 with
  | Some v1, Some v2 => Some (bool_decide (v1 = v2))
  | _, _ => None
  end.

(** ** Notions used in the statements *)

(** The text a supported key stands for: a string is its own text, a
    number or hashable collection has the text [str] gives it, and a byte
    string stands for the text it is the UTF-8 encoding of. *)
Definition has_text (builtin_repr : pyobj -> pystr) (key : pyobj)
  (text : pystr) : Prop :=
  match key with
  | PyBytes b | PyByteArray b => encode text = ok b
  | PyStr s => s = text
  | PyBool _ | PyInt _ | PyFloat _ | PyComplex _ _
  | PyRange _ _ _ | PyTuple _ | PyFrozenSet _ => str builtin_repr key = text
  | _ => False
  end.

(** Every entry of the map is the non-empty encoding of a value other than
    [None]. *)
Definition well_encoded (c : Codec) (m : gmap bytes bytes) : Prop :=
  forall k b, m !! k = Some b ->
    b <> [] /\ exists v, dumps c v = ok b /\ is_None v = false.

(** An operation that writes the value [value] under the key [key]. *)
Definition writes (key value : pyobj) (o : operation) : Prop :=
  o = OpSet key value \/ o = OpCall key value.

(** ** The store as a finite map of values *)

(** What an operation does to a map from canonical keys to values: a write
    of a value the serializer encodes binds the key, a write of [None], a
    [delete] and a [pop] unbind it, [clear] unbinds every key. *)
Definition record (builtin_repr : pyobj -> pystr) (c : Codec) (o : operation)
    (a : gmap bytes pyobj) : gmap bytes pyobj :=
  let write (k : bytes) (value : pyobj) :=
    if is_ok (dumps c value) then <[k:=value]> a else a in
  match o with
  | OpSet key value =>
      match _convert builtin_repr key with
      | ok k => if is_None value then delete k a else write k value
      | raise _ => a
      end
  | OpCall key value =>
      match _convert builtin_repr key with
      | ok k => if is_None value then a else write k value
      | raise _ => a
      end
  | OpDelete key | OpPop key =>
      match _convert builtin_repr key with
      | ok k => delete k a
      | raise _ => a
      end
  | OpClear => ∅
  | OpGet _ | OpContains _ | OpKeys | OpSync | OpOptimize | OpClose => a
  end.

Definition recorded (builtin_repr : pyobj -> pystr) (c : Codec)
    (ops : list operation) : gmap bytes pyobj :=
  foldl (fun a o => record builtin_repr c o a) ∅ ops.

(** The map [m] holds the encodings of the values of [a]. *)
Definition holds_encodings (c : Codec) (m : gmap bytes bytes)
    (a : gmap bytes pyobj) : Prop :=
  forall k : bytes,
    match a !! k with
    | Some v => is_None v = false /\
                exists b, m !! k = Some b /\ dumps c v = ok b
    | None => m !! k = None
    end.

(** ** Enumeration: [values] and [items] *)

(** The two further attributes that [values] and [items] probe. A mapping
    answers them with its stored values, and with its pairs of key and
    stored value. The order in which a mapping lists its entries is its
    own (insertion order for a [dict], the order of the file for a database
    handle) and is not modelled: for one object [keys], [values] and
    [items] list in one order, and no statement depends on how the orders
    of two objects compare. *)
Class Enumerable (DB : Type) : Type := {
  attr_values : option (call DB (list bytes));            (* values *)
  attr_items  : option (call DB (list (pyobj * bytes)))   (* items *)
}.

#[export] Instance dict_enumerable : Enumerable (gmap bytes bytes) := {|
  attr_values := Some (fun d => (ok (map_to_list d).*2, d));
  attr_items := Some (fun d =>
    (ok (prod_map PyBytes id <$> map_to_list d), d))
|}.

#[export] Instance client_enumerable : Enumerable client := {|
  attr_values := None;
  attr_items := None
|}.

#[export] Instance handle_enumerable : Enumerable handle := {|
  attr_values := None;
  attr_items := None
|}.

(** A generator consumed to its end: what it yielded, and whether it was
    exhausted ([ok tt]) or stopped by an exception. *)
Definition generator (DB A : Type) : Type :=
  KVS DB -> (list A * res unit) * KVS DB.

(** [yield from map(f, stored)]: the results are yielded one by one, up to
    the first element on which [f] raises. *)
Fixpoint yield_map {A B} (f : A -> res B) (stored : list A)
  : list B * res unit :=
  match stored with
  | [] => ([], ok tt)
  | x :: stored' =>
      match f x with
      | ok y => let (ys, r) := yield_map f stored' in (y :: ys, r)
      | raise e => ([], raise e)
      end
  end.

(** [for key in ks: yield f(key)], where [f] is a method of [self] and
    [ks] are the keys as listed when the iteration starts. *)
Fixpoint yield_each {DB A B} (f : A -> method DB B) (ks : list A)
  : generator DB B :=
  fun self =>
    match ks with
    | [] => (([], ok tt), self)
    | key :: ks' =>
        match f key self with
        | (ok y, self') =>
            let '((ys, r), self'') := yield_each f ks' self' in
            ((y :: ys, r), self'')
        | (raise e, self') => (([], raise e), self')
        end
    end.

Section Enumeration.
Context {DB : Type} `{Backend DB} `{Enumerable DB}.
Variable builtin_repr : pyobj -> pystr.

(** [KVS.values] *)
Definition values : generator DB pyobj :=
  fun self =>
    if hasattr attr_values then
      match invoke attr_values (fun values => values) self with
      | (ok stored, self') =>
          (yield_map (fun value => loads (_serialize self') value) stored,
           self')
      | (raise e, self') => (([], raise e), self')
      end
    else
      match keys self with
      | (ok ks, self') => yield_each (__getitem__ builtin_repr) ks self'
      | (raise e, self') => (([], raise e), self')
      end.

(** [KVS.items] *)
Definition items : generator DB (pyobj * pyobj) :=
  fun self =>
    if hasattr attr_items then
      match invoke attr_items (fun items => items) self with
      | (ok stored, self') =>
          (yield_map (fun item : pyobj * bytes =>
             res_bind (loads (_serialize self') item.2) (fun value =>
             ok (item.1, value))) stored,
           self')
      | (raise e, self') => (([], raise e), self')
      end
    else
      match keys self with
      | (ok ks, self') =>
          yield_each (fun key =>
            let* value := __getitem__ builtin_repr key in
            ret (key, value)) ks self'
      | (raise e, self') => (([], raise e), self')
      end.
End Enumeration.

(** A store exposing [get], [set] and [delete] only. *)
Record cache : Type := mkCache { cells : gmap bytes bytes }.

#[export] Instance cache_backend : Backend cache := {|
  attr_contains := None;
  attr_set := Some (fun k v o => (ok tt, mkCache (<[k:=v]> (cells o))));
  attr_setitem := None;
  attr_get := Some (fun k o => (ok (cells o !! k), o));
  attr_getitem := None;
  attr_delete := Some (fun k o =>
    (ok (PyBool (bool_decide (is_Some (cells o !! k)))),
     mkCache (delete k (cells o))));
  attr_delitem := None;
  attr_keys := None;
  attr_sync := None;
  attr_reorganize := None;
  attr_close := None;
  attr_clear := None;
  attr_flushall := None;
  attr_flush_all := None
|}.

#[export] Instance cache_enumerable : Enumerable cache := {|
  attr_values := None;
  attr_items := None
|}.

(** A mapping exposing the item protocol only: [__getitem__],
    [__setitem__] and [__delitem__]. *)
Record table : Type := mkTable { rows : gmap bytes bytes }.

#[export] Instance table_backend : Backend table := {|
  attr_contains := None;
  attr_set := None;
  attr_setitem := Some (fun k v o => (ok tt, mkTable (<[k:=v]> (rows o))));
  attr_get := None;
  attr_getitem := Some (fun k o =>
    (match rows o !! k with
     | Some v => ok (Some v)
     | None => raise KeyError
     end, o));
  attr_delete := None;
  attr_delitem := Some (fun k o =>
    match rows o !! k with
    | Some _ => (ok PyNone, mkTable (delete k (rows o)))
    | None => (raise KeyError, o)
    end);
  attr_keys := None;
  attr_sync := None;
  attr_reorganize := None;
  attr_close := None;
  attr_clear := None;
  attr_flushall := None;
  attr_flush_all := None
|}.

(** ** Decoding UTF-8 *)

Definition between (lo hi n : N) : bool := ((lo <=? n) && (n <=? hi))%N.

(** The six payload bits of a continuation byte. *)
Definition continuation (b : byte) : N := N.land (Byte.to_N b) 0x3F.

(** The first character of a UTF-8 byte sequence and the bytes after it, as
    the strict decoder reads it: no overlong form, no surrogate, nothing
    above U+10FFFF. *)
Definition decode_one (l : bytes) : option (N * bytes) :=
  match l with
  | [] => None
  | b0 :: l1 =>
      let n0 := Byte.to_N b0 in
      if (n0 <? 0x80)%N then Some (n0, l1)
      else if between 0xC2 0xDF n0 then
        match l1 with
        | b1 :: l2 =>
            if between 0x80 0xBF (Byte.to_N b1)
            then Some (N.lor (N.shiftl (N.land n0 0x1F) 6)
                         (continuation b1), l2)
            else None
        | _ => None
        end
      else if between 0xE0 0xEF n0 then
        match l1 with
        | b1 :: b2 :: l3 =>
            if between (if (n0 =? 0xE0)%N then 0xA0 else 0x80)
                       (if (n0 =? 0xED)%N then 0x9F else 0xBF) (Byte.to_N b1)
               && between 0x80 0xBF (Byte.to_N b2)
            then Some (N.lor (N.shiftl (N.land n0 0x0F) 12)
                         (N.lor (N.shiftl (continuation b1) 6)
                            (continuation b2)), l3)
            else None
        | _ => None
        end
      else if between 0xF0 0xF4 n0 then
        match l1 with
        | b1 :: b2 :: b3 :: l4 =>
            if between (if (n0 =? 0xF0)%N then 0x90 else 0x80)
                       (if (n0 =? 0xF4)%N then 0x8F else 0xBF) (Byte.to_N b1)
               && between 0x80 0xBF (Byte.to_N b2)
               && between 0x80 0xBF (Byte.to_N b3)
            then Some (N.lor (N.shiftl (N.land n0 0x07) 18)
                         (N.lor (N.shiftl (continuation b1) 12)
                            (N.lor (N.shiftl (continuation b2) 6)
                               (continuation b3))), l4)
            else None
        | _ => None
        end
      else None
  end.

(** Decoding at most [n] characters; a sequence of [n] bytes holds no
    more. *)
Fixpoint decode_upto (n : nat) (l : bytes) : res pystr :=
  match l, n with
  | [], _ => ok []
  | _, O => raise (Raised "UnicodeDecodeError")
  | _, S n' =>
      match decode_one l with
      | Some (c, l') => res_bind (decode_upto n' l') (fun s => ok (c :: s))
      | None => raise (Raised "UnicodeDecodeError")
      end
  end.

(** [bytes.decode(encoding = 'UTF8')] *)
Definition decode (l : bytes) : res pystr := decode_upto (length l) l.

(** A code point of a [str]: below [0x110000]. *)
Definition code_point (c : N) : Prop := (c < 0x110000)%N.

(** ** Construction *)

(** What [database] can be given as: a path, as text or bytes, or any other
    object. *)
Inductive database_argument (Ext : Type) : Type :=
| AsStr (path : pystr)
| AsBytes (path : bytes)
| AsByteArray (path : bytes)
| AsObject (o : Ext).
Arguments AsStr {Ext} path.
Arguments AsBytes {Ext} path.
Arguments AsByteArray {Ext} path.
Arguments AsObject {Ext} o.

(** The facade that [__init__] sets up: over a fresh [dict], over the
    handle [dbm.open] answered, or over the object given. *)
Inductive store (Dbm Ext : Type) : Type :=
| Transient (self : KVS (gmap bytes bytes))
| Persistent (self : KVS Dbm)
| External (self : KVS Ext).
Arguments Transient {Dbm Ext} self.
Arguments Persistent {Dbm Ext} self.
Arguments External {Dbm Ext} self.

Definition ascii_lower (c : N) : N :=
  if between 0x41 0x5A c then (c + 32)%N else c.

Section Construction.
Context {Dbm Ext : Type}.
(** [str.lower] on text that is not plain ASCII is the interpreter's. *)
Variable unicode_lower : pystr -> pystr.
(** [dbm.open(file, flag, **kwargs)] *)
Variable dbm_open : pystr -> pyobj -> gmap string pyobj -> res Dbm.
(** [SeCo(serialize = 'json', compress = 'zlib')] *)
Variable SeCo_json_zlib : Codec.

(** [str.lower] *)
Definition lower (s : pystr) : pystr :=
  if forallb (fun c => (c <? 0x80)%N) s
  then ascii_lower <$> s
  else unicode_lower s.

(** [KVS.__init__]; [kwargs] are the further keyword arguments. *)
Definition __init__ (database : database_argument Ext)
    (serialize : option Codec) (kwargs : gmap string pyobj)
  : res (store Dbm Ext) :=
  let with_serializer {DB} (database : DB) : KVS DB :=
    mkKVS database
      (match serialize with
       | Some serialize => serialize
       | None => SeCo_json_zlib
       end) in
  let on_path (path : pystr) : res (store Dbm Ext) :=
    if bool_decide (lower path = codepoints ":memory:")
    then ok (Transient (with_serializer ∅))
    else
      let flag :=
        match kwargs !! "flag"%string with
        | Some flag => flag
        | None => PyStr (codepoints "c")
        end in
      res_bind (dbm_open path flag kwargs) (fun database =>
      ok (Persistent (with_serializer database))) in
  match database with
  | AsStr path => on_path path
  | AsBytes path | AsByteArray path => res_bind (decode path) on_path
  | AsObject o => ok (External (with_serializer o))
  end.
End Construction.

(** A stand-in for [dbm.open] in the examples: an opener of two parameters
    that are given by position only, so that a call with any keyword
    argument is refused with [TypeError]; it answers the path and the flag
    it was called with. *)
Definition positional_open (file : pystr) (flag : pyobj)
    (kwargs : gmap string pyobj) : res (pystr * pyobj) :=
  if bool_decide (dom kwargs = (∅ : gset string))
  then ok (file, flag)
  else raise (TypeError "open() takes no keyword arguments").

(** ** Attribute access *)

Section Attributes.
Context {DB : Type} `{Backend DB}.
Variable builtin_repr : pyobj -> pystr.
(** [object.__setattr__] and [object.__delattr__] on [self], reached
    through [super(KVS, self)]. *)
Variable object_setattr : pystr -> pyobj -> method DB unit.
Variable object_delattr : pystr -> method DB unit.
(** [self._database.__getattribute__]; what an attribute of the backing
    object is (a bound method, say) is left open. *)
Context {attribute : Type}.
Variable database_getattribute : pystr -> call DB attribute.

(** [try: c except AttributeError: handler] *)
Definition except_AttributeError {A} (c handler : method DB A)
  : method DB A :=
  fun self =>
    match c self with
    | (raise AttributeError, self') => handler self'
    | r => r
    end.

(** [KVS.__setattr__] *)
Definition __setattr__ (key : pystr) (value : pyobj) : method DB unit :=
  except_AttributeError
    (object_setattr key value)
    (__setitem__ builtin_repr (PyStr key) value ;; ret tt).

(** [KVS.__getattr__]: an attribute of the backing object, or else a
    stored value. *)
Definition __getattr__ (key : pystr) : method DB (attribute + pyobj) :=
  except_AttributeError
    (let* a := on_database (database_getattribute key) in ret (inl a))
    (let* value := __getitem__ builtin_repr (PyStr key) in ret (inr value)).

(** [KVS.__delattr__] *)
Definition __delattr__ (key : pystr) : method DB unit :=
  except_AttributeError
    (object_delattr key)
    (__delitem__ builtin_repr (PyStr key) ;; ret tt).

(** [object.__getattribute__] on [self], the look-up every attribute read
    starts with: it finds the slots and what the class defines. What an
    attribute found there is (a bound method, the content of a slot) is
    left open. *)
Context {member : Type}.
Variable object_getattribute : pystr -> method DB member.

(** Reading [self.key]: the interpreter calls [__getattr__] only when the
    look-up on the object raised [AttributeError]. *)
Definition getattr (key : pystr) : method DB (member + (attribute + pyobj)) :=
  except_AttributeError
    (let* a := object_getattribute key in ret (inl a))
    (let* a := __getattr__ key in ret (inr a)).
End Attributes.

(** *** Sample collaborators for attribute access *)

(** [object.__setattr__] and [object.__delattr__] on an instance of a class
    with [__slots__] and no [__dict__], as they answer for every name other
    than the slots: [AttributeError]. *)
Definition no_such_slot {DB A} : method DB A := throw AttributeError.

(** The names without a leading underscore that the body of class [KVS]
    binds: its public methods and their aliases. *)
Definition KVS_methods : list string :=
  ["set"; "put"; "get"; "delete"; "pop"; "keys"; "values"; "items"; "sync";
   "optimize"; "close"; "clear"]%string.

(** [object.__getattribute__] on a [KVS] object for names that do not start
    with an underscore: the bound method of that name, identified here by
    the name, or [AttributeError]. *)
Definition KVS_getattribute {DB} (key : pystr) : method DB string :=
  fun self =>
    match list_find (fun name => bool_decide (codepoints name = key))
            KVS_methods with
    | Some (_, name) => (ok name, self)
    | None => (raise AttributeError, self)
    end.

(** The public methods of [dict]. *)
Definition dict_methods : list string :=
  ["clear"; "copy"; "fromkeys"; "get"; "items"; "keys"; "pop"; "popitem";
   "setdefault"; "update"; "values"]%string.

(** [dict.__getattribute__] for names that do not start with an underscore:
    the bound method of that name, identified here by the name, or
    [AttributeError]. *)
Definition dict_getattribute (key : pystr) : call (gmap bytes bytes) string :=
  fun d =>
    match list_find (fun name => bool_decide (codepoints name = key))
            dict_methods with
    | Some (_, name) => (ok name, d)
    | None => (raise AttributeError, d)
    end.

(** ** Basic facts on text and keys *)

Lemma utf8_char_small c : (c < 0xD800)%N -> is_ok (utf8_char c) = true.
Proof.
  intros Hc. unfold utf8_char.
  repeat case_match; try reflexivity.
  apply andb_true_iff in H1 as [H1 _]. apply N.leb_le in H1. lia.
Qed.

Lemma encode_small s :
  Forall (fun c => (c < 0xD800)%N) s -> is_ok (encode s) = true.
Proof.
  induction 1 as [|c s Hc _ IH]; [reflexivity|].
  cbn [encode]. pose proof (utf8_char_small c Hc) as Hu.
  destruct (utf8_char c); [|discriminate]. cbn.
  destruct (encode s); [reflexivity|discriminate].
Qed.

Lemma codepoints_small s : Forall (fun c => (c < 0xD800)%N) (codepoints s).
Proof.
  unfold codepoints. rewrite Forall_map. apply Forall_forall. intros a _.
  cbn. pose proof (Ascii.N_ascii_bounded a). lia.
Qed.

Lemma encode_codepoints_ok s : is_ok (encode (codepoints s)) = true.
Proof. apply encode_small, codepoints_small. Qed.

(** ** The facade over the transient map *)

Section Transient.
Variable builtin_repr : pyobj -> pystr.
Implicit Types (m : gmap bytes bytes) (c : Codec) (key value : pyobj)
  (k : bytes).

Lemma convert_bytes k : _convert builtin_repr (PyBytes k) = ok k.
Proof. reflexivity. Qed.

Lemma getitem_dict m c key k :
  _convert builtin_repr key = ok k ->
  __getitem__ builtin_repr key (mkKVS m c) =
    (if truthy (m !! k) then loads c (default [] (m !! k)) else ok PyNone,
     mkKVS m c).
Proof.
  intros Hk. unfold __getitem__, bind, lift. rewrite Hk. cbn.
  destruct (truthy (m !! k)); cbn; [|reflexivity].
  destruct (loads c _); reflexivity.
Qed.

Lemma getitem_unsupported m c key e :
  _convert builtin_repr key = raise e ->
  __getitem__ builtin_repr key (mkKVS m c) = (raise e, mkKVS m c).
Proof. intros Hk. unfold __getitem__, bind, lift. by rewrite Hk. Qed.

Lemma delitem_dict m c key k :
  _convert builtin_repr key = ok k ->
  __delitem__ builtin_repr key (mkKVS m c) =
    (ok PyNone, mkKVS (delete k m) c).
Proof.
  intros Hk. unfold __delitem__, bind, lift. rewrite Hk. cbn.
  unfold except_KeyError, on_database. cbn.
  destruct (m !! k) eqn:Hm; cbn; [reflexivity|].
  by rewrite delete_id.
Qed.

Lemma delitem_unsupported m c key e :
  _convert builtin_repr key = raise e ->
  __delitem__ builtin_repr key (mkKVS m c) = (raise e, mkKVS m c).
Proof. intros Hk. unfold __delitem__, bind, lift. by rewrite Hk. Qed.

Lemma setitem_dict m c key value k :
  _convert builtin_repr key = ok k ->
  is_None value = false ->
  __setitem__ builtin_repr key value (mkKVS m c) =
    match dumps c value with
    | ok b => (ok PyNone, mkKVS (<[k:=b]> m) c)
    | raise e => (raise e, mkKVS m c)
    end.
Proof.
  intros Hk Hv. unfold __setitem__, bind, lift. rewrite Hk, Hv. cbn.
  destruct (dumps c value); reflexivity.
Qed.

Lemma setitem_None_dict m c key k :
  _convert builtin_repr key = ok k ->
  __setitem__ builtin_repr key PyNone (mkKVS m c) =
    (ok PyNone, mkKVS (delete k m) c).
Proof.
  intros Hk. unfold __setitem__, bind, lift. rewrite Hk.
  cbn [is_None negb]. by rewrite (delitem_dict m c (PyBytes k) k).
Qed.

Lemma setitem_unsupported m c key value e :
  _convert builtin_repr key = raise e ->
  __setitem__ builtin_repr key value (mkKVS m c) = (raise e, mkKVS m c).
Proof. intros Hk. unfold __setitem__, bind, lift. by rewrite Hk. Qed.

Lemma contains_dict m c key k :
  _convert builtin_repr key = ok k ->
  __contains__ builtin_repr key (mkKVS m c) =
    (ok (match m !! k with Some _ => true | None => false end), mkKVS m c).
Proof.
  intros Hk. unfold __contains__, bind, lift. by rewrite Hk.
Qed.

Lemma contains_unsupported m c key e :
  _convert builtin_repr key = raise e ->
  __contains__ builtin_repr key (mkKVS m c) = (raise e, mkKVS m c).
Proof. intros Hk. unfold __contains__, bind, lift. by rewrite Hk. Qed.
End Transient.

(** ** Key normalisation *)

Lemma encode_raises s e : encode s = raise e -> e = UnicodeEncodeError.
Proof.
  revert e. induction s as [|c s IH]; intros e; cbn [encode]; [discriminate|].
  destruct (utf8_char c) as [b|e'] eqn:Hc; cbn.
  - destruct (encode s) as [bs|e'']; cbn; [discriminate|].
    intros [= <-]. by apply IH.
  - intros [= <-]. unfold utf8_char in Hc.
    repeat case_match; congruence.
Qed.

Lemma str_int_small n : Forall (fun c => (c < 0xD800)%N) (str_int n).
Proof. apply codepoints_small. Qed.

(** The decimal text of an integer is ASCII, so encoding it never fails. *)
Lemma convert_int_ok builtin_repr n :
  is_ok (_convert builtin_repr (PyInt n)) = true.
Proof. apply encode_small, str_int_small. Qed.

Example convert_samples :
  _convert plain_repr (PyInt (-120)) = ok (ascii_bytes "-120") /\
  _convert plain_repr (PyBool true) = ok (ascii_bytes "True") /\
  _convert plain_repr (PyRange 0 3 1) = ok (ascii_bytes "range(0, 3)") /\
  _convert plain_repr (PyRange 0 3 2) = ok (ascii_bytes "range(0, 3, 2)") /\
  _convert plain_repr (PyTuple [PyInt 1]) = ok (ascii_bytes "(1,)") /\
  _convert plain_repr (PyTuple [PyInt 1; PyNone]) =
    ok (ascii_bytes "(1, None)") /\
  _convert plain_repr (PyStr [0xE9; 0x20AC; 0x1F600]%N) =
    ok (byte_of_N <$> [195; 169; 226; 130; 172; 240; 159; 152; 128]%N) /\
  _convert plain_repr (PyStr [0xD800]%N) = raise UnicodeEncodeError /\
  _convert plain_repr (PyByteArray (ascii_bytes "k")) = ok (ascii_bytes "k").
Proof. repeat split; vm_compute; reflexivity. Qed.

(** C4. [_convert] maps a key by its type: a [bytes] key is returned as it
    is, a [str] key is UTF-8 encoded, a [bytearray] key becomes the [bytes]
    with the same content, an [int] (or [bool]), [float], [complex],
    [range], [tuple] or [frozenset] key becomes the UTF-8 encoding of
    [str(key)], and a key of any other type raises
    [TypeError('Unsupported type.')]; a key of a supported type never raises
    that error. *)
Theorem convert_by_type (builtin_repr : pyobj -> pystr) (key : pyobj) :
  match key with
  | PyBytes b => _convert builtin_repr key = ok b
  | PyStr s => _convert builtin_repr key = encode s
  | PyByteArray b => _convert builtin_repr key = ok b
  | PyBool _ | PyInt _ | PyFloat _ | PyComplex _ _
  | PyRange _ _ _ | PyTuple _ | PyFrozenSet _ =>
      _convert builtin_repr key = encode (str builtin_repr key)
  | PyNone | PyList _ | PySet _ | PyDict _ =>
      _convert builtin_repr key = raise (TypeError "Unsupported type.")
  end /\
  (if supported_type (type_of key)
   then forall msg, _convert builtin_repr key <> raise (TypeError msg)
   else _convert builtin_repr key = raise (TypeError "Unsupported type.")).
Proof.
  split; [by destruct key|].
  destruct key; cbn [type_of supported_type _convert]; try reflexivity;
    intros msg Hr; try discriminate;
    by apply encode_raises in Hr.
Qed.

(** Keys that normalise alike are interchangeable in every method, on every
    backing object. *)
Lemma same_canonical_key_same_entry {DB} `{Backend DB} builtin_repr k1 k2
    (st : KVS DB) :
  _convert builtin_repr k1 = _convert builtin_repr k2 ->
  __getitem__ builtin_repr k1 st = __getitem__ builtin_repr k2 st /\
  (forall v, __setitem__ builtin_repr k1 v st =
             __setitem__ builtin_repr k2 v st) /\
  __delitem__ builtin_repr k1 st = __delitem__ builtin_repr k2 st /\
  __contains__ builtin_repr k1 st = __contains__ builtin_repr k2 st /\
  pop builtin_repr k1 st = pop builtin_repr k2 st.
Proof.
  intros Hk.
  assert (__getitem__ builtin_repr k1 = __getitem__ builtin_repr k2) as Hg
    by (unfold __getitem__; by rewrite Hk).
  assert (__delitem__ builtin_repr k1 = __delitem__ builtin_repr k2) as Hd
    by (unfold __delitem__; by rewrite Hk).
  repeat split.
  - by rewrite Hg.
  - intros v. unfold __setitem__. by rewrite Hk.
  - by rewrite Hd.
  - unfold __contains__. by rewrite Hk.
  - unfold pop. by rewrite Hg, Hd.
Qed.

Lemma has_text_convert builtin_repr key text :
  has_text builtin_repr key text -> _convert builtin_repr key = encode text.
Proof.
  destruct key; cbn; intros Ht; try contradiction;
    first [by subst | by rewrite Ht].
Qed.

(** Keys that compare equal normalise alike, unless they are ranges or a
    [bool] and an [int]. *)
Lemma py_eq_convert builtin_repr k1 k2 :
  py_eq k1 k2 = Some true ->
  type_of k1 <> t_range ->
  (type_of k1 = t_bool <-> type_of k2 = t_bool) ->
  _convert builtin_repr k1 = _convert builtin_repr k2.
Proof.
  intros Heq Hrange Hbool. unfold py_eq in Heq.
  destruct k1, k2; cbn in Heq; try discriminate;
    injection Heq as Heq; apply bool_decide_eq_true in Heq;
    try discriminate; injection Heq as Heq; subst;
    try reflexivity; try done; cbn in Hbool.
  - by destruct b, b0.
  - destruct Hbool as [Hbool _]. by specialize (Hbool eq_refl).
  - destruct Hbool as [_ Hbool]. by specialize (Hbool eq_refl).
Qed.

(** C5, as stated, fails: two ranges that list the same integers, and
    [True] and [1], compare equal, but [_convert] gives each of them the
    encoding of its own text, so a value stored under one is not found under
    the other. *)
Lemma equal_keys_normalise_apart :
  py_eq (PyRange 0 3 2) (PyRange 0 4 2) = Some true /\
  _convert plain_repr (PyRange 0 3 2) = ok (ascii_bytes "range(0, 3, 2)") /\
  _convert plain_repr (PyRange 0 4 2) = ok (ascii_bytes "range(0, 4, 2)") /\
  py_eq (PyBool true) (PyInt 1) = Some true /\
  _convert plain_repr (PyBool true) = ok (ascii_bytes "True") /\
  _convert plain_repr (PyInt 1) = ok (ascii_bytes "1") /\
  (__getitem__ plain_repr (PyRange 0 3 2)
     (__setitem__ plain_repr (PyRange 0 3 2) (PyBool true)
        (KVS_memory tagged_codec)).2).1 = ok (PyBool true) /\
  (__getitem__ plain_repr (PyRange 0 4 2)
     (__setitem__ plain_repr (PyRange 0 3 2) (PyBool true)
        (KVS_memory tagged_codec)).2).1 = ok PyNone.
Proof. repeat split; vm_compute; reflexivity. Qed.

(** C5, amended. [_convert] is computed from the key alone, from its type
    and the text it prints as. Keys that compare equal get the same canonical key
    when they are text, byte strings ([bytes] or [bytearray]), both [int] or
    both [bool]; keys of different supported types that stand for the same
    text get the same canonical key as well (the integer 1, the text "1"
    and the byte string b"1", three unequal keys, all become b"1"; an
    integer collides with its decimal text); and keys with the same
    canonical key denote the same entry in every method, on every backing
    object in every state. *)
Theorem normalisation_follows_text (builtin_repr : pyobj -> pystr) :
  (forall k1 k2, py_eq k1 k2 = Some true ->
     type_of k1 <> t_range ->
     (type_of k1 = t_bool <-> type_of k2 = t_bool) ->
     _convert builtin_repr k1 = _convert builtin_repr k2) /\
  (forall k1 k2 text,
     has_text builtin_repr k1 text -> has_text builtin_repr k2 text ->
     _convert builtin_repr k1 = _convert builtin_repr k2) /\
  (_convert builtin_repr (PyInt 1) = ok (ascii_bytes "1") /\
   _convert builtin_repr (PyStr (codepoints "1")) = ok (ascii_bytes "1") /\
   _convert builtin_repr (PyBytes (ascii_bytes "1")) = ok (ascii_bytes "1") /\
   py_eq (PyInt 1) (PyStr (codepoints "1")) = Some false /\
   py_eq (PyInt 1) (PyBytes (ascii_bytes "1")) = Some false /\
   py_eq (PyStr (codepoints "1")) (PyBytes (ascii_bytes "1")) = Some false) /\
  (forall n, within_str_digits n ->
     _convert builtin_repr (PyInt n) =
     _convert builtin_repr (PyStr (str_int n))) /\
  (forall DB (B : Backend DB) k1 k2 (st : KVS DB),
     _convert builtin_repr k1 = _convert builtin_repr k2 ->
     __getitem__ builtin_repr k1 st = __getitem__ builtin_repr k2 st /\
     (forall v, __setitem__ builtin_repr k1 v st =
                __setitem__ builtin_repr k2 v st) /\
     __delitem__ builtin_repr k1 st = __delitem__ builtin_repr k2 st /\
     __contains__ builtin_repr k1 st = __contains__ builtin_repr k2 st /\
     pop builtin_repr k1 st = pop builtin_repr k2 st).
Proof.
  split; [apply py_eq_convert|].
  split.
  { intros k1 k2 text H1 H2.
    by rewrite (has_text_convert _ _ _ H1), (has_text_convert _ _ _ H2). }
  split; [by vm_compute|].
  split; [done|].
  intros DB B k1 k2 st. apply same_canonical_key_same_entry.
Qed.

(** ** Every operation on the transient map, step by step *)

Section TransientSteps.
Variable builtin_repr : pyobj -> pystr.
Implicit Types (m : gmap bytes bytes) (c : Codec) (key value : pyobj)
  (k : bytes).

Lemma is_None_true value : is_None value = true -> value = PyNone.
Proof. by destruct value. Qed.

Lemma pop_dict m c key k :
  _convert builtin_repr key = ok k ->
  pop builtin_repr key (mkKVS m c) =
    match (__getitem__ builtin_repr key (mkKVS m c)).1 with
    | ok v => (ok v, mkKVS (delete k m) c)
    | raise e => (raise e, mkKVS m c)
    end.
Proof.
  intros Hk. unfold pop, bind at 1. rewrite (getitem_dict _ m c key k Hk).
  cbn [fst]. destruct (if truthy (m !! k) then _ else _); [|reflexivity].
  unfold bind. by rewrite (delitem_dict _ m c key k Hk).
Qed.

Lemma pop_unsupported m c key e :
  _convert builtin_repr key = raise e ->
  pop builtin_repr key (mkKVS m c) = (raise e, mkKVS m c).
Proof.
  intros Hk. unfold pop, bind. by rewrite (getitem_unsupported _ m c key e Hk).
Qed.

Lemma call_dict m c key value :
  __call__ builtin_repr key value (mkKVS m c) =
    if is_None value then __getitem__ builtin_repr key (mkKVS m c)
    else __setitem__ builtin_repr key value (mkKVS m c).
Proof.
  unfold __call__. destruct (is_None value) eqn:Hv; [reflexivity|].
  unfold bind at 1.
  destruct (_convert builtin_repr key) as [k|e] eqn:Hk.
  - rewrite (setitem_dict _ m c key value k Hk Hv).
    by destruct (dumps c value).
  - by rewrite (setitem_unsupported _ m c key value e Hk).
Qed.

Ltac step_case :=
  cbn [fst snd]; eexists; split; [reflexivity|]; eauto 8.

(** What one operation can do to the map: nothing, empty it, drop a key,
    or store the encoding of a value other than [None]. *)
Lemma perform_dict o m c :
  exists m', perform builtin_repr o (mkKVS m c) = mkKVS m' c /\
    (m' = m \/ m' = ∅ \/ (exists k, m' = delete k m) \/
     (exists k v b, stores builtin_repr k o /\ is_None v = false /\
        dumps c v = ok b /\ m' = <[k:=b]> m)).
Proof.
  assert (forall key value, exists m',
    (__setitem__ builtin_repr key value (mkKVS m c)).2 = mkKVS m' c /\
    (m' = m \/ m' = ∅ \/ (exists k, m' = delete k m) \/
     (exists k v b, (_convert builtin_repr key = ok k /\ is_None value = false)
        /\ is_None v = false /\ dumps c v = ok b /\ m' = <[k:=b]> m))) as Hset.
  { intros key value.
    destruct (_convert builtin_repr key) as [k|e] eqn:Hk.
    - destruct (is_None value) eqn:Hv.
      + apply is_None_true in Hv as ->.
        rewrite (setitem_None_dict _ m c key k Hk). step_case.
      + rewrite (setitem_dict _ m c key value k Hk Hv).
        destruct (dumps c value) as [b|e] eqn:Hd; [|step_case].
        exists (<[k:=b]> m). split; [done|]. do 3 right. by exists k, value, b.
    - rewrite (setitem_unsupported _ m c key value e Hk). step_case. }
  assert (forall key,
    (__getitem__ builtin_repr key (mkKVS m c)).2 = mkKVS m c) as Hget.
  { intros key. destruct (_convert builtin_repr key) as [k|e] eqn:Hk.
    - by rewrite (getitem_dict _ m c key k Hk).
    - by rewrite (getitem_unsupported _ m c key e Hk). }
  destruct o as [key value|key|key|key|key value|key| | | | | ];
    cbn [perform stores].
  - apply Hset.
  - rewrite Hget. step_case.
  - destruct (_convert builtin_repr key) as [k|e] eqn:Hk.
    + rewrite (delitem_dict _ m c key k Hk). step_case.
    + rewrite (delitem_unsupported _ m c key e Hk). step_case.
  - destruct (_convert builtin_repr key) as [k|e] eqn:Hk.
    + rewrite (contains_dict _ m c key k Hk). step_case.
    + rewrite (contains_unsupported _ m c key e Hk). step_case.
  - rewrite call_dict. destruct (Hset key value) as (m' & Hm' & Hc).
    destruct (is_None value) eqn:Hv.
    + rewrite Hget. step_case.
    + by exists m'.
  - destruct (_convert builtin_repr key) as [k|e] eqn:Hk.
    + rewrite (pop_dict m c key k Hk).
      destruct (__getitem__ builtin_repr key (mkKVS m c)).1; step_case.
    + rewrite (pop_unsupported m c key e Hk). step_case.
  - step_case.
  - step_case.
  - step_case.
  - step_case.
  - step_case.
Qed.

(** A key no operation of the history stored under is absent. *)
Lemma run_never_stored ops m c k :
  Forall (fun o => ~ stores builtin_repr k o) ops ->
  m !! k = None ->
  exists m', run builtin_repr ops (mkKVS m c) = mkKVS m' c /\ m' !! k = None.
Proof.
  intros Hops. revert m. induction Hops as [|o ops Ho _ IH]; intros m Hm.
  - by exists m.
  - cbn [run foldl].
    destruct (perform_dict o m c) as (m' & -> & Hcases).
    apply IH.
    destruct Hcases as [->|[->|[[k' ->]|(k' & v & b & Hs & _ & _ & ->)]]].
    + done.
    + apply lookup_empty.
    + rewrite lookup_delete. by case_decide.
    + rewrite lookup_insert_ne; [done|]. intros ->. by apply Ho.
Qed.

(** Histories keep the map well encoded. *)
Lemma run_well_encoded ops m c :
  codec_nonempty c ->
  well_encoded c m ->
  exists m', run builtin_repr ops (mkKVS m c) = mkKVS m' c /\
             well_encoded c m'.
Proof.
  intros Hne. revert m. induction ops as [|o ops IH]; intros m Hm.
  - by exists m.
  - cbn [run foldl].
    destruct (perform_dict o m c) as (m' & -> & Hcases).
    apply IH.
    destruct Hcases as [->|[->|[[k' ->]|(k' & v & b & _ & Hv & Hd & ->)]]].
    + done.
    + intros k b. by rewrite lookup_empty.
    + intros k b Hkb. apply (Hm k).
      rewrite lookup_delete in Hkb. by case_decide.
    + intros k b' Hkb. rewrite lookup_insert in Hkb. case_decide.
      * injection Hkb as <-. split; [by eapply Hne|]. by exists v.
      * by apply (Hm k).
Qed.
End TransientSteps.

(** ** The sample serializers *)

Lemma raw_codec_inverts : codec_inverts raw_codec.
Proof. intros v b. destruct v; cbn; congruence. Qed.

Lemma tagged_codec_inverts : codec_inverts tagged_codec.
Proof.
  intros v b. destruct v as [|[|]| | | | |b'| | | | | | |]; cbn;
    intros [= <-]; try reflexivity.
  by destruct b'.
Qed.

Lemma tagged_codec_nonempty : codec_nonempty tagged_codec.
Proof.
  intros v b. destruct v as [|[|]| | | | |b'| | | | | | |]; cbn;
    intros [= <-]; discriminate.
Qed.

(** ** Round trip *)

(** C1, as stated, fails: with a serializer that keeps byte strings as
    they are ([loads] inverts [dumps]), storing the empty byte string under
    "a" and reading "a" back answers [None]. *)
Lemma roundtrip_lost_on_empty_encoding :
  codec_inverts raw_codec /\
  _convert plain_repr key_a = ok (ascii_bytes "a") /\
  is_None (PyBytes []) = false /\
  dumps raw_codec (PyBytes []) = ok [] /\
  (__setitem__ plain_repr key_a (PyBytes []) (KVS_memory raw_codec)).1
    = ok PyNone /\
  (__getitem__ plain_repr key_a
     (__setitem__ plain_repr key_a (PyBytes []) (KVS_memory raw_codec)).2).1
    = ok PyNone /\
  PyNone <> PyBytes [].
Proof.
  split; [apply raw_codec_inverts|].
  repeat split; try (vm_compute; reflexivity). discriminate.
Qed.

(** C1, amended. For every supported key and every value other than [None]
    that the serializer encodes to a non-empty byte string, [set(k, v)]
    followed by [get(k)] on the transient map answers [v], whatever the map
    held before, provided [loads] inverts [dumps]. *)
Theorem set_then_get (builtin_repr : pyobj -> pystr) (c : Codec)
    (m : gmap bytes bytes) (key value : pyobj) (k b : bytes) :
  _convert builtin_repr key = ok k ->
  is_None value = false ->
  codec_inverts c ->
  dumps c value = ok b ->
  b <> [] ->
  (__setitem__ builtin_repr key value (mkKVS m c)).1 = ok PyNone /\
  __getitem__ builtin_repr key
    (__setitem__ builtin_repr key value (mkKVS m c)).2
  = (ok value, (__setitem__ builtin_repr key value (mkKVS m c)).2).
Proof.
  intros Hk Hv Hinv Hd Hb.
  rewrite (setitem_dict _ m c key value k Hk Hv), Hd. cbn [fst snd].
  split; [reflexivity|].
  rewrite (getitem_dict _ _ c key k Hk), lookup_insert_eq.
  destruct b as [|x b]; [done|]. cbn.
  by rewrite (Hinv value (x :: b) Hd).
Qed.

Lemma set_then_get_witness :
  (__setitem__ plain_repr key_a (PyBool true) (KVS_memory tagged_codec)).1
    = ok PyNone /\
  __getitem__ plain_repr key_a
    (__setitem__ plain_repr key_a (PyBool true) (KVS_memory tagged_codec)).2
  = (ok (PyBool true),
     (__setitem__ plain_repr key_a (PyBool true) (KVS_memory tagged_codec)).2).
Proof.
  apply (set_then_get plain_repr tagged_codec ∅ key_a (PyBool true)
           (ascii_bytes "a") (ascii_bytes "T")).
  - reflexivity.
  - reflexivity.
  - apply tagged_codec_inverts.
  - reflexivity.
  - discriminate.
Defined.

(** ** Absence *)

(** On every backing object [set(k, None)] is [delete(k)] with its answer
    dropped. *)
Lemma setitem_None_delitem {DB} `{Backend DB} builtin_repr key k
    (st : KVS DB) :
  _convert builtin_repr key = ok k ->
  __setitem__ builtin_repr key PyNone st
  = match __delitem__ builtin_repr key st with
    | (ok _, st') => (ok PyNone, st')
    | (raise e, st') => (raise e, st')
    end.
Proof.
  intros Hk. unfold __setitem__, __delitem__, bind, lift. rewrite Hk.
  cbn [is_None negb _convert].
  by destruct (except_KeyError _ st) as [[v|e] st'].
Qed.

(** X25. On the transient map, for every supported key: [get] of a key that
    no operation of the store's history stored under answers [None] and
    raises nothing (so does [get] of any key the map holds no entry for);
    [set(k, None)] stores nothing and does what [delete(k)] does; and a
    [get(k)] after it answers [None]. On every backing object
    [set(k, None)] leaves the store as [delete(k)] leaves it and raises
    exactly when [delete(k)] does, and [get(k)] answers [None] whenever the
    look-up it dispatches to answers [None] or the empty byte string. *)
Theorem absence_semantics (builtin_repr : pyobj -> pystr) (c : Codec)
    (key : pyobj) (k : bytes) :
  _convert builtin_repr key = ok k ->
  (forall ops, Forall (fun o => ~ stores builtin_repr k o) ops ->
     __getitem__ builtin_repr key (run builtin_repr ops (KVS_memory c))
     = (ok PyNone, run builtin_repr ops (KVS_memory c))) /\
  (forall m, m !! k = None ->
     __getitem__ builtin_repr key (mkKVS m c) = (ok PyNone, mkKVS m c)) /\
  (forall m,
     __setitem__ builtin_repr key PyNone (mkKVS m c)
     = (ok PyNone, mkKVS (delete k m) c) /\
     (__setitem__ builtin_repr key PyNone (mkKVS m c)).2
     = (__delitem__ builtin_repr key (mkKVS m c)).2 /\
     __getitem__ builtin_repr key
       (__setitem__ builtin_repr key PyNone (mkKVS m c)).2
     = (ok PyNone, (__setitem__ builtin_repr key PyNone (mkKVS m c)).2)) /\
  (forall DB (B : Backend DB) (st : KVS DB),
     (__setitem__ builtin_repr key PyNone st).2
     = (__delitem__ builtin_repr key st).2 /\
     is_ok (__setitem__ builtin_repr key PyNone st).1
     = is_ok (__delitem__ builtin_repr key st).1) /\
  (forall DB (B : Backend DB) (st st' : KVS DB) value,
     (if hasattr attr_get
      then invoke attr_get (fun get => get k)
      else invoke attr_getitem (fun __getitem__ => __getitem__ k)) st
     = (ok value, st') ->
     truthy value = false ->
     __getitem__ builtin_repr key st = (ok PyNone, st')).
Proof.
  intros Hk.
  assert (forall m, m !! k = None ->
     __getitem__ builtin_repr key (mkKVS m c) = (ok PyNone, mkKVS m c)) as Hnone.
  { intros m Hm. by rewrite (getitem_dict _ m c key k Hk), Hm. }
  split; [|split; [exact Hnone|split; [|split]]].
  - intros ops Hops.
    destruct (run_never_stored builtin_repr ops ∅ c k Hops (lookup_empty k))
      as (m' & Hrun & Hm').
    unfold KVS_memory. rewrite Hrun. by apply Hnone.
  - intros m. rewrite (setitem_None_dict _ m c key k Hk).
    rewrite (delitem_dict _ m c key k Hk). cbn [snd].
    repeat split. apply Hnone, lookup_delete_eq.
  - intros DB B st. rewrite (setitem_None_delitem _ key k st Hk).
    by destruct (__delitem__ builtin_repr key st) as [[v|e] st'].
  - intros DB B st st' value Hlook Hfalse.
    unfold __getitem__, bind, lift. by rewrite Hk, Hlook, Hfalse.
Qed.

Lemma absence_semantics_witness :
  __getitem__ plain_repr key_a
    (run plain_repr [OpSet (PyInt 7) (PyBool true); OpPop (PyInt 7)]
       (KVS_memory tagged_codec))
  = (ok PyNone,
     run plain_repr [OpSet (PyInt 7) (PyBool true); OpPop (PyInt 7)]
       (KVS_memory tagged_codec)).
Proof.
  pose proof (absence_semantics plain_repr tagged_codec key_a
                (ascii_bytes "a") eq_refl) as [Hnever _].
  apply Hnever.
  repeat constructor; intros Hs; vm_compute in Hs;
    first [destruct Hs as [[=] _] | destruct Hs].
Defined.

(** *** A mapping with the item protocol only *)

Section ItemProtocol.
Variable builtin_repr : pyobj -> pystr.
Implicit Types (r : gmap bytes bytes) (c : Codec) (key : pyobj) (k : bytes).

Lemma getitem_table r c key k :
  _convert builtin_repr key = ok k ->
  __getitem__ builtin_repr key (mkKVS (mkTable r) c)
  = (match r !! k with
     | Some b => if truthy (Some b) then loads c b else ok PyNone
     | None => raise KeyError
     end, mkKVS (mkTable r) c).
Proof.
  intros Hk. unfold __getitem__, bind, lift. rewrite Hk. cbn.
  unfold on_database. cbn.
  destruct (r !! k) as [b|]; [|reflexivity].
  destruct b as [|x b]; cbn; [reflexivity|].
  by destruct (loads c (x :: b)).
Qed.

Lemma delitem_table r c key k :
  _convert builtin_repr key = ok k ->
  __delitem__ builtin_repr key (mkKVS (mkTable r) c)
  = (ok PyNone, mkKVS (mkTable (delete k r)) c).
Proof.
  intros Hk. unfold __delitem__, bind, lift. rewrite Hk. cbn.
  unfold except_KeyError, on_database. cbn.
  destruct (r !! k) eqn:Hr; cbn; [reflexivity|].
  by rewrite delete_id.
Qed.

Lemma pop_table r c key k :
  _convert builtin_repr key = ok k ->
  pop builtin_repr key (mkKVS (mkTable r) c)
  = match (__getitem__ builtin_repr key (mkKVS (mkTable r) c)).1 with
    | ok v => (ok v, mkKVS (mkTable (delete k r)) c)
    | raise e => (raise e, mkKVS (mkTable r) c)
    end.
Proof.
  intros Hk. unfold pop, bind. rewrite (getitem_table r c key k Hk).
  cbn [fst].
  destruct (match r !! k with
            | Some b => if truthy (Some b) then loads c b else ok PyNone
            | None => raise KeyError
            end) as [v|e]; [|reflexivity].
  by rewrite (delitem_table r c key k Hk).
Qed.
End ItemProtocol.

(** C2. On a mapping that exposes the item protocol only, the look-up that
    [get] dispatches to is [__getitem__], and the [KeyError] it raises for
    a key it holds nothing under comes out of [get]: [get] of a key never
    set raises instead of answering [None], and so does [get(k)] after
    [set(k, None)], which itself removes the entry as [delete(k)] does and
    raises nothing. *)
Theorem get_of_missing_item_raises :
  (forall builtin_repr c r key k,
     _convert builtin_repr key = ok k ->
     r !! k = None ->
     __getitem__ builtin_repr key (mkKVS (mkTable r) c)
     = (raise KeyError, mkKVS (mkTable r) c)) /\
  (forall builtin_repr c r key k,
     _convert builtin_repr key = ok k ->
     __setitem__ builtin_repr key PyNone (mkKVS (mkTable r) c)
     = (ok PyNone, mkKVS (mkTable (delete k r)) c) /\
     __getitem__ builtin_repr key (mkKVS (mkTable (delete k r)) c)
     = (raise KeyError, mkKVS (mkTable (delete k r)) c)) /\
  __getitem__ plain_repr key_a (mkKVS (mkTable ∅) tagged_codec)
  = (raise KeyError, mkKVS (mkTable ∅) tagged_codec) /\
  __getitem__ plain_repr key_a
    (__setitem__ plain_repr key_a PyNone
       (mkKVS (mkTable {[ ascii_bytes "a" := ascii_bytes "T" ]})
          tagged_codec)).2
  = (raise KeyError,
     mkKVS (mkTable (delete (ascii_bytes "a")
                       {[ ascii_bytes "a" := ascii_bytes "T" ]}))
       tagged_codec).
Proof.
  assert (forall builtin_repr c r key k,
     _convert builtin_repr key = ok k ->
     r !! k = None ->
     __getitem__ builtin_repr key (mkKVS (mkTable r) c)
     = (raise KeyError, mkKVS (mkTable r) c)) as Hmissing.
  { intros builtin_repr c r key k Hk Hr.
    by rewrite (getitem_table builtin_repr r c key k Hk), Hr. }
  assert (forall builtin_repr c r key k,
     _convert builtin_repr key = ok k ->
     __setitem__ builtin_repr key PyNone (mkKVS (mkTable r) c)
     = (ok PyNone, mkKVS (mkTable (delete k r)) c)) as Hset.
  { intros builtin_repr c r key k Hk.
    rewrite (setitem_None_delitem builtin_repr key k _ Hk).
    by rewrite (delitem_table builtin_repr r c key k Hk). }
  split; [exact Hmissing|]. split; [|split].
  - intros builtin_repr c r key k Hk. split; [by apply Hset|].
    apply (Hmissing _ _ _ _ k Hk), lookup_delete_eq.
  - by apply (Hmissing plain_repr _ _ key_a (ascii_bytes "a")).
  - rewrite (Hset plain_repr _ _ key_a (ascii_bytes "a") eq_refl). cbn [snd].
    apply (Hmissing plain_repr _ _ key_a (ascii_bytes "a") eq_refl),
      lookup_delete_eq.
Qed.

(** ** Deletion *)

(** C3. [delete(k)] succeeds whether or not the key is present. On any
    backing object, a [KeyError] raised by the removal the facade
    dispatches to ([delete] if exposed, [__delitem__] otherwise) is
    swallowed and [None] is answered; on the transient map [delete] never
    raises for a supported key, and a second [delete(k)] in a row answers
    [None] and changes nothing. *)
Theorem delete_idempotent (builtin_repr : pyobj -> pystr) (key : pyobj)
    (k : bytes) :
  _convert builtin_repr key = ok k ->
  (forall DB (B : Backend DB) (st st' : KVS DB),
     (if hasattr attr_delete
      then invoke attr_delete (fun delete => delete k)
      else invoke attr_delitem (fun __delitem__ => __delitem__ k)) st
     = (raise KeyError, st') ->
     __delitem__ builtin_repr key st = (ok PyNone, st')) /\
  (forall c m,
     __delitem__ builtin_repr key (mkKVS m c)
     = (ok PyNone, mkKVS (delete k m) c) /\
     __delitem__ builtin_repr key (__delitem__ builtin_repr key (mkKVS m c)).2
     = (ok PyNone, (__delitem__ builtin_repr key (mkKVS m c)).2)) /\
  (forall c m, m !! k = None ->
     __delitem__ builtin_repr key (mkKVS m c) = (ok PyNone, mkKVS m c)).
Proof.
  intros Hk. split; [|split].
  - intros DB B st st' Hraise.
    unfold __delitem__, bind, lift. rewrite Hk.
    unfold except_KeyError. by rewrite Hraise.
  - intros c m. rewrite (delitem_dict _ m c key k Hk). cbn [snd].
    split; [reflexivity|].
    rewrite (delitem_dict _ _ c key k Hk). by rewrite delete_delete_eq.
  - intros c m Hm. rewrite (delitem_dict _ m c key k Hk).
    by rewrite delete_id.
Qed.

Lemma delete_idempotent_witness :
  __delitem__ plain_repr key_a (KVS_memory tagged_codec)
  = (ok PyNone, KVS_memory tagged_codec) /\
  __delitem__ plain_repr key_a
    (__delitem__ plain_repr key_a
       (mkKVS {[ ascii_bytes "a" := ascii_bytes "T" ]} tagged_codec)).2
  = (ok PyNone,
     (__delitem__ plain_repr key_a
       (mkKVS {[ ascii_bytes "a" := ascii_bytes "T" ]} tagged_codec)).2).
Proof.
  pose proof (delete_idempotent plain_repr key_a (ascii_bytes "a") eq_refl)
    as (_ & Htwice & Hmissing).
  split.
  - apply Hmissing, lookup_empty.
  - apply Htwice.
Defined.

(** ** Pop *)

(** X26. On the transient map, for every supported key, [pop(k)] answers
    what [get(k)] answers on the store as it was (raising what [get]
    raises); when [get] answers, the entry is removed and a [get(k)]
    afterwards answers [None]; [pop] of a missing key answers [None],
    raises nothing and leaves the store as it was. On every backing object
    [pop(k)] is [get(k)] followed by [delete(k)], answering what [get]
    answered. *)
Theorem pop_reads_then_removes (builtin_repr : pyobj -> pystr) (c : Codec)
    (m : gmap bytes bytes) (key : pyobj) (k : bytes) :
  _convert builtin_repr key = ok k ->
  (pop builtin_repr key (mkKVS m c)).1
  = (__getitem__ builtin_repr key (mkKVS m c)).1 /\
  (forall v, (__getitem__ builtin_repr key (mkKVS m c)).1 = ok v ->
     pop builtin_repr key (mkKVS m c) = (ok v, mkKVS (delete k m) c) /\
     __getitem__ builtin_repr key (pop builtin_repr key (mkKVS m c)).2
     = (ok PyNone, (pop builtin_repr key (mkKVS m c)).2)) /\
  (m !! k = None ->
     pop builtin_repr key (mkKVS m c) = (ok PyNone, mkKVS m c)) /\
  (forall DB (B : Backend DB) (st : KVS DB),
     pop builtin_repr key st =
       match __getitem__ builtin_repr key st with
       | (ok v, st1) =>
           match __delitem__ builtin_repr key st1 with
           | (ok _, st2) => (ok v, st2)
           | (raise e, st2) => (raise e, st2)
           end
       | (raise e, st1) => (raise e, st1)
       end).
Proof.
  intros Hk. rewrite (pop_dict _ m c key k Hk).
  split; [|split; [|split]].
  - by destruct (__getitem__ builtin_repr key (mkKVS m c)).1.
  - intros v ->. split; [reflexivity|]. cbn [snd].
    by rewrite (getitem_dict _ _ c key k Hk), lookup_delete_eq.
  - intros Hm. rewrite (getitem_dict _ m c key k Hk), Hm. cbn.
    by rewrite delete_id.
  - intros DB B st. unfold pop, bind.
    destruct (__getitem__ builtin_repr key st) as [[v|e] st1]; [|reflexivity].
    by destruct (__delitem__ builtin_repr key st1) as [[v'|e] st2].
Qed.

Lemma pop_reads_then_removes_witness :
  pop plain_repr key_a
    (mkKVS {[ ascii_bytes "a" := ascii_bytes "T" ]} tagged_codec)
  = (ok (PyBool true), mkKVS (delete (ascii_bytes "a")
       {[ ascii_bytes "a" := ascii_bytes "T" ]}) tagged_codec).
Proof.
  pose proof (pop_reads_then_removes plain_repr tagged_codec
    {[ ascii_bytes "a" := ascii_bytes "T" ]} key_a (ascii_bytes "a") eq_refl)
    as (_ & Hpop & _).
  apply (Hpop (PyBool true)). by vm_compute.
Defined.

(** C7. On a mapping that exposes the item protocol only, [pop] of a key
    the mapping holds nothing under raises the [KeyError] of the look-up
    instead of answering [None], the mapping unchanged; [pop] of a key with
    an entry answers what [get] answered and removes the entry, and a
    [get] of the key afterwards raises [KeyError] instead of answering
    [None]. *)
Theorem pop_of_missing_item_raises :
  (forall builtin_repr c r key k,
     _convert builtin_repr key = ok k ->
     r !! k = None ->
     pop builtin_repr key (mkKVS (mkTable r) c)
     = (raise KeyError, mkKVS (mkTable r) c)) /\
  (forall builtin_repr c r key k v,
     _convert builtin_repr key = ok k ->
     (__getitem__ builtin_repr key (mkKVS (mkTable r) c)).1 = ok v ->
     pop builtin_repr key (mkKVS (mkTable r) c)
     = (ok v, mkKVS (mkTable (delete k r)) c) /\
     __getitem__ builtin_repr key (mkKVS (mkTable (delete k r)) c)
     = (raise KeyError, mkKVS (mkTable (delete k r)) c)) /\
  pop plain_repr key_a (mkKVS (mkTable ∅) tagged_codec)
  = (raise KeyError, mkKVS (mkTable ∅) tagged_codec) /\
  pop plain_repr key_a
    (mkKVS (mkTable {[ ascii_bytes "a" := ascii_bytes "T" ]}) tagged_codec)
  = (ok (PyBool true),
     mkKVS (mkTable (delete (ascii_bytes "a")
                       {[ ascii_bytes "a" := ascii_bytes "T" ]}))
       tagged_codec) /\
  __getitem__ plain_repr key_a
    (pop plain_repr key_a
       (mkKVS (mkTable {[ ascii_bytes "a" := ascii_bytes "T" ]})
          tagged_codec)).2
  = (raise KeyError,
     mkKVS (mkTable (delete (ascii_bytes "a")
                       {[ ascii_bytes "a" := ascii_bytes "T" ]}))
       tagged_codec).
Proof.
  assert (forall builtin_repr c r key k,
     _convert builtin_repr key = ok k ->
     r !! k = None ->
     pop builtin_repr key (mkKVS (mkTable r) c)
     = (raise KeyError, mkKVS (mkTable r) c)) as Hmissing.
  { intros builtin_repr c r key k Hk Hr.
    rewrite (pop_table builtin_repr r c key k Hk).
    by rewrite (getitem_table builtin_repr r c key k Hk), Hr. }
  assert (forall builtin_repr c r key k v,
     _convert builtin_repr key = ok k ->
     (__getitem__ builtin_repr key (mkKVS (mkTable r) c)).1 = ok v ->
     pop builtin_repr key (mkKVS (mkTable r) c)
     = (ok v, mkKVS (mkTable (delete k r)) c) /\
     __getitem__ builtin_repr key (mkKVS (mkTable (delete k r)) c)
     = (raise KeyError, mkKVS (mkTable (delete k r)) c)) as Hfound.
  { intros builtin_repr c r key k v Hk Hv.
    rewrite (pop_table builtin_repr r c key k Hk), Hv.
    split; [reflexivity|].
    by rewrite (getitem_table builtin_repr _ c key k Hk), lookup_delete_eq. }
  split; [exact Hmissing|]. split; [exact Hfound|].
  destruct (Hfound plain_repr tagged_codec
              {[ ascii_bytes "a" := ascii_bytes "T" ]} key_a
              (ascii_bytes "a") (PyBool true) eq_refl) as [Hpop Hget].
  { by vm_compute. }
  split; [by apply (Hmissing plain_repr _ _ key_a (ascii_bytes "a"))|].
  split; [exact Hpop|]. by rewrite Hpop.
Qed.

(** ** Frame *)

(** C10. On the transient map, [set(k, v)] and [delete(k)] leave every
    entry stored under a canonical key other than the one [k] normalises
    to as it was, and leave the serializer slot as it was; the database
    slot still holds the same map, changed in place at most at that
    key. *)
Theorem set_delete_frame (builtin_repr : pyobj -> pystr) (c : Codec)
    (m : gmap bytes bytes) (key value : pyobj) (k' : bytes) :
  _convert builtin_repr key <> ok k' ->
  (_database (__setitem__ builtin_repr key value (mkKVS m c)).2 !! k'
     = m !! k' /\
   _serialize (__setitem__ builtin_repr key value (mkKVS m c)).2 = c) /\
  (_database (__delitem__ builtin_repr key (mkKVS m c)).2 !! k' = m !! k' /\
   _serialize (__delitem__ builtin_repr key (mkKVS m c)).2 = c).
Proof.
  intros Hne.
  destruct (_convert builtin_repr key) as [k|e] eqn:Hk.
  - assert (k <> k') as Hkk by congruence.
    split.
    + destruct (is_None value) eqn:Hv.
      * apply is_None_true in Hv as ->.
        rewrite (setitem_None_dict _ m c key k Hk). cbn.
        by rewrite lookup_delete_ne.
      * rewrite (setitem_dict _ m c key value k Hk Hv).
        destruct (dumps c value); cbn; [|done].
        by rewrite lookup_insert_ne.
    + rewrite (delitem_dict _ m c key k Hk). cbn.
      by rewrite lookup_delete_ne.
  - rewrite (setitem_unsupported _ m c key value e Hk).
    by rewrite (delitem_unsupported _ m c key e Hk).
Qed.

Lemma set_delete_frame_witness :
  (_database (__setitem__ plain_repr key_a (PyBool false)
     (mkKVS {[ ascii_bytes "b" := ascii_bytes "T" ]} tagged_codec)).2
     !! ascii_bytes "b"
   = ({[ ascii_bytes "b" := ascii_bytes "T" ]} : gmap bytes bytes)
     !! ascii_bytes "b" /\
   _serialize (__setitem__ plain_repr key_a (PyBool false)
     (mkKVS {[ ascii_bytes "b" := ascii_bytes "T" ]} tagged_codec)).2
   = tagged_codec) /\
  (_database (__delitem__ plain_repr key_a
     (mkKVS {[ ascii_bytes "b" := ascii_bytes "T" ]} tagged_codec)).2
     !! ascii_bytes "b"
   = ({[ ascii_bytes "b" := ascii_bytes "T" ]} : gmap bytes bytes)
     !! ascii_bytes "b" /\
   _serialize (__delitem__ plain_repr key_a
     (mkKVS {[ ascii_bytes "b" := ascii_bytes "T" ]} tagged_codec)).2
   = tagged_codec).
Proof.
  apply (set_delete_frame plain_repr tagged_codec
           {[ ascii_bytes "b" := ascii_bytes "T" ]} key_a (PyBool false)
           (ascii_bytes "b")).
  intros Heq. vm_compute in Heq. discriminate Heq.
Defined.

(** ** Containment *)

(** C6, as stated, fails: with the serializer that keeps byte strings as
    they are, after [set("a", b"")] on a fresh transient store the native
    containment test answers [True] while [get("a")] answers [None], and
    the [get]-based fallback answers [False]. *)
Lemma contains_disagrees_on_empty_encoding :
  (__contains__ plain_repr key_a
     (run plain_repr [OpSet key_a (PyBytes [])] (KVS_memory raw_codec))).1
  = ok true /\
  (__getitem__ plain_repr key_a
     (run plain_repr [OpSet key_a (PyBytes [])] (KVS_memory raw_codec))).1
  = ok PyNone /\
  (contains_native (ascii_bytes "a")
     (run plain_repr [OpSet key_a (PyBytes [])] (KVS_memory raw_codec))).1
  = ok true /\
  (contains_fallback plain_repr (ascii_bytes "a")
     (run plain_repr [OpSet key_a (PyBytes [])] (KVS_memory raw_codec))).1
  = ok false.
Proof. repeat split; vm_compute; reflexivity. Qed.

(** C6, amended. Provided [loads] inverts [dumps] and [dumps] never answers
    the empty byte string, in every state a fresh transient store reaches
    through the facade's operations and for every supported key,
    [contains(k)] is true exactly when [get(k)] answers something other
    than [None]; the native containment test and the [get]-based fallback
    give that same answer, and none of them raises or changes the
    store. *)
Theorem contains_agrees_with_get (builtin_repr : pyobj -> pystr) (c : Codec)
    (ops : list operation) (key : pyobj) (k : bytes) :
  codec_inverts c ->
  codec_nonempty c ->
  _convert builtin_repr key = ok k ->
  exists v,
    __getitem__ builtin_repr key (run builtin_repr ops (KVS_memory c))
    = (ok v, run builtin_repr ops (KVS_memory c)) /\
    __contains__ builtin_repr key (run builtin_repr ops (KVS_memory c))
    = (ok (negb (is_None v)), run builtin_repr ops (KVS_memory c)) /\
    contains_native k (run builtin_repr ops (KVS_memory c))
    = (ok (negb (is_None v)), run builtin_repr ops (KVS_memory c)) /\
    contains_fallback builtin_repr k (run builtin_repr ops (KVS_memory c))
    = (ok (negb (is_None v)), run builtin_repr ops (KVS_memory c)).
Proof.
  intros Hinv Hne Hk.
  destruct (run_well_encoded builtin_repr ops ∅ c Hne) as (m & Hrun & Hm).
  { intros k' b. by rewrite lookup_empty. }
  unfold KVS_memory. rewrite Hrun.
  rewrite (getitem_dict _ m c key k Hk), (contains_dict _ m c key k Hk).
  unfold contains_fallback, bind.
  rewrite (getitem_dict _ m c (PyBytes k) k eq_refl).
  unfold contains_native, invoke, on_database. cbn [attr_contains
    dict_backend _database _serialize].
  destruct (m !! k) as [b|] eqn:Hb.
  - destruct (Hm k b Hb) as (Hnonempty & v & Hd & Hv).
    exists v. destruct b as [|x b]; [done|]. cbn.
    rewrite (Hinv v (x :: b) Hd). unfold ret. by rewrite Hv.
  - by exists PyNone.
Qed.

Lemma contains_agrees_with_get_witness :
  exists v,
    __getitem__ plain_repr key_a
      (run plain_repr [OpSet key_a (PyBool true)] (KVS_memory tagged_codec))
    = (ok v,
       run plain_repr [OpSet key_a (PyBool true)] (KVS_memory tagged_codec)) /\
    __contains__ plain_repr key_a
      (run plain_repr [OpSet key_a (PyBool true)] (KVS_memory tagged_codec))
    = (ok (negb (is_None v)),
       run plain_repr [OpSet key_a (PyBool true)] (KVS_memory tagged_codec)) /\
    contains_native (ascii_bytes "a")
      (run plain_repr [OpSet key_a (PyBool true)] (KVS_memory tagged_codec))
    = (ok (negb (is_None v)),
       run plain_repr [OpSet key_a (PyBool true)] (KVS_memory tagged_codec)) /\
    contains_fallback plain_repr (ascii_bytes "a")
      (run plain_repr [OpSet key_a (PyBool true)] (KVS_memory tagged_codec))
    = (ok (negb (is_None v)),
       run plain_repr [OpSet key_a (PyBool true)] (KVS_memory tagged_codec)).
Proof.
  exact (contains_agrees_with_get plain_repr tagged_codec
           [OpSet key_a (PyBool true)] key_a (ascii_bytes "a")
           tagged_codec_inverts tagged_codec_nonempty eq_refl).
Defined.

(** ** Closing *)

Lemma sync_no_attr {DB} `{Backend DB} (st : KVS DB) :
  attr_sync = None -> sync st = (ok tt, st).
Proof. unfold sync. by intros ->. Qed.

(** [close] on any backing object, spelled out. *)
Lemma close_unfold {DB} `{Backend DB} (st : KVS DB) :
  close st =
    match sync st with
    | (ok _, st1) =>
        match attr_close with
        | Some release => on_database release st1
        | None => (ok tt, st1)
        end
    | (raise e, st1) => (raise e, st1)
    end.
Proof.
  unfold close, bind. destruct (sync st) as [[[]|e] st1]; [|reflexivity].
  by destruct attr_close.
Qed.

(** C8, as stated, fails. The facade keeps no record of having been closed:
    on a client counting its releases, two [close()] calls release it
    twice; on a handle that refuses [sync] once closed, the second
    [close()] raises. *)
Lemma close_twice_is_no_noop :
  released (_database (close (mkKVS (mkClient ∅ 0) raw_codec)).2) = 1 /\
  released (_database
    (close (close (mkKVS (mkClient ∅ 0) raw_codec)).2).2) = 2 /\
  (close (mkKVS (mkHandle ∅ true) raw_codec)).1 = ok tt /\
  (close (close (mkKVS (mkHandle ∅ true) raw_codec)).2).1
  = raise (Raised "error").
Proof. repeat split. Qed.

(** C8, amended. [close()] performs [sync()] and then, unless [sync]
    raised, calls the backing object's [close] when it exposes one; it does
    so on every call. On a backing object exposing neither [sync] nor
    [close], such as the transient map, [close()] and the finalizer answer
    without raising and leave the store as it was, however often they are
    called. *)
Theorem close_every_call (builtin_repr : pyobj -> pystr) :
  (forall DB (B : Backend DB) (st : KVS DB),
     close st =
       match sync st with
       | (ok _, st1) =>
           match attr_close with
           | Some release => on_database release st1
           | None => (ok tt, st1)
           end
       | (raise e, st1) => (raise e, st1)
       end) /\
  (forall DB (B : Backend DB) (st : KVS DB),
     attr_sync = None -> attr_close = None ->
     close st = (ok tt, st) /\ __del__ st = (ok tt, st)) /\
  (forall c (m : gmap bytes bytes) n,
     close (mkKVS m c) = (ok tt, mkKVS m c) /\
     __del__ (mkKVS m c) = (ok tt, mkKVS m c) /\
     run builtin_repr (replicate n OpClose) (mkKVS m c) = mkKVS m c).
Proof.
  split; [intros; apply close_unfold|].
  split.
  - intros DB B st Hsync Hclose.
    assert (close st = (ok tt, st)) as Hc.
    { by rewrite close_unfold, (sync_no_attr st Hsync), Hclose. }
    split; [exact Hc|].
    unfold __del__, bind. by rewrite (sync_no_attr st Hsync).
  - intros c m n. repeat split.
    induction n as [|n IH]; [reflexivity|exact IH].
Qed.

(** ** Call style *)

(** [set] answers [None] when it does not raise. *)
Lemma setitem_then_None {DB} `{Backend DB} builtin_repr key value
    (st : KVS DB) :
  (__setitem__ builtin_repr key value ;; ret PyNone) st
  = __setitem__ builtin_repr key value st.
Proof.
  unfold __setitem__, bind, lift, slot, ret.
  destruct (_convert builtin_repr key) as [k|e]; [|reflexivity].
  destruct (negb (is_None value)).
  - destruct (dumps (_serialize st) value) as [b|e]; [|reflexivity].
    destruct (hasattr attr_set).
    + by destruct (invoke attr_set _ st) as [[[]|e] st'].
    + by destruct (invoke attr_setitem _ st) as [[[]|e] st'].
  - by destruct (__delitem__ builtin_repr (PyBytes k) st) as [[v|e] st'].
Qed.

(** C9, as stated, fails: called with a key and the value [None], the
    facade reads the entry and keeps it, whereas [set(key, None)] removes
    it. *)
Lemma call_with_None_reads :
  __call__ plain_repr key_a PyNone
    (mkKVS {[ ascii_bytes "a" := ascii_bytes "T" ]} tagged_codec)
  = (ok (PyBool true),
     mkKVS {[ ascii_bytes "a" := ascii_bytes "T" ]} tagged_codec) /\
  _database (__call__ plain_repr key_a PyNone
    (mkKVS {[ ascii_bytes "a" := ascii_bytes "T" ]} tagged_codec)).2
    !! ascii_bytes "a" = Some (ascii_bytes "T") /\
  (__setitem__ plain_repr key_a PyNone
    (mkKVS {[ ascii_bytes "a" := ascii_bytes "T" ]} tagged_codec)).1
  = ok PyNone /\
  _database (__setitem__ plain_repr key_a PyNone
    (mkKVS {[ ascii_bytes "a" := ascii_bytes "T" ]} tagged_codec)).2
    !! ascii_bytes "a" = None.
Proof. repeat split; vm_compute; reflexivity. Qed.

(** C9, amended. On every backing object, calling the facade with only a
    key, or with a key and [None], performs [get(key)] and answers its
    result; calling it with a key and a value other than [None] performs
    [set(key, value)]. *)
Theorem call_dispatch (builtin_repr : pyobj -> pystr) (DB : Type)
    (B : Backend DB) (key value : pyobj) (st : KVS DB) :
  __call__ builtin_repr key PyNone st = __getitem__ builtin_repr key st /\
  (if is_None value
   then __call__ builtin_repr key value st = __getitem__ builtin_repr key st
   else __call__ builtin_repr key value st
        = __setitem__ builtin_repr key value st).
Proof.
  split; [reflexivity|].
  unfold __call__. destruct (is_None value); [reflexivity|].
  apply setitem_then_None.
Qed.

(** ** Failures before any effect *)

(** X1. On every backing object, a key that [_convert] rejects makes
    [get], [set], [delete], [in], [pop] and the call form raise what
    [_convert] raised, with the store as it was: neither the backing object
    nor the serializer is reached. For a key of an unsupported type, what
    is raised is [TypeError('Unsupported type.')]. *)
Theorem rejected_key_touches_nothing (builtin_repr : pyobj -> pystr)
    (DB : Type) (B : Backend DB) (key value : pyobj) (e : exn) (st : KVS DB) :
  _convert builtin_repr key = raise e ->
  __getitem__ builtin_repr key st = (raise e, st) /\
  __setitem__ builtin_repr key value st = (raise e, st) /\
  __delitem__ builtin_repr key st = (raise e, st) /\
  __contains__ builtin_repr key st = (raise e, st) /\
  pop builtin_repr key st = (raise e, st) /\
  __call__ builtin_repr key value st = (raise e, st) /\
  (if supported_type (type_of key) then True
   else e = TypeError "Unsupported type.").
Proof.
  intros Hk.
  assert (__getitem__ builtin_repr key st = (raise e, st)) as Hget
    by (unfold __getitem__, bind, lift; by rewrite Hk).
  assert (__setitem__ builtin_repr key value st = (raise e, st)) as Hset
    by (unfold __setitem__, bind, lift; by rewrite Hk).
  repeat split; try done.
  - unfold __delitem__, bind, lift. by rewrite Hk.
  - unfold __contains__, bind, lift. by rewrite Hk.
  - unfold pop, bind. by rewrite Hget.
  - unfold __call__. destruct (is_None value); [done|].
    unfold bind. by rewrite Hset.
  - destruct key; cbn [type_of supported_type]; try exact I;
      cbn in Hk; congruence.
Qed.

Lemma rejected_key_touches_nothing_witness :
  __getitem__ plain_repr (PyList []) (KVS_memory tagged_codec)
    = (raise (TypeError "Unsupported type."), KVS_memory tagged_codec) /\
  __setitem__ plain_repr (PyList []) (PyBool true) (KVS_memory tagged_codec)
    = (raise (TypeError "Unsupported type."), KVS_memory tagged_codec) /\
  __delitem__ plain_repr (PyList []) (KVS_memory tagged_codec)
    = (raise (TypeError "Unsupported type."), KVS_memory tagged_codec) /\
  __contains__ plain_repr (PyList []) (KVS_memory tagged_codec)
    = (raise (TypeError "Unsupported type."), KVS_memory tagged_codec) /\
  pop plain_repr (PyList []) (KVS_memory tagged_codec)
    = (raise (TypeError "Unsupported type."), KVS_memory tagged_codec) /\
  __call__ plain_repr (PyList []) (PyBool true) (KVS_memory tagged_codec)
    = (raise (TypeError "Unsupported type."), KVS_memory tagged_codec) /\
  (if supported_type (type_of (PyList [])) then True
   else TypeError "Unsupported type." = TypeError "Unsupported type.").
Proof.
  exact (rejected_key_touches_nothing plain_repr _ _ (PyList [])
           (PyBool true) (TypeError "Unsupported type.")
           (KVS_memory tagged_codec) eq_refl).
Defined.

(** X2. On every backing object, a value other than [None] that the
    serializer refuses makes [set] and the call form raise what [dumps]
    raised, with the store as it was: the value is encoded before the
    backing object is written to. *)
Theorem refused_value_touches_nothing (builtin_repr : pyobj -> pystr)
    (DB : Type) (B : Backend DB) (key value : pyobj) (k : bytes) (e : exn)
    (st : KVS DB) :
  _convert builtin_repr key = ok k ->
  is_None value = false ->
  dumps (_serialize st) value = raise e ->
  __setitem__ builtin_repr key value st = (raise e, st) /\
  __call__ builtin_repr key value st = (raise e, st).
Proof.
  intros Hk Hv Hd.
  assert (__setitem__ builtin_repr key value st = (raise e, st)) as Hset.
  { unfold __setitem__, bind, lift, slot. rewrite Hk, Hv. cbn.
    by rewrite Hd. }
  split; [done|].
  unfold __call__. rewrite Hv. unfold bind. by rewrite Hset.
Qed.

Lemma refused_value_touches_nothing_witness :
  __setitem__ plain_repr key_a (PyInt 1)
    (mkKVS (mkClient {[ ascii_bytes "a" := ascii_bytes "T" ]} 0) tagged_codec)
  = (raise (TypeError "not serializable"),
     mkKVS (mkClient {[ ascii_bytes "a" := ascii_bytes "T" ]} 0)
       tagged_codec) /\
  __call__ plain_repr key_a (PyInt 1)
    (mkKVS (mkClient {[ ascii_bytes "a" := ascii_bytes "T" ]} 0) tagged_codec)
  = (raise (TypeError "not serializable"),
     mkKVS (mkClient {[ ascii_bytes "a" := ascii_bytes "T" ]} 0)
       tagged_codec).
Proof.
  exact (refused_value_touches_nothing plain_repr _ _ key_a (PyInt 1)
           (ascii_bytes "a") (TypeError "not serializable")
           (mkKVS (mkClient {[ ascii_bytes "a" := ascii_bytes "T" ]} 0)
              tagged_codec)
           eq_refl eq_refl eq_refl).
Defined.

(** ** Writes and reads on the transient map *)

(** X3. On the transient map the last write wins: whatever a [set] under a
    key did before (stored a value, removed the entry for [None], or raised
    on a value the serializer refuses), a [set] of an encodable value under
    a key with the same canonical key leaves the map exactly as if it had
    been the only one; with [loads] inverting [dumps] and a non-empty
    encoding, a [get] under either key then answers the second value. *)
Theorem last_write_wins (builtin_repr : pyobj -> pystr) (c : Codec)
    (m : gmap bytes bytes) (key1 key2 value1 value2 : pyobj) (k b : bytes) :
  _convert builtin_repr key1 = ok k ->
  _convert builtin_repr key2 = ok k ->
  is_None value2 = false ->
  dumps c value2 = ok b ->
  __setitem__ builtin_repr key2 value2
    (__setitem__ builtin_repr key1 value1 (mkKVS m c)).2
  = (ok PyNone, mkKVS (<[k:=b]> m) c) /\
  __setitem__ builtin_repr key2 value2 (mkKVS m c)
  = (ok PyNone, mkKVS (<[k:=b]> m) c) /\
  (codec_inverts c -> b <> [] ->
   __getitem__ builtin_repr key1 (mkKVS (<[k:=b]> m) c)
   = (ok value2, mkKVS (<[k:=b]> m) c) /\
   __getitem__ builtin_repr key2 (mkKVS (<[k:=b]> m) c)
   = (ok value2, mkKVS (<[k:=b]> m) c)).
Proof.
  intros Hk1 Hk2 Hv Hd.
  assert (forall m', __setitem__ builtin_repr key2 value2 (mkKVS m' c)
                     = (ok PyNone, mkKVS (<[k:=b]> m') c)) as Hset.
  { intros m'. by rewrite (setitem_dict _ m' c key2 value2 k Hk2 Hv), Hd. }
  split; [|split; [apply Hset|]].
  - destruct (is_None value1) eqn:Hv1.
    + apply is_None_true in Hv1 as ->.
      rewrite (setitem_None_dict _ m c key1 k Hk1). cbn [snd].
      by rewrite Hset, insert_delete_eq.
    + rewrite (setitem_dict _ m c key1 value1 k Hk1 Hv1).
      destruct (dumps c value1) as [b1|e1]; cbn [snd]; rewrite Hset; [|done].
      by rewrite insert_insert_eq.
  - intros Hinv Hb.
    rewrite (getitem_dict _ _ c key1 k Hk1), (getitem_dict _ _ c key2 k Hk2).
    rewrite lookup_insert_eq. destruct b as [|x b]; [done|]. cbn.
    by rewrite (Hinv value2 (x :: b) Hd).
Qed.

Lemma last_write_wins_witness :
  __setitem__ plain_repr (PyStr (codepoints "1")) (PyBool false)
    (__setitem__ plain_repr (PyInt 1) (PyBool true)
       (mkKVS ∅ tagged_codec)).2
  = (ok PyNone, mkKVS (<[ascii_bytes "1" := ascii_bytes "F"]> ∅) tagged_codec)
  /\
  __setitem__ plain_repr (PyStr (codepoints "1")) (PyBool false)
    (mkKVS ∅ tagged_codec)
  = (ok PyNone, mkKVS (<[ascii_bytes "1" := ascii_bytes "F"]> ∅) tagged_codec)
  /\
  (codec_inverts tagged_codec -> ascii_bytes "F" <> [] ->
   __getitem__ plain_repr (PyInt 1)
     (mkKVS (<[ascii_bytes "1" := ascii_bytes "F"]> ∅) tagged_codec)
   = (ok (PyBool false),
      mkKVS (<[ascii_bytes "1" := ascii_bytes "F"]> ∅) tagged_codec) /\
   __getitem__ plain_repr (PyStr (codepoints "1"))
     (mkKVS (<[ascii_bytes "1" := ascii_bytes "F"]> ∅) tagged_codec)
   = (ok (PyBool false),
      mkKVS (<[ascii_bytes "1" := ascii_bytes "F"]> ∅) tagged_codec)).
Proof.
  exact (last_write_wins plain_repr tagged_codec ∅ (PyInt 1)
           (PyStr (codepoints "1")) (PyBool true) (PyBool false)
           (ascii_bytes "1") (ascii_bytes "F")
           eq_refl eq_refl eq_refl eq_refl).
Defined.

(** What [set], [delete], [pop] and the call form leave of the map at a
    canonical key other than their own. *)
Lemma writes_keep_other_keys (builtin_repr : pyobj -> pystr) (c : Codec)
    (m : gmap bytes bytes) (key value : pyobj) (k k' : bytes) :
  _convert builtin_repr key = ok k ->
  k <> k' ->
  Forall (fun st' : KVS (gmap bytes bytes) =>
            exists m', st' = mkKVS m' c /\ m' !! k' = m !! k')
    [ (__setitem__ builtin_repr key value (mkKVS m c)).2;
      (__delitem__ builtin_repr key (mkKVS m c)).2;
      (pop builtin_repr key (mkKVS m c)).2;
      (__call__ builtin_repr key value (mkKVS m c)).2 ].
Proof.
  intros Hk Hne.
  assert (exists m', (__setitem__ builtin_repr key value (mkKVS m c)).2
                     = mkKVS m' c /\ m' !! k' = m !! k') as Hset.
  { destruct (is_None value) eqn:Hv.
    - apply is_None_true in Hv as ->.
      rewrite (setitem_None_dict _ m c key k Hk).
      eexists; split; [reflexivity|]. by rewrite lookup_delete_ne.
    - rewrite (setitem_dict _ m c key value k Hk Hv).
      destruct (dumps c value); (eexists; split; [reflexivity|]); [|done].
      by rewrite lookup_insert_ne. }
  repeat constructor.
  - exact Hset.
  - rewrite (delitem_dict _ m c key k Hk).
    eexists; split; [reflexivity|]. by rewrite lookup_delete_ne.
  - rewrite (pop_dict _ m c key k Hk).
    destruct (__getitem__ builtin_repr key (mkKVS m c)).1;
      (eexists; split; [reflexivity|]); [|done].
    by rewrite lookup_delete_ne.
  - rewrite call_dict. destruct (is_None value); [|exact Hset].
    rewrite (getitem_dict _ m c key k Hk). by eexists.
Qed.

(** X4. On the transient map, keys are independent: after [set], [delete],
    [pop] or the call form under one key, [get] and [in] under a key with
    another canonical key answer (or raise) what they did before. *)
Theorem other_keys_read_alike (builtin_repr : pyobj -> pystr) (c : Codec)
    (m : gmap bytes bytes) (key key' value : pyobj) (k k' : bytes) :
  _convert builtin_repr key = ok k ->
  _convert builtin_repr key' = ok k' ->
  k <> k' ->
  Forall (fun st' : KVS (gmap bytes bytes) =>
            (__getitem__ builtin_repr key' st').1
            = (__getitem__ builtin_repr key' (mkKVS m c)).1 /\
            (__contains__ builtin_repr key' st').1
            = (__contains__ builtin_repr key' (mkKVS m c)).1)
    [ (__setitem__ builtin_repr key value (mkKVS m c)).2;
      (__delitem__ builtin_repr key (mkKVS m c)).2;
      (pop builtin_repr key (mkKVS m c)).2;
      (__call__ builtin_repr key value (mkKVS m c)).2 ].
Proof.
  intros Hk Hk' Hne.
  eapply Forall_impl;
    [exact (writes_keep_other_keys builtin_repr c m key value k k' Hk Hne)|].
  intros st' (m' & -> & Hm'). cbn beta.
  rewrite !(getitem_dict _ _ c key' k' Hk'), !(contains_dict _ _ c key' k' Hk').
  cbn [fst]. by rewrite Hm'.
Qed.

Lemma other_keys_read_alike_witness :
  Forall (fun st' : KVS (gmap bytes bytes) =>
            (__getitem__ plain_repr (PyInt 2) st').1
            = (__getitem__ plain_repr (PyInt 2)
                 (mkKVS {[ ascii_bytes "2" := ascii_bytes "T" ]}
                    tagged_codec)).1 /\
            (__contains__ plain_repr (PyInt 2) st').1
            = (__contains__ plain_repr (PyInt 2)
                 (mkKVS {[ ascii_bytes "2" := ascii_bytes "T" ]}
                    tagged_codec)).1)
    [ (__setitem__ plain_repr key_a (PyBool false)
         (mkKVS {[ ascii_bytes "2" := ascii_bytes "T" ]} tagged_codec)).2;
      (__delitem__ plain_repr key_a
         (mkKVS {[ ascii_bytes "2" := ascii_bytes "T" ]} tagged_codec)).2;
      (pop plain_repr key_a
         (mkKVS {[ ascii_bytes "2" := ascii_bytes "T" ]} tagged_codec)).2;
      (__call__ plain_repr key_a (PyBool false)
         (mkKVS {[ ascii_bytes "2" := ascii_bytes "T" ]} tagged_codec)).2 ].
Proof.
  refine (other_keys_read_alike plain_repr tagged_codec
            {[ ascii_bytes "2" := ascii_bytes "T" ]} key_a (PyInt 2)
            (PyBool false) (ascii_bytes "a") (ascii_bytes "2")
            eq_refl _ _).
  - by vm_compute.
  - discriminate.
Defined.

(** ** Where the entries of a transient store come from *)

Lemma perform_dict_written (builtin_repr : pyobj -> pystr) (o : operation)
    (m : gmap bytes bytes) (c : Codec) :
  exists m', perform builtin_repr o (mkKVS m c) = mkKVS m' c /\
    forall k b, m' !! k = Some b ->
      m !! k = Some b \/
      exists key value, writes key value o /\
        _convert builtin_repr key = ok k /\ is_None value = false /\
        dumps c value = ok b.
Proof.
  assert (forall key value, exists m',
    (__setitem__ builtin_repr key value (mkKVS m c)).2 = mkKVS m' c /\
    forall k b, m' !! k = Some b ->
      m !! k = Some b \/
      (_convert builtin_repr key = ok k /\ is_None value = false /\
       dumps c value = ok b)) as Hset.
  { intros key value.
    destruct (_convert builtin_repr key) as [k|e] eqn:Hk.
    - destruct (is_None value) eqn:Hv.
      + apply is_None_true in Hv as ->.
        rewrite (setitem_None_dict _ m c key k Hk).
        eexists; split; [reflexivity|]. intros k0 b Hb. left.
        rewrite lookup_delete in Hb. by case_decide.
      + rewrite (setitem_dict _ m c key value k Hk Hv).
        destruct (dumps c value) as [b|e] eqn:Hd;
          (eexists; split; [reflexivity|]); [|by left].
        intros k0 b0 Hb. rewrite lookup_insert in Hb. case_decide.
        * injection Hb as <-. subst k0. by right.
        * by left.
    - rewrite (setitem_unsupported _ m c key value e Hk).
      eexists; split; [reflexivity|]. by left. }
  assert (forall key,
    (__getitem__ builtin_repr key (mkKVS m c)).2 = mkKVS m c) as Hget.
  { intros key. destruct (_convert builtin_repr key) as [k|e] eqn:Hk.
    - by rewrite (getitem_dict _ m c key k Hk).
    - by rewrite (getitem_unsupported _ m c key e Hk). }
  assert (forall k, exists m', mkKVS (delete k m) c = mkKVS m' c /\
    forall k0 b, m' !! k0 = Some b ->
      m !! k0 = Some b \/
      exists key value, writes key value o /\
        _convert builtin_repr key = ok k0 /\ is_None value = false /\
        dumps c value = ok b) as Hdel.
  { intros k. eexists; split; [reflexivity|]. intros k0 b Hb. left.
    rewrite lookup_delete in Hb. by case_decide. }
  assert (exists m', mkKVS m c = mkKVS m' c /\
    forall k0 b, m' !! k0 = Some b ->
      m !! k0 = Some b \/
      exists key value, writes key value o /\
        _convert builtin_repr key = ok k0 /\ is_None value = false /\
        dumps c value = ok b) as Hsame.
  { eexists; split; [reflexivity|]. by left. }
  destruct o as [key value|key|key|key|key value|key| | | | | ];
    cbn [perform].
  - destruct (Hset key value) as (m' & -> & Hm').
    eexists; split; [reflexivity|]. intros k b Hb.
    destruct (Hm' k b Hb) as [?|?]; [by left|right].
    exists key, value. split; [by left|done].
  - by rewrite Hget.
  - destruct (_convert builtin_repr key) as [k|e] eqn:Hk.
    + rewrite (delitem_dict _ m c key k Hk). apply Hdel.
    + by rewrite (delitem_unsupported _ m c key e Hk).
  - destruct (_convert builtin_repr key) as [k|e] eqn:Hk.
    + by rewrite (contains_dict _ m c key k Hk).
    + by rewrite (contains_unsupported _ m c key e Hk).
  - rewrite call_dict. destruct (is_None value) eqn:Hv; [by rewrite Hget|].
    destruct (Hset key value) as (m' & -> & Hm').
    eexists; split; [reflexivity|]. intros k b Hb.
    destruct (Hm' k b Hb) as [?|?]; [by left|right].
    exists key, value. split; [by right|done].
  - destruct (_convert builtin_repr key) as [k|e] eqn:Hk.
    + rewrite (pop_dict _ m c key k Hk).
      destruct (__getitem__ builtin_repr key (mkKVS m c)).1;
        [apply Hdel|apply Hsame].
    + by rewrite (pop_unsupported _ m c key e Hk).
  - apply Hsame.
  - apply Hsame.
  - apply Hsame.
  - apply Hsame.
  - eexists; split; [reflexivity|]. intros k b Hb.
    by rewrite lookup_empty in Hb.
Qed.

Lemma run_dict_written (builtin_repr : pyobj -> pystr) (ops : list operation)
    (m : gmap bytes bytes) (c : Codec) :
  exists m', run builtin_repr ops (mkKVS m c) = mkKVS m' c /\
    forall k b, m' !! k = Some b ->
      m !! k = Some b \/
      exists key value o, o ∈ ops /\ writes key value o /\
        _convert builtin_repr key = ok k /\ is_None value = false /\
        dumps c value = ok b.
Proof.
  revert m. induction ops as [|o ops IH]; intros m.
  - exists m. split; [reflexivity|]. by left.
  - cbn [run foldl].
    destruct (perform_dict_written builtin_repr o m c) as (m1 & -> & H1).
    destruct (IH m1) as (m' & Hrun & Hm'). unfold run in Hrun.
    exists m'. split; [exact Hrun|]. intros k b Hb.
    destruct (Hm' k b Hb) as [Hold|(key & value & o' & Ho' & Hw)].
    + destruct (H1 k b Hold) as [?|(key & value & Hw)]; [by left|right].
      exists key, value, o. split; [apply elem_of_cons; by left|done].
    + right. exists key, value, o'.
      split; [apply elem_of_cons; by right|done].
Qed.

(** X5. Whatever operations a fresh transient store has gone through
    (failed ones included), its serializer is the one it was built with,
    and every entry of its map was written by a [set] or a call of that
    history: it sits under the canonical key of that operation's key and
    holds the encoding of that operation's value, which is not [None]. The
    facade never stores an encoding of [None] and never invents an entry. *)
Theorem entries_come_from_writes (builtin_repr : pyobj -> pystr) (c : Codec)
    (ops : list operation) :
  _serialize (run builtin_repr ops (KVS_memory c)) = c /\
  forall k b,
    _database (run builtin_repr ops (KVS_memory c)) !! k = Some b ->
    exists key value o, o ∈ ops /\ writes key value o /\
      _convert builtin_repr key = ok k /\ is_None value = false /\
      dumps c value = ok b.
Proof.
  destruct (run_dict_written builtin_repr ops ∅ c) as (m' & Hrun & Hm').
  unfold KVS_memory. rewrite Hrun. split; [reflexivity|].
  intros k b Hb. destruct (Hm' k b Hb) as [Hempty|?]; [|done].
  by rewrite lookup_empty in Hempty.
Qed.

(** ** Enumeration *)

Lemma yield_map_all_ok {A B} (f : A -> res B) (l : list A) (l' : list B) :
  Forall2 (fun x y => f x = ok y) l l' -> yield_map f l = (l', ok tt).
Proof.
  induction 1 as [|x y l l' Hxy _ IH]; [reflexivity|].
  cbn [yield_map]. by rewrite Hxy, IH.
Qed.

Lemma yield_map_stops {A B} (f : A -> res B) (l : list A) (x : A) (e : exn) :
  x ∈ l -> f x = raise e -> exists e', (yield_map f l).2 = raise e'.
Proof.
  intros Hx Hfx. induction l as [|y l IH]; [by apply elem_of_nil in Hx|].
  cbn [yield_map]. destruct (f y) as [z|e'] eqn:Hy; [|by exists e'].
  apply elem_of_cons in Hx as [->|Hx]; [congruence|].
  destruct (IH Hx) as [e'' He'']. exists e''.
  by destruct (yield_map f l).
Qed.

#[global] Instance PyBytes_inj : Inj (=) (=) PyBytes.
Proof. by intros b1 b2 [= ->]. Qed.

Section TransientListing.
Variable builtin_repr : pyobj -> pystr.
Implicit Types (m : gmap bytes bytes) (c : Codec) (k : bytes).

Lemma keys_dict m c :
  keys (mkKVS m c) = (ok (PyBytes <$> (map_to_list m).*1), mkKVS m c).
Proof. reflexivity. Qed.

Lemma values_dict m c :
  values builtin_repr (mkKVS m c)
  = (yield_map (loads c) (map_to_list m).*2, mkKVS m c).
Proof. reflexivity. Qed.

Lemma items_dict m c :
  items builtin_repr (mkKVS m c)
  = (yield_map (fun item : pyobj * bytes =>
       res_bind (loads c item.2) (fun value => ok (item.1, value)))
       (prod_map PyBytes id <$> map_to_list m), mkKVS m c).
Proof. reflexivity. Qed.

Lemma elem_of_keys_dict m key :
  key ∈ PyBytes <$> (map_to_list m).*1 <->
  exists k, key = PyBytes k /\ is_Some (m !! k).
Proof.
  rewrite list_elem_of_fmap. split.
  - intros (k & -> & Hk). exists k. split; [done|].
    apply list_elem_of_fmap in Hk as ([k' b] & -> & Hkb).
    apply elem_of_map_to_list in Hkb. by exists b.
  - intros (k & -> & [b Hb]). exists k. split; [done|].
    apply list_elem_of_fmap. exists (k, b). split; [done|].
    by apply elem_of_map_to_list.
Qed.

(** The entries of a well-encoded map decode, each to a value other than
    [None]. *)
Lemma decode_entries m c (l : list (bytes * bytes)) :
  codec_inverts c ->
  well_encoded c m ->
  (forall kb, kb ∈ l -> m !! kb.1 = Some kb.2) ->
  exists vs, Forall2 (fun kb v =>
    loads c kb.2 = ok v /\ is_None v = false /\ kb.2 <> []) l vs.
Proof.
  intros Hinv Hm. induction l as [|[k b] l IH]; intros Hl.
  - exists []. constructor.
  - destruct IH as [vs Hvs].
    { intros kb Hkb. apply Hl, elem_of_cons. by right. }
    destruct (Hm k b) as (Hb & v & Hd & Hv).
    { apply (Hl (k, b)), elem_of_cons. by left. }
    exists (v :: vs). constructor; [|done].
    split; [by apply Hinv|done].
Qed.
End TransientListing.

(** X6. On the transient map [keys()] never raises, changes nothing and
    lists, each once, exactly the canonical keys that hold an entry, as
    [bytes]; [in] answers [True] for a key exactly when its canonical key
    is listed. *)
Theorem keys_list_the_entries (builtin_repr : pyobj -> pystr) (c : Codec)
    (m : gmap bytes bytes) :
  exists ks,
    keys (mkKVS m c) = (ok ks, mkKVS m c) /\
    NoDup ks /\
    (forall key, key ∈ ks <-> exists k, key = PyBytes k /\ is_Some (m !! k)) /\
    (forall key k, _convert builtin_repr key = ok k ->
       (__contains__ builtin_repr key (mkKVS m c)).1 = ok true <->
       PyBytes k ∈ ks).
Proof.
  exists (PyBytes <$> (map_to_list m).*1).
  split; [reflexivity|]. split; [|split].
  - apply (NoDup_fmap_2 _), NoDup_fst_map_to_list.
  - apply elem_of_keys_dict.
  - intros key k Hk. rewrite (contains_dict _ m c key k Hk). cbn [fst].
    rewrite elem_of_keys_dict. split.
    + destruct (m !! k) as [b|] eqn:Hb; [|discriminate].
      intros _. exists k. split; [done|]. by exists b.
    + intros (k' & [= <-] & [b Hb]). by rewrite Hb.
Qed.

(** X7. In every state a fresh transient store reaches, provided [loads]
    inverts [dumps] and [dumps] never answers the empty byte string,
    [items()] and [values()] run to their end without raising and change
    nothing; [items()] pairs each key that [keys()] lists, in the same
    order, with the value [get] answers for it, which is never [None], and
    [values()] yields the second components. *)
Theorem items_agree_with_get (builtin_repr : pyobj -> pystr) (c : Codec)
    (ops : list operation) :
  codec_inverts c ->
  codec_nonempty c ->
  exists ks its,
    keys (run builtin_repr ops (KVS_memory c))
    = (ok ks, run builtin_repr ops (KVS_memory c)) /\
    items builtin_repr (run builtin_repr ops (KVS_memory c))
    = ((its, ok tt), run builtin_repr ops (KVS_memory c)) /\
    values builtin_repr (run builtin_repr ops (KVS_memory c))
    = ((its.*2, ok tt), run builtin_repr ops (KVS_memory c)) /\
    its.*1 = ks /\
    Forall (fun kv : pyobj * pyobj =>
      __getitem__ builtin_repr kv.1 (run builtin_repr ops (KVS_memory c))
      = (ok kv.2, run builtin_repr ops (KVS_memory c)) /\
      is_None kv.2 = false) its.
Proof.
  intros Hinv Hne.
  destruct (run_well_encoded builtin_repr ops ∅ c Hne) as (m & Hrun & Hm).
  { intros k' b. by rewrite lookup_empty. }
  unfold KVS_memory. rewrite Hrun.
  destruct (decode_entries m c (map_to_list m) Hinv Hm) as [vs Hvs].
  { intros [k b] Hkb. by apply elem_of_map_to_list. }
  assert (forall kb, kb ∈ map_to_list m -> m !! kb.1 = Some kb.2) as Hl.
  { intros [k b] Hkb. by apply elem_of_map_to_list. }
  rewrite keys_dict, items_dict, values_dict.
  revert Hvs Hl. generalize (map_to_list m). intros l Hvs Hl.
  exists (PyBytes <$> l.*1), (zip (PyBytes <$> l.*1) vs).
  split; [reflexivity|].
  assert (length (PyBytes <$> l.*1) = length vs) as Hlen.
  { rewrite !length_fmap. by eapply Forall2_length. }
  rewrite fst_zip, snd_zip by lia.
  split; [|split; [|split; [reflexivity|]]].
  - f_equal. apply yield_map_all_ok.
    clear Hl Hlen. induction Hvs as [|[k b] v l vs (Hkv & _) _ IH];
      [constructor|].
    cbn in *. constructor; [|exact IH]. cbn. by rewrite Hkv.
  - f_equal. apply yield_map_all_ok.
    clear Hl Hlen. induction Hvs as [|[k b] v l vs (Hkv & _) _ IH];
      [constructor|].
    cbn in *. by constructor.
  - clear Hlen. induction Hvs as [|[k b] v l vs (Hkv & Hv & Hb) _ IH];
      [constructor|].
    cbn -[__getitem__]. constructor.
    + cbn [fst snd]. rewrite (getitem_dict builtin_repr m c (PyBytes k) k eq_refl).
      pose proof (Hl (k, b)) as Hkb. cbn [fst snd] in Hkb.
      rewrite Hkb by (apply elem_of_cons; by left).
      destruct b as [|x b]; [done|]. cbn in *. by rewrite Hkv.
    + apply IH. intros kb Hkb. apply Hl, elem_of_cons. by right.
Qed.

Lemma items_agree_with_get_witness :
  exists ks its,
    keys (run plain_repr [OpSet key_a (PyBool true)] (KVS_memory tagged_codec))
    = (ok ks,
       run plain_repr [OpSet key_a (PyBool true)] (KVS_memory tagged_codec)) /\
    items plain_repr
      (run plain_repr [OpSet key_a (PyBool true)] (KVS_memory tagged_codec))
    = ((its, ok tt),
       run plain_repr [OpSet key_a (PyBool true)] (KVS_memory tagged_codec)) /\
    values plain_repr
      (run plain_repr [OpSet key_a (PyBool true)] (KVS_memory tagged_codec))
    = ((its.*2, ok tt),
       run plain_repr [OpSet key_a (PyBool true)] (KVS_memory tagged_codec)) /\
    its.*1 = ks /\
    Forall (fun kv : pyobj * pyobj =>
      __getitem__ plain_repr kv.1
        (run plain_repr [OpSet key_a (PyBool true)] (KVS_memory tagged_codec))
      = (ok kv.2,
         run plain_repr [OpSet key_a (PyBool true)]
           (KVS_memory tagged_codec)) /\
      is_None kv.2 = false) its.
Proof.
  exact (items_agree_with_get plain_repr tagged_codec
           [OpSet key_a (PyBool true)]
           tagged_codec_inverts tagged_codec_nonempty).
Defined.

(** X8. On the transient map an entry that [loads] refuses stops
    [values()] and [items()]: whatever else is stored, both end by raising,
    while [keys()] still lists the entry's key. [get] does not decode an
    empty byte string, so for such an entry it answers [None] all the
    same. *)
Theorem refused_entry_stops_listing (builtin_repr : pyobj -> pystr)
    (c : Codec) (m : gmap bytes bytes) (k b : bytes) (e : exn) :
  m !! k = Some b ->
  loads c b = raise e ->
  (exists e', (values builtin_repr (mkKVS m c)).1.2 = raise e') /\
  (exists e', (items builtin_repr (mkKVS m c)).1.2 = raise e') /\
  (exists ks, keys (mkKVS m c) = (ok ks, mkKVS m c) /\ PyBytes k ∈ ks) /\
  __getitem__ builtin_repr (PyBytes k) (mkKVS m c)
  = (match b with [] => ok PyNone | _ => raise e end, mkKVS m c).
Proof.
  intros Hb He. split; [|split; [|split]].
  - rewrite values_dict. cbn [fst snd].
    apply (yield_map_stops _ _ b e); [|done].
    apply list_elem_of_fmap. exists (k, b). split; [done|].
    by apply elem_of_map_to_list.
  - rewrite items_dict. cbn [fst snd].
    apply (yield_map_stops _ _ (PyBytes k, b) e).
    + apply list_elem_of_fmap. exists (k, b). split; [done|].
      by apply elem_of_map_to_list.
    + cbn. by rewrite He.
  - eexists. split; [apply keys_dict|].
    apply elem_of_keys_dict. exists k. split; [done|]. by exists b.
  - rewrite (getitem_dict builtin_repr m c (PyBytes k) k eq_refl), Hb.
    destruct b as [|x b]; [reflexivity|]. cbn. by rewrite He.
Qed.

Lemma refused_entry_stops_listing_witness :
  (exists e', (values plain_repr
     (mkKVS {[ ascii_bytes "a" := [] ]} tagged_codec)).1.2 = raise e') /\
  (exists e', (items plain_repr
     (mkKVS {[ ascii_bytes "a" := [] ]} tagged_codec)).1.2 = raise e') /\
  (exists ks, keys (mkKVS {[ ascii_bytes "a" := [] ]} tagged_codec)
     = (ok ks, mkKVS {[ ascii_bytes "a" := [] ]} tagged_codec) /\
     PyBytes (ascii_bytes "a") ∈ ks) /\
  __getitem__ plain_repr (PyBytes (ascii_bytes "a"))
    (mkKVS {[ ascii_bytes "a" := [] ]} tagged_codec)
  = (match @nil byte with
     | [] => ok PyNone
     | _ => raise (Raised "ValueError")
     end, mkKVS {[ ascii_bytes "a" := [] ]} tagged_codec).
Proof.
  exact (refused_entry_stops_listing plain_repr tagged_codec
           {[ ascii_bytes "a" := [] ]} (ascii_bytes "a") []
           (Raised "ValueError") (lookup_singleton_eq _ _) eq_refl).
Defined.

(** X9. A backing object that exposes none of [keys], [values] and [items]
    cannot be listed: [keys()], [values()] and [items()] yield nothing, end
    without raising and leave the store as it was, whatever it holds. *)
Theorem listing_needs_keys (builtin_repr : pyobj -> pystr) (DB : Type)
    (B : Backend DB) (E : Enumerable DB) (st : KVS DB) :
  attr_keys = None ->
  attr_values = None ->
  attr_items = None ->
  keys st = (ok [], st) /\
  values builtin_repr st = (([], ok tt), st) /\
  items builtin_repr st = (([], ok tt), st).
Proof.
  intros Hkeys Hvalues Hitems.
  assert (keys st = (ok [], st)) as Hk by (unfold keys; by rewrite Hkeys).
  split; [exact Hk|].
  unfold values, items. by rewrite Hvalues, Hitems, Hk.
Qed.

Lemma listing_needs_keys_witness :
  keys (mkKVS (mkCache {[ ascii_bytes "a" := ascii_bytes "T" ]}) tagged_codec)
  = (ok [],
     mkKVS (mkCache {[ ascii_bytes "a" := ascii_bytes "T" ]}) tagged_codec) /\
  values plain_repr
    (mkKVS (mkCache {[ ascii_bytes "a" := ascii_bytes "T" ]}) tagged_codec)
  = (([], ok tt),
     mkKVS (mkCache {[ ascii_bytes "a" := ascii_bytes "T" ]}) tagged_codec) /\
  items plain_repr
    (mkKVS (mkCache {[ ascii_bytes "a" := ascii_bytes "T" ]}) tagged_codec)
  = (([], ok tt),
     mkKVS (mkCache {[ ascii_bytes "a" := ascii_bytes "T" ]}) tagged_codec).
Proof.
  exact (listing_needs_keys plain_repr cache _ _
           (mkKVS (mkCache {[ ascii_bytes "a" := ascii_bytes "T" ]})
              tagged_codec)
           eq_refl eq_refl eq_refl).
Defined.

(** ** Clearing *)

(** X10. On a backing object that exposes none of [clear], [flushall],
    [flush_all] and [keys], [clear()] removes nothing: it only calls
    [optimize()], and answers without raising, the store unchanged, when
    the object has no [reorganize] either. *)
Theorem clear_needs_keys (builtin_repr : pyobj -> pystr) (DB : Type)
    (B : Backend DB) (st : KVS DB) :
  attr_clear = None ->
  attr_flushall = None ->
  attr_flush_all = None ->
  attr_keys = None ->
  clear builtin_repr st = optimize st /\
  (attr_reorganize = None -> clear builtin_repr st = (ok tt, st)).
Proof.
  intros Hclear Hflushall Hflush_all Hkeys.
  assert (clear builtin_repr st = optimize st) as Hc.
  { unfold clear, keys, bind. rewrite Hclear, Hflushall, Hflush_all, Hkeys.
    cbn. by destruct (optimize st) as [[[]|e] st']. }
  split; [exact Hc|].
  intros Hre. rewrite Hc. unfold optimize. by rewrite Hre.
Qed.

Lemma clear_needs_keys_witness :
  clear plain_repr
    (mkKVS (mkCache {[ ascii_bytes "a" := ascii_bytes "T" ]}) tagged_codec)
  = optimize
      (mkKVS (mkCache {[ ascii_bytes "a" := ascii_bytes "T" ]}) tagged_codec)
  /\
  (@attr_reorganize cache _ = None ->
   clear plain_repr
     (mkKVS (mkCache {[ ascii_bytes "a" := ascii_bytes "T" ]}) tagged_codec)
   = (ok tt,
      mkKVS (mkCache {[ ascii_bytes "a" := ascii_bytes "T" ]}) tagged_codec)).
Proof.
  exact (clear_needs_keys plain_repr cache _
           (mkKVS (mkCache {[ ascii_bytes "a" := ascii_bytes "T" ]})
              tagged_codec)
           eq_refl eq_refl eq_refl eq_refl).
Defined.

(** X11. On the transient map [clear()] never raises and leaves the map
    empty whatever it held: afterwards [keys()], [values()] and [items()]
    yield nothing, and for every supported key [get] answers [None] and
    [in] answers [False]. On any backing object that exposes [clear], that
    method is all [clear()] calls. *)
Theorem clear_empties_transient (builtin_repr : pyobj -> pystr) (c : Codec)
    (m : gmap bytes bytes) :
  clear builtin_repr (mkKVS m c) = (ok tt, mkKVS ∅ c) /\
  keys (mkKVS (∅ : gmap bytes bytes) c) = (ok [], mkKVS ∅ c) /\
  values builtin_repr (mkKVS (∅ : gmap bytes bytes) c)
  = (([], ok tt), mkKVS ∅ c) /\
  items builtin_repr (mkKVS (∅ : gmap bytes bytes) c)
  = (([], ok tt), mkKVS ∅ c) /\
  (forall key k, _convert builtin_repr key = ok k ->
     __getitem__ builtin_repr key (mkKVS ∅ c) = (ok PyNone, mkKVS ∅ c) /\
     __contains__ builtin_repr key (mkKVS ∅ c) = (ok false, mkKVS ∅ c)) /\
  (forall DB (B : Backend DB) (st : KVS DB) (clear_method : call DB unit),
     attr_clear = Some clear_method ->
     clear builtin_repr st = on_database clear_method st).
Proof.
  split; [reflexivity|].
  split; [by rewrite keys_dict, map_to_list_empty|].
  split; [by rewrite values_dict, map_to_list_empty|].
  split; [by rewrite items_dict, map_to_list_empty|].
  split.
  - intros key k Hk.
    rewrite (getitem_dict _ ∅ c key k Hk), (contains_dict _ ∅ c key k Hk).
    by rewrite lookup_empty.
  - intros DB B st f Hf. unfold clear. by rewrite Hf.
Qed.

(** *** The key-by-key fallback, on a handle *)

Section HandleSteps.
Variable builtin_repr : pyobj -> pystr.
Implicit Types (m : gmap bytes bytes) (c : Codec) (k : bytes).

Lemma delitem_handle m c k :
  __delitem__ builtin_repr (PyBytes k) (mkKVS (mkHandle m true) c)
  = (ok PyNone, mkKVS (mkHandle (delete k m) true) c).
Proof.
  unfold __delitem__, bind, lift, except_KeyError. cbn.
  unfold on_database, while_open. cbn.
  destruct (m !! k) eqn:Hm; cbn; [reflexivity|].
  by rewrite delete_id.
Qed.

Lemma getitem_handle m c k :
  __getitem__ builtin_repr (PyBytes k) (mkKVS (mkHandle m true) c)
  = (if truthy (m !! k) then loads c (default [] (m !! k)) else ok PyNone,
     mkKVS (mkHandle m true) c).
Proof.
  unfold __getitem__, bind, lift. cbn.
  unfold on_database, while_open. cbn.
  destruct (truthy (m !! k)); cbn; [|reflexivity].
  by destruct (loads c _).
Qed.

Lemma delete_each_handle m c (ks : list bytes) :
  delete_each builtin_repr (PyBytes <$> ks) (mkKVS (mkHandle m true) c)
  = (ok tt, mkKVS (mkHandle (foldl (fun m k => delete k m) m ks) true) c).
Proof.
  revert m. induction ks as [|k ks IH]; intros m; [reflexivity|].
  rewrite fmap_cons. cbn [delete_each foldl]. unfold bind at 1.
  by rewrite delitem_handle, IH.
Qed.

Lemma lookup_delete_all m (ks : list bytes) k :
  foldl (fun m k => delete k m) m ks !! k
  = if decide (k ∈ ks) then None else m !! k.
Proof.
  revert m. induction ks as [|k' ks IH]; intros m; cbn [foldl].
  - case_decide as Hin; [by apply elem_of_nil in Hin|done].
  - rewrite IH. destruct (decide (k = k')) as [->|Hne].
    + rewrite lookup_delete_eq.
      rewrite (decide_True (P := k' ∈ k' :: ks)) by (apply elem_of_cons; by left).
      by case_decide.
    + rewrite lookup_delete_ne by done.
      case_decide as Hin.
      * by rewrite decide_True by (apply elem_of_cons; by right).
      * rewrite decide_False; [done|].
        intros [?|?]%elem_of_cons; done.
Qed.

Lemma delete_all_keys m :
  foldl (fun m k => delete k m) m (map_to_list m).*1 = ∅.
Proof.
  apply map_eq. intros k. rewrite lookup_delete_all, lookup_empty.
  case_decide as Hin; [done|].
  destruct (m !! k) as [b|] eqn:Hb; [|done].
  exfalso. apply Hin. apply list_elem_of_fmap. exists (k, b).
  split; [done|]. by apply elem_of_map_to_list.
Qed.

End HandleSteps.

(** X12. On a mapping that exposes none of [clear], [flushall] and
    [flush_all] but lists its keys, such as an open database handle,
    [clear()] deletes key after key and then reorganizes: it answers without
    raising and leaves the handle empty, whatever it held. On a closed
    handle it raises the handle's error and removes nothing. *)
Theorem clear_deletes_each_key (builtin_repr : pyobj -> pystr) (c : Codec)
    (m : gmap bytes bytes) :
  clear builtin_repr (mkKVS (mkHandle m true) c)
  = (ok tt, mkKVS (mkHandle ∅ true) c) /\
  clear builtin_repr (mkKVS (mkHandle m false) c)
  = (raise (Raised "error"), mkKVS (mkHandle m false) c).
Proof.
  split; [|reflexivity].
  unfold clear. cbn [hasattr attr_clear attr_flushall attr_flush_all
    handle_backend].
  unfold bind at 1.
  assert (keys (mkKVS (mkHandle m true) c)
          = (ok (PyBytes <$> (map_to_list m).*1), mkKVS (mkHandle m true) c))
    as -> by reflexivity.
  unfold bind. by rewrite delete_each_handle, delete_all_keys.
Qed.

(** *** The two ways of listing *)

Lemma yield_each_pure {DB A B} (f : A -> method DB B) (ks : list A)
    (st : KVS DB) :
  (forall k, k ∈ ks -> (f k st).2 = st) ->
  yield_each f ks st = (yield_map (fun k => (f k st).1) ks, st).
Proof.
  induction ks as [|k ks IH]; intros Hf; [reflexivity|].
  cbn [yield_each yield_map].
  pose proof (Hf k) as Hk. destruct (f k st) as [[y|e] st'] eqn:Hfk;
    cbn [fst snd] in *.
  - rewrite Hk by (apply elem_of_cons; by left).
    rewrite IH by (intros k' Hk'; apply Hf, elem_of_cons; by right).
    by destruct (yield_map _ ks).
  - by rewrite Hk by (apply elem_of_cons; by left).
Qed.

Lemma yield_map_ext {A B} (f g : A -> res B) (l : list A) :
  (forall x, x ∈ l -> f x = g x) -> yield_map f l = yield_map g l.
Proof.
  induction l as [|x l IH]; intros Hfg; [reflexivity|].
  cbn [yield_map]. rewrite (Hfg x) by (apply elem_of_cons; by left).
  by rewrite IH by (intros y Hy; apply Hfg, elem_of_cons; by right).
Qed.

Lemma yield_map_fmap {A B C} (h : A -> B) (f : B -> res C) (l : list A) :
  yield_map f (h <$> l) = yield_map (fun x => f (h x)) l.
Proof.
  induction l as [|x l IH]; [reflexivity|].
  rewrite fmap_cons. cbn [yield_map]. by rewrite IH.
Qed.

Lemma yield_map_is_ok {A B} (f : A -> res B) (l : list A) :
  is_ok (yield_map f l).2 = true <-> Forall (fun x => is_ok (f x) = true) l.
Proof.
  induction l as [|x l IH]; cbn [yield_map].
  - split; [constructor|done].
  - rewrite Forall_cons. destruct (f x) as [y|e]; cbn [is_ok snd].
    + destruct (yield_map f l) as [ys r]. cbn [snd] in *.
      rewrite IH. tauto.
    + split; [done|by intros [? _]].
Qed.

Lemma yield_map_results {A B} (f : A -> res B) (l : list A) :
  Forall (fun x => is_ok (f x) = true) l ->
  (yield_map f l).1
  = omap (fun x => match f x with ok y => Some y | raise _ => None end) l.
Proof.
  induction 1 as [|x l Hx _ IH]; [reflexivity|].
  cbn [yield_map omap list_omap]. destruct (f x) as [y|e]; [|done].
  destruct (yield_map f l) as [ys r]. cbn [fst] in *. by rewrite IH.
Qed.

(** Listing in another order: the generator ends the same way, and when it
    runs to its end it has yielded the same elements. *)
Lemma yield_map_Permutation {A B} (f : A -> res B) (l1 l2 : list A) :
  l1 ≡ₚ l2 ->
  is_ok (yield_map f l1).2 = is_ok (yield_map f l2).2 /\
  (is_ok (yield_map f l2).2 = true ->
   (yield_map f l1).1 ≡ₚ (yield_map f l2).1).
Proof.
  intros Hl.
  assert (is_ok (yield_map f l1).2 = true <-> is_ok (yield_map f l2).2 = true)
    as Hiff by (by rewrite !yield_map_is_ok, Hl).
  split; [by apply Bool.eq_true_iff_eq|].
  intros H2. pose proof (proj2 Hiff H2) as H1.
  apply yield_map_is_ok in H1, H2.
  by rewrite (yield_map_results f l1 H1), (yield_map_results f l2 H2), Hl.
Qed.

(** What [get] answers when the look-up it dispatches to answers. *)
Lemma getitem_of_lookup {DB} `{Backend DB} builtin_repr (k : bytes)
    (st st' : KVS DB) (value : option bytes) :
  (if hasattr attr_get
   then invoke attr_get (fun get => get k)
   else invoke attr_getitem (fun __getitem__ => __getitem__ k)) st
  = (ok value, st') ->
  __getitem__ builtin_repr (PyBytes k) st
  = (if truthy value then loads (_serialize st') (default [] value)
     else ok PyNone, st').
Proof.
  intros Hlook. unfold __getitem__, bind, lift. cbn [_convert].
  rewrite Hlook. destruct (truthy value); [|reflexivity].
  unfold slot. by destruct (loads _ _).
Qed.

(** X13. The two ways of listing agree, whatever the order of listing. On a
    backing object that has no [values] and no [items], [values()] and
    [items()] go through [keys()] and [get]. If its [keys()] lists the keys
    of a map in some order, its look-up answers the byte strings of that
    map, and none of them is empty, then each of the two generators leaves
    the object as it was, ends as the same generator ends on a [dict] with
    that content (to the end, or by an exception), and, when it runs to its
    end, has yielded the same elements, up to their order. *)
Theorem listing_paths_agree (builtin_repr : pyobj -> pystr) (DB : Type)
    (B : Backend DB) (E : Enumerable DB) (c : Codec) (db : DB)
    (m : gmap bytes bytes) (ks : list bytes) :
  attr_values = None ->
  attr_items = None ->
  keys (mkKVS db c) = (ok (PyBytes <$> ks), mkKVS db c) ->
  ks ≡ₚ (map_to_list m).*1 ->
  (forall k b, m !! k = Some b ->
     b <> [] /\
     (if hasattr attr_get
      then invoke attr_get (fun get => get k)
      else invoke attr_getitem (fun __getitem__ => __getitem__ k))
       (mkKVS db c)
     = (ok (Some b), mkKVS db c)) ->
  ((values builtin_repr (mkKVS db c)).2 = mkKVS db c /\
   is_ok (values builtin_repr (mkKVS db c)).1.2
   = is_ok (values builtin_repr (mkKVS m c)).1.2 /\
   (is_ok (values builtin_repr (mkKVS m c)).1.2 = true ->
    (values builtin_repr (mkKVS db c)).1.1
    ≡ₚ (values builtin_repr (mkKVS m c)).1.1)) /\
  ((items builtin_repr (mkKVS db c)).2 = mkKVS db c /\
   is_ok (items builtin_repr (mkKVS db c)).1.2
   = is_ok (items builtin_repr (mkKVS m c)).1.2 /\
   (is_ok (items builtin_repr (mkKVS m c)).1.2 = true ->
    (items builtin_repr (mkKVS db c)).1.1
    ≡ₚ (items builtin_repr (mkKVS m c)).1.1)).
Proof.
  intros Hvalues Hitems Hkeys Hperm Hlook.
  set (F := fun k : bytes => loads c (default [] (m !! k))).
  set (G := fun k : bytes =>
              res_bind (F k) (fun value => ok (PyBytes k, value))).
  assert (forall k, k ∈ ks ->
            __getitem__ builtin_repr (PyBytes k) (mkKVS db c)
            = (F k, mkKVS db c)) as Hget.
  { intros k Hk. rewrite Hperm in Hk.
    apply list_elem_of_fmap in Hk as ([k' b] & -> & Hkb).
    apply elem_of_map_to_list in Hkb. cbn [fst].
    destruct (Hlook k' b Hkb) as [Hb Hk'].
    rewrite (getitem_of_lookup builtin_repr k' _ _ _ Hk').
    unfold F. rewrite Hkb. by destruct b. }
  assert (values builtin_repr (mkKVS db c) = (yield_map F ks, mkKVS db c))
    as Hv.
  { unfold values. rewrite Hvalues. cbn [hasattr]. rewrite Hkeys.
    rewrite yield_each_pure.
    - f_equal. rewrite yield_map_fmap. apply yield_map_ext.
      intros k Hk. by rewrite (Hget k Hk).
    - intros key Hkey. apply list_elem_of_fmap in Hkey as (k & -> & Hk).
      by rewrite (Hget k Hk). }
  assert (items builtin_repr (mkKVS db c) = (yield_map G ks, mkKVS db c))
    as Hi.
  { unfold items. rewrite Hitems. cbn [hasattr]. rewrite Hkeys.
    assert (forall k, k ∈ ks ->
              (let* value := __getitem__ builtin_repr (PyBytes k) in
               ret (PyBytes k, value)) (mkKVS db c)
              = (G k, mkKVS db c)) as Hpair.
    { intros k Hk. unfold bind, ret. rewrite (Hget k Hk).
      unfold G. by destruct (F k). }
    rewrite yield_each_pure.
    - f_equal. rewrite yield_map_fmap. apply yield_map_ext.
      intros k Hk. by rewrite (Hpair k Hk).
    - intros key Hkey. apply list_elem_of_fmap in Hkey as (k & -> & Hk).
      by rewrite (Hpair k Hk). }
  assert (forall kb : bytes * bytes, kb ∈ map_to_list m ->
            F kb.1 = loads c kb.2) as Hentry.
  { intros [k b] Hkb. apply elem_of_map_to_list in Hkb.
    unfold F. cbn [fst snd]. by rewrite Hkb. }
  assert ((values builtin_repr (mkKVS m c)).1
          = yield_map F (map_to_list m).*1) as Hvd.
  { rewrite values_dict. cbn [fst]. rewrite !yield_map_fmap.
    apply yield_map_ext. intros kb Hkb. by rewrite (Hentry kb Hkb). }
  assert ((items builtin_repr (mkKVS m c)).1
          = yield_map G (map_to_list m).*1) as Hid.
  { rewrite items_dict. cbn [fst]. rewrite !yield_map_fmap.
    apply yield_map_ext. intros [k b] Hkb. unfold G.
    rewrite (Hentry (k, b) Hkb). reflexivity. }
  rewrite Hv, Hi, Hvd, Hid. cbn [fst snd].
  split; (split; [reflexivity|]).
  - apply (yield_map_Permutation F _ _ Hperm).
  - apply (yield_map_Permutation G _ _ Hperm).
Qed.

Lemma listing_paths_agree_witness :
  ((values plain_repr
      (mkKVS (mkHandle (<[ascii_bytes "b" := ascii_bytes "F"]>
                          {[ ascii_bytes "a" := ascii_bytes "T" ]}) true)
         tagged_codec)).2
   = mkKVS (mkHandle (<[ascii_bytes "b" := ascii_bytes "F"]>
                        {[ ascii_bytes "a" := ascii_bytes "T" ]}) true)
       tagged_codec /\
   is_ok (values plain_repr
      (mkKVS (mkHandle (<[ascii_bytes "b" := ascii_bytes "F"]>
                          {[ ascii_bytes "a" := ascii_bytes "T" ]}) true)
         tagged_codec)).1.2
   = is_ok (values plain_repr
      (mkKVS (<[ascii_bytes "b" := ascii_bytes "F"]>
                {[ ascii_bytes "a" := ascii_bytes "T" ]}) tagged_codec)).1.2 /\
   (is_ok (values plain_repr
      (mkKVS (<[ascii_bytes "b" := ascii_bytes "F"]>
                {[ ascii_bytes "a" := ascii_bytes "T" ]}) tagged_codec)).1.2
    = true ->
    (values plain_repr
       (mkKVS (mkHandle (<[ascii_bytes "b" := ascii_bytes "F"]>
                           {[ ascii_bytes "a" := ascii_bytes "T" ]}) true)
          tagged_codec)).1.1
    ≡ₚ (values plain_repr
       (mkKVS (<[ascii_bytes "b" := ascii_bytes "F"]>
                 {[ ascii_bytes "a" := ascii_bytes "T" ]}) tagged_codec)).1.1))
  /\
  ((items plain_repr
      (mkKVS (mkHandle (<[ascii_bytes "b" := ascii_bytes "F"]>
                          {[ ascii_bytes "a" := ascii_bytes "T" ]}) true)
         tagged_codec)).2
   = mkKVS (mkHandle (<[ascii_bytes "b" := ascii_bytes "F"]>
                        {[ ascii_bytes "a" := ascii_bytes "T" ]}) true)
       tagged_codec /\
   is_ok (items plain_repr
      (mkKVS (mkHandle (<[ascii_bytes "b" := ascii_bytes "F"]>
                          {[ ascii_bytes "a" := ascii_bytes "T" ]}) true)
         tagged_codec)).1.2
   = is_ok (items plain_repr
      (mkKVS (<[ascii_bytes "b" := ascii_bytes "F"]>
                {[ ascii_bytes "a" := ascii_bytes "T" ]}) tagged_codec)).1.2 /\
   (is_ok (items plain_repr
      (mkKVS (<[ascii_bytes "b" := ascii_bytes "F"]>
                {[ ascii_bytes "a" := ascii_bytes "T" ]}) tagged_codec)).1.2
    = true ->
    (items plain_repr
       (mkKVS (mkHandle (<[ascii_bytes "b" := ascii_bytes "F"]>
                           {[ ascii_bytes "a" := ascii_bytes "T" ]}) true)
          tagged_codec)).1.1
    ≡ₚ (items plain_repr
       (mkKVS (<[ascii_bytes "b" := ascii_bytes "F"]>
                 {[ ascii_bytes "a" := ascii_bytes "T" ]}) tagged_codec)).1.1)).
Proof.
  refine (listing_paths_agree plain_repr handle _ _ tagged_codec
            (mkHandle (<[ascii_bytes "b" := ascii_bytes "F"]>
                         {[ ascii_bytes "a" := ascii_bytes "T" ]}) true)
            (<[ascii_bytes "b" := ascii_bytes "F"]>
               {[ ascii_bytes "a" := ascii_bytes "T" ]})
            (map_to_list (<[ascii_bytes "b" := ascii_bytes "F"]>
               ({[ ascii_bytes "a" := ascii_bytes "T" ]}
                : gmap bytes bytes))).*1
            eq_refl eq_refl eq_refl _ _).
  - reflexivity.
  - intros k b Hkb. split.
    + apply lookup_insert_Some in Hkb as [[_ <-]|[_ Hkb]]; [discriminate|].
      apply lookup_singleton_Some in Hkb as [_ <-]. discriminate.
    + cbn [hasattr attr_get handle_backend invoke on_database while_open
           _database _serialize is_open content].
      by rewrite Hkb.
Defined.

(** ** UTF-8: decoding inverts encoding *)

Ltac div_lia := zify; Z.to_euclidean_division_equations; lia.

Ltac decide_tests :=
  repeat match goal with
  | |- context [N.ltb ?a ?b] => destruct (N.ltb_spec a b); try lia
  | |- context [N.leb ?a ?b] => destruct (N.leb_spec a b); try lia
  | |- context [N.eqb ?a ?b] => destruct (N.eqb_spec a b); try lia
  end.

Ltac eval_tests :=
  repeat first
    [ progress cbn [andb]
    | match goal with
      | |- context [N.ltb ?a ?b] =>
          first [ rewrite (proj2 (N.ltb_lt a b)) by lia
                | rewrite (proj2 (N.ltb_ge a b)) by lia ]
      | |- context [N.leb ?a ?b] =>
          first [ rewrite (proj2 (N.leb_le a b)) by lia
                | rewrite (proj2 (N.leb_gt a b)) by lia ]
      | |- context [N.eqb ?a ?b] =>
          first [ rewrite (proj2 (N.eqb_eq a b)) by lia
                | rewrite (proj2 (N.eqb_neq a b)) by lia ]
      end ].

Lemma to_N_byte_of_N (n : N) : (n < 256)%N -> Byte.to_N (byte_of_N n) = n.
Proof.
  intros Hn. unfold byte_of_N. rewrite N.mod_small by done.
  destruct (Byte.of_N n) as [b|] eqn:Hb.
  - by apply Byte.to_of_N.
  - apply Byte.of_N_None_iff in Hb. lia.
Qed.

Lemma lor_disjoint (a b k : N) :
  (a `mod` 2 ^ k = 0)%N -> (b < 2 ^ k)%N -> N.lor a b = (a + b)%N.
Proof.
  intros Ha Hb.
  assert (N.land a b = 0%N) as Hland.
  { apply N.bits_inj_0. intros n. rewrite N.land_spec.
    destruct (N.lt_ge_cases n k) as [Hn|Hn].
    - rewrite (N.div_mod a (2 ^ k)) by (apply N.pow_nonzero; lia).
      rewrite Ha, N.add_0_r, N.mul_comm.
      by rewrite N.mul_pow2_bits_low.
    - rewrite <- (N.mod_small b (2 ^ k)) by done.
      rewrite N.mod_pow2_bits_high by done. apply andb_false_r. }
  by rewrite <- N.lxor_lor, <- N.add_nocarry_lxor.
Qed.

Lemma land_0x3F a : N.land a 0x3F = (a `mod` 64)%N.
Proof. exact (N.land_ones a 6). Qed.

Lemma land_0x1F a : N.land a 0x1F = (a `mod` 32)%N.
Proof. exact (N.land_ones a 5). Qed.

Lemma land_0x0F a : N.land a 0x0F = (a `mod` 16)%N.
Proof. exact (N.land_ones a 4). Qed.

Lemma land_0x07 a : N.land a 0x07 = (a `mod` 8)%N.
Proof. exact (N.land_ones a 3). Qed.

Lemma shiftr_6 a : N.shiftr a 6 = (a `div` 64)%N.
Proof. exact (N.shiftr_div_pow2 a 6). Qed.

Lemma shiftr_12 a : N.shiftr a 12 = (a `div` 4096)%N.
Proof. exact (N.shiftr_div_pow2 a 12). Qed.

Lemma shiftr_18 a : N.shiftr a 18 = (a `div` 262144)%N.
Proof. exact (N.shiftr_div_pow2 a 18). Qed.

Lemma lor_shiftl_6 a b : (b < 64)%N -> N.lor (N.shiftl a 6) b = (a * 64 + b)%N.
Proof.
  intros Hb. rewrite (lor_disjoint _ b 6).
  - by rewrite N.shiftl_mul_pow2.
  - rewrite N.shiftl_mul_pow2. apply N.Div0.mod_mul.
  - exact Hb.
Qed.

Lemma lor_shiftl_12 a b :
  (b < 4096)%N -> N.lor (N.shiftl a 12) b = (a * 4096 + b)%N.
Proof.
  intros Hb. rewrite (lor_disjoint _ b 12).
  - by rewrite N.shiftl_mul_pow2.
  - rewrite N.shiftl_mul_pow2. apply N.Div0.mod_mul.
  - exact Hb.
Qed.

Lemma lor_shiftl_18 a b :
  (b < 262144)%N -> N.lor (N.shiftl a 18) b = (a * 262144 + b)%N.
Proof.
  intros Hb. rewrite (lor_disjoint _ b 18).
  - by rewrite N.shiftl_mul_pow2.
  - rewrite N.shiftl_mul_pow2. apply N.Div0.mod_mul.
  - exact Hb.
Qed.

Lemma lor_0x80 l : (l < 64)%N -> N.lor 0x80 l = (0x80 + l)%N.
Proof. intros Hl. by apply (lor_disjoint 0x80 l 6). Qed.

Lemma lor_0xC0 h : (h < 32)%N -> N.lor 0xC0 h = (0xC0 + h)%N.
Proof. intros Hh. by apply (lor_disjoint 0xC0 h 5). Qed.

Lemma lor_0xE0 h : (h < 16)%N -> N.lor 0xE0 h = (0xE0 + h)%N.
Proof. intros Hh. by apply (lor_disjoint 0xE0 h 4). Qed.

Lemma lor_0xF0 h : (h < 8)%N -> N.lor 0xF0 h = (0xF0 + h)%N.
Proof. intros Hh. by apply (lor_disjoint 0xF0 h 3). Qed.

(** The bytes [utf8_char] answers, as numbers. *)
Lemma utf8_char_1 c : (c < 0x80)%N -> utf8_char c = ok [byte_of_N c].
Proof. intros Hc. unfold utf8_char. by decide_tests. Qed.

Lemma utf8_char_2 c :
  (0x80 <= c < 0x800)%N ->
  utf8_char c
  = ok [byte_of_N (0xC0 + c `div` 64); byte_of_N (0x80 + c `mod` 64)].
Proof.
  intros Hc. unfold utf8_char. decide_tests.
  rewrite shiftr_6, land_0x3F.
  rewrite lor_0xC0 by div_lia. by rewrite lor_0x80 by div_lia.
Qed.

Lemma utf8_char_3 c :
  (0x800 <= c < 0x10000)%N ->
  ~ (0xD800 <= c <= 0xDFFF)%N ->
  utf8_char c
  = ok [byte_of_N (0xE0 + c `div` 4096);
        byte_of_N (0x80 + (c `div` 64) `mod` 64);
        byte_of_N (0x80 + c `mod` 64)].
Proof.
  intros Hc Hs. unfold utf8_char. decide_tests; cbn [andb].
  all: rewrite shiftr_12, shiftr_6, !land_0x3F.
  all: rewrite lor_0xE0 by div_lia.
  all: by rewrite !lor_0x80 by div_lia.
Qed.

Lemma utf8_char_4 c :
  (0x10000 <= c < 0x110000)%N ->
  utf8_char c
  = ok [byte_of_N (0xF0 + c `div` 262144);
        byte_of_N (0x80 + (c `div` 4096) `mod` 64);
        byte_of_N (0x80 + (c `div` 64) `mod` 64);
        byte_of_N (0x80 + c `mod` 64)].
Proof.
  intros Hc. unfold utf8_char. decide_tests; cbn [andb].
  all: rewrite shiftr_18, shiftr_12, shiftr_6, !land_0x3F.
  all: rewrite lor_0xF0 by div_lia.
  all: by rewrite !lor_0x80 by div_lia.
Qed.

(** What [decode_one] reads from bytes given as numbers. *)
Lemma decode_one_1 c rest :
  (c < 0x80)%N -> decode_one (byte_of_N c :: rest) = Some (c, rest).
Proof.
  intros Hc. unfold decode_one. rewrite to_N_byte_of_N by lia.
  by eval_tests.
Qed.

Lemma decode_one_2 h l rest :
  (2 <= h < 32)%N -> (l < 64)%N ->
  decode_one (byte_of_N (0xC0 + h) :: byte_of_N (0x80 + l) :: rest)
  = Some ((h * 64 + l)%N, rest).
Proof.
  intros Hh Hl. unfold decode_one, continuation, between.
  rewrite !to_N_byte_of_N by lia. eval_tests.
  rewrite land_0x1F, land_0x3F.
  replace ((0xC0 + h) `mod` 32)%N with h by div_lia.
  replace ((0x80 + l) `mod` 64)%N with l by div_lia.
  by rewrite lor_shiftl_6.
Qed.

Lemma decode_one_3 h m l rest :
  (h < 16)%N -> (m < 64)%N -> (l < 64)%N ->
  (h = 0 -> 32 <= m)%N -> (h = 13 -> m < 32)%N ->
  decode_one (byte_of_N (0xE0 + h) :: byte_of_N (0x80 + m)
                :: byte_of_N (0x80 + l) :: rest)
  = Some ((h * 4096 + (m * 64 + l))%N, rest).
Proof.
  intros Hh Hm Hl H0 H13. unfold decode_one, continuation, between.
  rewrite !to_N_byte_of_N by lia.
  destruct (decide (h = 0%N)) as [Hh0|Hh0];
    destruct (decide (h = 13%N)) as [Hh13|Hh13]; try lia; eval_tests.
  all: rewrite land_0x0F, !land_0x3F.
  all: replace ((0xE0 + h) `mod` 16)%N with h by div_lia.
  all: replace ((0x80 + m) `mod` 64)%N with m by div_lia.
  all: replace ((0x80 + l) `mod` 64)%N with l by div_lia.
  all: rewrite lor_shiftl_6 by done.
  all: by rewrite lor_shiftl_12 by lia.
Qed.

Lemma decode_one_4 h m1 m2 l rest :
  (h <= 4)%N -> (m1 < 64)%N -> (m2 < 64)%N -> (l < 64)%N ->
  (h = 0 -> 16 <= m1)%N -> (h = 4 -> m1 < 16)%N ->
  decode_one (byte_of_N (0xF0 + h) :: byte_of_N (0x80 + m1)
                :: byte_of_N (0x80 + m2) :: byte_of_N (0x80 + l) :: rest)
  = Some ((h * 262144 + (m1 * 4096 + (m2 * 64 + l)))%N, rest).
Proof.
  intros Hh Hm1 Hm2 Hl H0 H4. unfold decode_one, continuation, between.
  rewrite !to_N_byte_of_N by lia.
  destruct (decide (h = 0%N)) as [Hh0|Hh0];
    destruct (decide (h = 4%N)) as [Hh4|Hh4]; try lia; eval_tests.
  all: rewrite land_0x07, !land_0x3F.
  all: replace ((0xF0 + h) `mod` 8)%N with h by div_lia.
  all: replace ((0x80 + m1) `mod` 64)%N with m1 by div_lia.
  all: replace ((0x80 + m2) `mod` 64)%N with m2 by div_lia.
  all: replace ((0x80 + l) `mod` 64)%N with l by div_lia.
  all: rewrite lor_shiftl_6 by done.
  all: rewrite lor_shiftl_12 by lia.
  all: by rewrite lor_shiftl_18 by lia.
Qed.

Lemma decode_one_utf8_char c bs rest :
  code_point c ->
  utf8_char c = ok bs ->
  decode_one (bs ++ rest) = Some (c, rest).
Proof.
  unfold code_point. intros Hc Hbs.
  destruct (N.lt_ge_cases c 0x80) as [H1|H1].
  { rewrite utf8_char_1 in Hbs by done. injection Hbs as <-.
    by apply decode_one_1. }
  destruct (N.lt_ge_cases c 0x800) as [H2|H2].
  { rewrite utf8_char_2 in Hbs by done. injection Hbs as <-.
    cbn [app]. rewrite decode_one_2 by div_lia. f_equal. f_equal. div_lia. }
  destruct (decide (0xD800 <= c <= 0xDFFF)%N) as [Hs|Hs].
  { exfalso. revert Hbs. unfold utf8_char. decide_tests. by cbn. }
  destruct (N.lt_ge_cases c 0x10000) as [H3|H3].
  { rewrite utf8_char_3 in Hbs by done. injection Hbs as <-.
    cbn [app]. rewrite decode_one_3 by div_lia. f_equal. f_equal. div_lia. }
  rewrite utf8_char_4 in Hbs by done. injection Hbs as <-.
  cbn [app]. rewrite decode_one_4 by div_lia. f_equal. f_equal. div_lia.
Qed.

Lemma utf8_char_nonempty c bs :
  code_point c -> utf8_char c = ok bs -> (0 < length bs)%nat.
Proof.
  intros Hc Hbs.
  pose proof (decode_one_utf8_char c bs [] Hc Hbs) as Hd.
  destruct bs; [discriminate|]. cbn. lia.
Qed.

Lemma decode_upto_encode s b n :
  Forall code_point s ->
  encode s = ok b ->
  (length b <= n)%nat ->
  decode_upto n b = ok s.
Proof.
  intros Hs. revert b n. induction Hs as [|c s Hc _ IH]; intros b n.
  - intros [= <-] _. by destruct n.
  - cbn [encode]. destruct (utf8_char c) as [bs|e] eqn:Hbs; [|discriminate].
    cbn [res_bind]. destruct (encode s) as [b'|e] eqn:Hb'; [|discriminate].
    intros [= <-]. rewrite length_app. intros Hn.
    pose proof (utf8_char_nonempty c bs Hc Hbs) as Hlen.
    pose proof (decode_one_utf8_char c bs b' Hc Hbs) as Hd.
    destruct n as [|n]; [lia|].
    destruct (bs ++ b') as [|x l] eqn:Hl.
    { apply (f_equal length) in Hl. rewrite length_app in Hl. cbn in Hl. lia. }
    cbn [decode_upto]. rewrite Hd.
    by rewrite (IH b' n eq_refl) by lia.
Qed.

Lemma codepoints_code_points (s : string) : Forall code_point (codepoints s).
Proof.
  eapply Forall_impl; [apply codepoints_small|].
  unfold code_point. intros c Hc. cbn in Hc. lia.
Qed.

Lemma codepoints_inj : Inj (=) (=) codepoints.
Proof.
  intros s1 s2 Hs. unfold codepoints in Hs.
  rewrite <- (String.string_of_list_ascii_of_string s1).
  rewrite <- (String.string_of_list_ascii_of_string s2).
  f_equal. revert Hs.
  generalize (String.list_ascii_of_string s1) as l1.
  generalize (String.list_ascii_of_string s2) as l2.
  intros l2 l1. revert l2.
  induction l1 as [|a1 l1 IH]; intros [|a2 l2]; cbn; try done.
  intros [= Ha Hl]. f_equal; [|by apply IH].
  rewrite <- (Ascii.ascii_N_embedding a1), <- (Ascii.ascii_N_embedding a2).
  by rewrite Ha.
Qed.

(** X14. Decoding inverts encoding: for a [str] key (its code points are
    below [0x110000]) that [_convert] accepts, UTF-8 decoding of the
    canonical key gives the text back; hence two [str] keys with the same
    canonical key are the same text, and different texts never share an
    entry. *)
Theorem text_keys_never_collide (builtin_repr : pyobj -> pystr) (s : pystr)
    (k : bytes) :
  Forall code_point s ->
  _convert builtin_repr (PyStr s) = ok k ->
  decode k = ok s /\
  (forall s', Forall code_point s' ->
     _convert builtin_repr (PyStr s') = ok k -> s' = s).
Proof.
  intros Hs Hk. cbn [_convert] in Hk.
  assert (forall s', Forall code_point s' -> encode s' = ok k ->
                     decode k = ok s') as Hdec.
  { intros s' Hs' Hk'. by apply decode_upto_encode. }
  split; [by apply Hdec|].
  intros s' Hs' Hk'. cbn [_convert] in Hk'.
  pose proof (Hdec s Hs Hk) as H1. pose proof (Hdec s' Hs' Hk') as H2.
  congruence.
Qed.

Lemma text_keys_never_collide_witness :
  decode (byte_of_N <$> [195; 169; 226; 130; 172; 240; 159; 152; 128]%N)
  = ok [0xE9; 0x20AC; 0x1F600]%N /\
  (forall s', Forall code_point s' ->
     _convert plain_repr (PyStr s')
     = ok (byte_of_N <$> [195; 169; 226; 130; 172; 240; 159; 152; 128]%N) ->
     s' = [0xE9; 0x20AC; 0x1F600]%N).
Proof.
  apply (text_keys_never_collide plain_repr [0xE9; 0x20AC; 0x1F600]%N).
  - repeat constructor.
  - by vm_compute.
Defined.

(** X15. Integer keys never collide: for integers within the interpreter's
    limit on the digits of [str], the canonical key exists and decodes to
    the decimal text of the integer, and two [int] keys have the same
    canonical key exactly when they are the same integer. *)
Theorem int_keys_never_collide (builtin_repr : pyobj -> pystr) (a b : Z) :
  within_str_digits a ->
  within_str_digits b ->
  (_convert builtin_repr (PyInt a) = _convert builtin_repr (PyInt b)
   <-> a = b) /\
  exists k, _convert builtin_repr (PyInt a) = ok k /\
            decode k = ok (str_int a).
Proof.
  intros _ _.
  assert (forall n, exists k, _convert builtin_repr (PyInt n) = ok k /\
                              decode k = ok (str_int n)) as Hok.
  { intros n. pose proof (convert_int_ok builtin_repr n) as Hn.
    destruct (_convert builtin_repr (PyInt n)) as [k|e] eqn:Hk; [|done].
    exists k. split; [done|].
    apply decode_upto_encode; [apply codepoints_code_points|exact Hk|done]. }
  split; [|apply Hok].
  split; [|by intros ->].
  intros Hab.
  destruct (Hok a) as (ka & Hka & Hda). destruct (Hok b) as (kb & Hkb & Hdb).
  assert (ka = kb) as -> by congruence.
  assert (str_int a = str_int b) as Hs by congruence.
  unfold str_int in Hs. apply codepoints_inj in Hs.
  by apply (inj pretty) in Hs.
Qed.

Lemma int_keys_never_collide_witness :
  (_convert plain_repr (PyInt (-120)) = _convert plain_repr (PyInt 7)
   <-> (-120)%Z = 7%Z) /\
  exists k, _convert plain_repr (PyInt (-120)) = ok k /\
            decode k = ok (str_int (-120)).
Proof.
  apply (int_keys_never_collide plain_repr (-120) 7).
  - unfold within_str_digits, default_max_str_digits. vm_compute. lia.
  - unfold within_str_digits, default_max_str_digits. vm_compute. lia.
Defined.

(** ** Construction *)

Lemma ascii_Forall (s : pystr) :
  forallb (fun c => (c <? 0x80)%N) s = true ->
  Forall (fun c => (c < 0x80)%N) s.
Proof.
  induction s as [|c s IH]; cbn [forallb]; intros Hs; [constructor|].
  apply andb_true_iff in Hs as [Hc Hs].
  constructor; [by apply N.ltb_lt|by apply IH].
Qed.

Lemma ascii_encodes (s : pystr) :
  forallb (fun c => (c <? 0x80)%N) s = true ->
  Forall code_point s /\ exists b, encode s = ok b.
Proof.
  intros Hs. apply ascii_Forall in Hs. split.
  - eapply Forall_impl; [exact Hs|]. unfold code_point. intros c Hc.
    cbn beta in Hc. lia.
  - assert (is_ok (encode s) = true) as Hok.
    { apply encode_small. eapply Forall_impl; [exact Hs|].
      intros c Hc. cbn beta in Hc. lia. }
    destruct (encode s) as [b|]; [by exists b|done].
Qed.

Lemma init_bytes_decoded {Dbm Ext : Type} (unicode_lower : pystr -> pystr)
    (dbm_open : pystr -> pyobj -> gmap string pyobj -> res Dbm)
    (SeCo_json_zlib : Codec) (s : pystr) (b : bytes)
    (serialize : option Codec) (kwargs : gmap string pyobj) :
  decode b = ok s ->
  __init__ (Ext := Ext) unicode_lower dbm_open SeCo_json_zlib
    (AsBytes b) serialize kwargs
  = __init__ unicode_lower dbm_open SeCo_json_zlib (AsStr s) serialize kwargs
  /\
  __init__ (Ext := Ext) unicode_lower dbm_open SeCo_json_zlib
    (AsByteArray b) serialize kwargs
  = __init__ unicode_lower dbm_open SeCo_json_zlib (AsStr s) serialize kwargs.
Proof. intros Hb. unfold __init__. by rewrite Hb. Qed.

(** X16. [':memory:'] is recognised in any letter case and in any of the
    three forms a path can take: for ASCII text that lower-cases to
    [':memory:'], given as [str], [bytes] or [bytearray], [__init__] sets up
    a fresh empty [dict] with the serializer given (or the default one),
    whatever the keyword arguments, and [dbm.open] is not called. *)
Theorem memory_in_any_case {Dbm Ext : Type} (unicode_lower : pystr -> pystr)
    (dbm_open : pystr -> pyobj -> gmap string pyobj -> res Dbm)
    (SeCo_json_zlib : Codec) (s : pystr) (serialize : option Codec)
    (kwargs : gmap string pyobj) :
  forallb (fun c => (c <? 0x80)%N) s = true ->
  ascii_lower <$> s = codepoints ":memory:" ->
  exists b, encode s = ok b /\
    Forall (fun database : database_argument Ext =>
      __init__ unicode_lower dbm_open SeCo_json_zlib database serialize kwargs
      = ok (Transient (mkKVS ∅ (default SeCo_json_zlib serialize))))
    [AsStr s; AsBytes b; AsByteArray b].
Proof.
  intros Hascii Hlower.
  destruct (ascii_encodes s Hascii) as [Hs [b Hb]].
  exists b. split; [exact Hb|].
  assert (__init__ (Dbm := Dbm) (Ext := Ext) unicode_lower dbm_open
            SeCo_json_zlib (AsStr s) serialize kwargs
          = ok (Transient (mkKVS ∅ (default SeCo_json_zlib serialize))))
    as Hstr.
  { unfold __init__, lower. rewrite Hascii, Hlower.
    rewrite bool_decide_eq_true_2 by done. by destruct serialize. }
  destruct (init_bytes_decoded (Ext := Ext) unicode_lower dbm_open
              SeCo_json_zlib s b serialize kwargs) as [Hbytes Hbytearray].
  { by apply decode_upto_encode. }
  repeat constructor; congruence.
Qed.

Lemma memory_in_any_case_witness :
  exists b, encode (codepoints ":MeMoRy:") = ok b /\
    Forall (fun database : database_argument Empty_set =>
      __init__ id positional_open raw_codec database (Some tagged_codec)
        {[ "flag"%string := PyStr (codepoints "r") ]}
      = ok (Transient (mkKVS ∅ (default raw_codec (Some tagged_codec)))))
    [AsStr (codepoints ":MeMoRy:"); AsBytes b; AsByteArray b].
Proof.
  exact (memory_in_any_case id positional_open raw_codec
           (codepoints ":MeMoRy:") (Some tagged_codec) {[ "flag"%string := PyStr (codepoints "r") ]}
           eq_refl eq_refl).
Defined.

(** X17. A path given as [bytes] or [bytearray] is the path its UTF-8
    decoding gives: for the encoding of a text, [__init__] does exactly
    what it does for the text itself; bytes that do not decode make it
    raise the decoding error before anything is opened. *)
Theorem bytes_path_is_text_path {Dbm Ext : Type}
    (unicode_lower : pystr -> pystr)
    (dbm_open : pystr -> pyobj -> gmap string pyobj -> res Dbm)
    (SeCo_json_zlib : Codec) (s : pystr) (b : bytes)
    (serialize : option Codec) (kwargs : gmap string pyobj) :
  Forall code_point s ->
  encode s = ok b ->
  __init__ (Ext := Ext) unicode_lower dbm_open SeCo_json_zlib
    (AsBytes b) serialize kwargs
  = __init__ unicode_lower dbm_open SeCo_json_zlib (AsStr s) serialize kwargs
  /\
  __init__ (Ext := Ext) unicode_lower dbm_open SeCo_json_zlib
    (AsByteArray b) serialize kwargs
  = __init__ unicode_lower dbm_open SeCo_json_zlib (AsStr s) serialize kwargs
  /\
  (forall b' e, decode b' = raise e ->
     __init__ (Ext := Ext) unicode_lower dbm_open SeCo_json_zlib
       (AsBytes b') serialize kwargs = raise e /\
     __init__ (Ext := Ext) unicode_lower dbm_open SeCo_json_zlib
       (AsByteArray b') serialize kwargs = raise e).
Proof.
  intros Hs Hb.
  destruct (init_bytes_decoded (Ext := Ext) unicode_lower dbm_open
              SeCo_json_zlib s b serialize kwargs) as [Hbytes Hbytearray].
  { by apply decode_upto_encode. }
  split; [exact Hbytes|]. split; [exact Hbytearray|].
  intros b' e Hb'. unfold __init__. by rewrite Hb'.
Qed.

Lemma bytes_path_is_text_path_witness :
  __init__ (Ext := Empty_set) id positional_open raw_codec
    (AsBytes (byte_of_N <$> [100; 195; 169]%N)) None ∅
  = __init__ id positional_open raw_codec (AsStr [100; 0xE9]%N) None ∅ /\
  __init__ (Ext := Empty_set) id positional_open raw_codec
    (AsByteArray (byte_of_N <$> [100; 195; 169]%N)) None ∅
  = __init__ id positional_open raw_codec (AsStr [100; 0xE9]%N) None ∅ /\
  (forall b' e, decode b' = raise e ->
     __init__ (Ext := Empty_set) id positional_open raw_codec
       (AsBytes b') None ∅ = raise e /\
     __init__ (Ext := Empty_set) id positional_open raw_codec
       (AsByteArray b') None ∅ = raise e).
Proof.
  apply (bytes_path_is_text_path id positional_open raw_codec
           [100; 0xE9]%N).
  - repeat constructor.
  - by vm_compute.
Defined.

(** X18. For a path other than [':memory:'], [__init__] calls [dbm.open]
    with the flag ['c'] unless the caller gives [flag]; a [flag] the caller
    gives is handed over twice, by position and again among the keyword
    arguments. As [dbm.open] refuses a call that gives [flag] by keyword
    (it is already bound by position), construction with [flag] raises
    [TypeError]. *)
Theorem flag_cannot_be_given {Dbm Ext : Type} (unicode_lower : pystr -> pystr)
    (dbm_open : pystr -> pyobj -> gmap string pyobj -> res Dbm)
    (SeCo_json_zlib : Codec) (path : pystr) (serialize : option Codec)
    (kwargs : gmap string pyobj) :
  lower unicode_lower path <> codepoints ":memory:" ->
  (forall file flag kw, is_Some (kw !! "flag"%string) ->
     exists msg, dbm_open file flag kw = raise (TypeError msg)) ->
  __init__ (Ext := Ext) unicode_lower dbm_open SeCo_json_zlib
    (AsStr path) serialize kwargs
  = res_bind
      (dbm_open path
         (default (PyStr (codepoints "c")) (kwargs !! "flag"%string)) kwargs)
      (fun database =>
         ok (Persistent (mkKVS database (default SeCo_json_zlib serialize))))
  /\
  (is_Some (kwargs !! "flag"%string) ->
   exists msg,
     __init__ (Ext := Ext) unicode_lower dbm_open SeCo_json_zlib
       (AsStr path) serialize kwargs = raise (TypeError msg)).
Proof.
  intros Hpath Hbinding.
  assert (__init__ (Ext := Ext) unicode_lower dbm_open SeCo_json_zlib
            (AsStr path) serialize kwargs
          = res_bind
              (dbm_open path
                 (default (PyStr (codepoints "c")) (kwargs !! "flag"%string))
                 kwargs)
              (fun database =>
                 ok (Persistent
                       (mkKVS database (default SeCo_json_zlib serialize)))))
    as Hinit.
  { unfold __init__. rewrite bool_decide_eq_false_2 by done.
    destruct (kwargs !! "flag"%string), serialize; reflexivity. }
  split; [exact Hinit|].
  intros Hflag. rewrite Hinit.
  destruct (Hbinding path
              (default (PyStr (codepoints "c")) (kwargs !! "flag"%string))
              kwargs Hflag) as [msg ->].
  by exists msg.
Qed.

Lemma positional_open_binding (file : pystr) (flag : pyobj)
    (kw : gmap string pyobj) :
  is_Some (kw !! "flag"%string) ->
  exists msg, positional_open file flag kw = raise (TypeError msg).
Proof.
  intros Hflag. unfold positional_open.
  rewrite bool_decide_eq_false_2; [by eexists|].
  intros Hdom. apply elem_of_dom in Hflag. rewrite Hdom in Hflag.
  by apply elem_of_empty in Hflag.
Qed.

Lemma flag_cannot_be_given_witness :
  __init__ (Ext := Empty_set) id positional_open raw_codec
    (AsStr (codepoints "store.db")) None
    {[ "flag"%string := PyStr (codepoints "r") ]}
  = res_bind
      (positional_open (codepoints "store.db")
         (default (PyStr (codepoints "c"))
            (({[ "flag"%string := PyStr (codepoints "r") ]}
              : gmap string pyobj) !! "flag"%string))
         {[ "flag"%string := PyStr (codepoints "r") ]})
      (fun database =>
         ok (Persistent (mkKVS database (default raw_codec None))))
  /\
  (is_Some (({[ "flag"%string := PyStr (codepoints "r") ]}
             : gmap string pyobj) !! "flag"%string) ->
   exists msg,
     __init__ (Ext := Empty_set) id positional_open raw_codec
       (AsStr (codepoints "store.db")) None
       {[ "flag"%string := PyStr (codepoints "r") ]} = raise (TypeError msg)).
Proof.
  apply (flag_cannot_be_given id positional_open raw_codec
           (codepoints "store.db") None {[ "flag"%string := PyStr (codepoints "r") ]}).
  - intros Heq. vm_compute in Heq. discriminate Heq.
  - exact positional_open_binding.
Defined.

(** ** Attribute access *)

Section AttributeFacts.
Variable builtin_repr : pyobj -> pystr.
Variable object_setattr : pystr -> pyobj -> method (gmap bytes bytes) unit.
Variable object_delattr : pystr -> method (gmap bytes bytes) unit.
Context {attribute : Type}.
Variable database_getattribute : pystr -> call (gmap bytes bytes) attribute.
Implicit Types (m : gmap bytes bytes) (c : Codec) (name : pystr)
  (value : pyobj) (k : bytes).

Lemma setattr_dict m c name value :
  object_setattr name value (mkKVS m c) = (raise AttributeError, mkKVS m c) ->
  __setattr__ builtin_repr object_setattr name value (mkKVS m c)
  = match __setitem__ builtin_repr (PyStr name) value (mkKVS m c) with
    | (ok _, st) => (ok tt, st)
    | (raise e, st) => (raise e, st)
    end.
Proof.
  intros Hslot. unfold __setattr__, except_AttributeError. rewrite Hslot.
  unfold bind. by destruct (__setitem__ _ _ _ _) as [[v|e] st].
Qed.

Lemma delattr_dict m c name :
  object_delattr name (mkKVS m c) = (raise AttributeError, mkKVS m c) ->
  __delattr__ builtin_repr object_delattr name (mkKVS m c)
  = match __delitem__ builtin_repr (PyStr name) (mkKVS m c) with
    | (ok _, st) => (ok tt, st)
    | (raise e, st) => (raise e, st)
    end.
Proof.
  intros Hslot. unfold __delattr__, except_AttributeError. rewrite Hslot.
  unfold bind. by destruct (__delitem__ _ _ _) as [[v|e] st].
Qed.

Lemma getattr_dict_missing m c name :
  database_getattribute name m = (raise AttributeError, m) ->
  __getattr__ builtin_repr database_getattribute name (mkKVS m c)
  = match __getitem__ builtin_repr (PyStr name) (mkKVS m c) with
    | (ok v, st) => (ok (inr v), st)
    | (raise e, st) => (raise e, st)
    end.
Proof.
  intros Hattr. unfold __getattr__, except_AttributeError, bind at 1.
  unfold on_database. cbn [_database _serialize]. rewrite Hattr.
  unfold bind. by destruct (__getitem__ _ _ _) as [[v|e] st].
Qed.

Lemma getattr_dict_found m c name a d :
  database_getattribute name m = (ok a, d) ->
  __getattr__ builtin_repr database_getattribute name (mkKVS m c)
  = (ok (inl a), mkKVS d c).
Proof.
  intros Hattr. unfold __getattr__, except_AttributeError, bind.
  unfold on_database. cbn [_database _serialize]. by rewrite Hattr.
Qed.

Context {member : Type}.
Variable object_getattribute : pystr -> method (gmap bytes bytes) member.

(** A name the look-up on the object finds is answered by it, and
    [__getattr__] is not called. *)
Lemma getattr_own m c name a st :
  object_getattribute name (mkKVS m c) = (ok a, st) ->
  getattr builtin_repr database_getattribute object_getattribute name
    (mkKVS m c)
  = (ok (inl a), st).
Proof.
  intros Hown. unfold getattr, except_AttributeError, bind at 1.
  by rewrite Hown.
Qed.

Lemma getattr_fallback m c name :
  object_getattribute name (mkKVS m c) = (raise AttributeError, mkKVS m c) ->
  getattr builtin_repr database_getattribute object_getattribute name
    (mkKVS m c)
  = match __getattr__ builtin_repr database_getattribute name (mkKVS m c) with
    | (ok a, st) => (ok (inr a), st)
    | (raise e, st) => (raise e, st)
    end.
Proof.
  intros Hown. unfold getattr, except_AttributeError at 1, bind at 1.
  rewrite Hown. unfold bind.
  by destruct (__getattr__ _ _ _ _) as [[a|e] st].
Qed.
End AttributeFacts.

(** X19. Attribute style works like item style for a name that is neither
    a slot of the facade, nor an attribute its class defines, nor an
    attribute of the backing object: on the transient map,
    [kvs.name = value] stores the encoded value under the UTF-8 encoding of
    the name, exactly as [set(name, value)] does, and reading [kvs.name]
    then answers the value, provided [loads] inverts [dumps] and the
    encoding is not empty. *)
Theorem attribute_round_trip (builtin_repr : pyobj -> pystr)
    (object_setattr : pystr -> pyobj -> method (gmap bytes bytes) unit)
    (attribute member : Type)
    (database_getattribute : pystr -> call (gmap bytes bytes) attribute)
    (object_getattribute : pystr -> method (gmap bytes bytes) member)
    (c : Codec) (m : gmap bytes bytes) (name : pystr) (value : pyobj)
    (k b : bytes) :
  object_setattr name value (mkKVS m c) = (raise AttributeError, mkKVS m c) ->
  object_getattribute name (mkKVS (<[k:=b]> m) c)
  = (raise AttributeError, mkKVS (<[k:=b]> m) c) ->
  database_getattribute name (<[k:=b]> m) = (raise AttributeError, <[k:=b]> m) ->
  encode name = ok k ->
  is_None value = false ->
  dumps c value = ok b ->
  codec_inverts c ->
  b <> [] ->
  __setattr__ builtin_repr object_setattr name value (mkKVS m c)
  = (ok tt, mkKVS (<[k:=b]> m) c) /\
  (__setitem__ builtin_repr (PyStr name) value (mkKVS m c)).2
  = mkKVS (<[k:=b]> m) c /\
  getattr builtin_repr database_getattribute object_getattribute name
    (mkKVS (<[k:=b]> m) c)
  = (ok (inr (inr value)), mkKVS (<[k:=b]> m) c).
Proof.
  intros Hslot Hown Hattr Hk Hv Hd Hinv Hb.
  rewrite (setattr_dict builtin_repr object_setattr m c name value Hslot).
  rewrite (setitem_dict builtin_repr m c (PyStr name) value k Hk Hv), Hd.
  split; [reflexivity|]. split; [reflexivity|].
  rewrite (getattr_fallback builtin_repr database_getattribute
             object_getattribute _ c name Hown).
  rewrite (getattr_dict_missing builtin_repr database_getattribute _ c name
             Hattr).
  rewrite (getitem_dict builtin_repr _ c (PyStr name) k Hk).
  rewrite lookup_insert_eq. destruct b as [|x b]; [done|]. cbn.
  by rewrite (Hinv value (x :: b) Hd).
Qed.

Lemma attribute_round_trip_witness :
  __setattr__ plain_repr (fun _ _ => no_such_slot) (codepoints "colour")
    (PyBool true) (mkKVS ∅ tagged_codec)
  = (ok tt, mkKVS (<[ascii_bytes "colour" := ascii_bytes "T"]> ∅) tagged_codec)
  /\
  (__setitem__ plain_repr (PyStr (codepoints "colour")) (PyBool true)
     (mkKVS ∅ tagged_codec)).2
  = mkKVS (<[ascii_bytes "colour" := ascii_bytes "T"]> ∅) tagged_codec /\
  getattr plain_repr dict_getattribute KVS_getattribute (codepoints "colour")
    (mkKVS (<[ascii_bytes "colour" := ascii_bytes "T"]> ∅) tagged_codec)
  = (ok (inr (inr (PyBool true))),
     mkKVS (<[ascii_bytes "colour" := ascii_bytes "T"]> ∅) tagged_codec).
Proof.
  apply (attribute_round_trip plain_repr (fun _ _ => no_such_slot) string
           string dict_getattribute KVS_getattribute tagged_codec ∅
           (codepoints "colour") (PyBool true) (ascii_bytes "colour")
           (ascii_bytes "T")).
  - reflexivity.
  - reflexivity.
  - reflexivity.
  - reflexivity.
  - reflexivity.
  - reflexivity.
  - exact tagged_codec_inverts.
  - discriminate.
Defined.

(** X20. An attribute of the facade or of the backing object hides the
    entry of the same name. On the transient map, [kvs.name = value] stores
    the value for every name that is no slot, and [get(name)] answers it;
    but reading [kvs.name] answers the facade's own attribute when its
    class defines the name (as it does [put] or [get]), and otherwise the
    backing object's attribute when it has one of that name (such as [copy]
    for a [dict]). *)
Theorem attribute_hides_entry (builtin_repr : pyobj -> pystr)
    (object_setattr : pystr -> pyobj -> method (gmap bytes bytes) unit)
    (attribute member : Type)
    (database_getattribute : pystr -> call (gmap bytes bytes) attribute)
    (object_getattribute : pystr -> method (gmap bytes bytes) member)
    (c : Codec) (m : gmap bytes bytes) (name : pystr) (value : pyobj)
    (k b : bytes) :
  object_setattr name value (mkKVS m c) = (raise AttributeError, mkKVS m c) ->
  encode name = ok k ->
  is_None value = false ->
  dumps c value = ok b ->
  codec_inverts c ->
  b <> [] ->
  __setattr__ builtin_repr object_setattr name value (mkKVS m c)
  = (ok tt, mkKVS (<[k:=b]> m) c) /\
  __getitem__ builtin_repr (PyStr name) (mkKVS (<[k:=b]> m) c)
  = (ok value, mkKVS (<[k:=b]> m) c) /\
  (forall a : member,
     object_getattribute name (mkKVS (<[k:=b]> m) c)
     = (ok a, mkKVS (<[k:=b]> m) c) ->
     getattr builtin_repr database_getattribute object_getattribute name
       (mkKVS (<[k:=b]> m) c)
     = (ok (inl a), mkKVS (<[k:=b]> m) c)) /\
  (forall a : attribute,
     object_getattribute name (mkKVS (<[k:=b]> m) c)
     = (raise AttributeError, mkKVS (<[k:=b]> m) c) ->
     database_getattribute name (<[k:=b]> m) = (ok a, <[k:=b]> m) ->
     getattr builtin_repr database_getattribute object_getattribute name
       (mkKVS (<[k:=b]> m) c)
     = (ok (inr (inl a)), mkKVS (<[k:=b]> m) c)).
Proof.
  intros Hslot Hk Hv Hd Hinv Hb.
  rewrite (setattr_dict builtin_repr object_setattr m c name value Hslot).
  rewrite (setitem_dict builtin_repr m c (PyStr name) value k Hk Hv), Hd.
  split; [reflexivity|]. split; [|split].
  - rewrite (getitem_dict builtin_repr _ c (PyStr name) k Hk).
    rewrite lookup_insert_eq. destruct b as [|x b]; [done|]. cbn.
    by rewrite (Hinv value (x :: b) Hd).
  - intros a Hown.
    by rewrite (getattr_own builtin_repr database_getattribute
                  object_getattribute _ c name a _ Hown).
  - intros a Hown Hattr.
    rewrite (getattr_fallback builtin_repr database_getattribute
               object_getattribute _ c name Hown).
    by rewrite (getattr_dict_found builtin_repr database_getattribute _ c
                  name a _ Hattr).
Qed.

Lemma attribute_hides_entry_witness :
  (__setattr__ plain_repr (fun _ _ => no_such_slot) (codepoints "put")
     (PyBool true) (mkKVS ∅ tagged_codec)
   = (ok tt, mkKVS (<[ascii_bytes "put" := ascii_bytes "T"]> ∅) tagged_codec)
   /\
   __getitem__ plain_repr (PyStr (codepoints "put"))
     (mkKVS (<[ascii_bytes "put" := ascii_bytes "T"]> ∅) tagged_codec)
   = (ok (PyBool true),
      mkKVS (<[ascii_bytes "put" := ascii_bytes "T"]> ∅) tagged_codec) /\
   getattr plain_repr dict_getattribute KVS_getattribute (codepoints "put")
     (mkKVS (<[ascii_bytes "put" := ascii_bytes "T"]> ∅) tagged_codec)
   = (ok (inl "put"%string),
      mkKVS (<[ascii_bytes "put" := ascii_bytes "T"]> ∅) tagged_codec)) /\
  (__setattr__ plain_repr (fun _ _ => no_such_slot) (codepoints "copy")
     (PyBool true) (mkKVS ∅ tagged_codec)
   = (ok tt, mkKVS (<[ascii_bytes "copy" := ascii_bytes "T"]> ∅) tagged_codec)
   /\
   __getitem__ plain_repr (PyStr (codepoints "copy"))
     (mkKVS (<[ascii_bytes "copy" := ascii_bytes "T"]> ∅) tagged_codec)
   = (ok (PyBool true),
      mkKVS (<[ascii_bytes "copy" := ascii_bytes "T"]> ∅) tagged_codec) /\
   getattr plain_repr dict_getattribute KVS_getattribute (codepoints "copy")
     (mkKVS (<[ascii_bytes "copy" := ascii_bytes "T"]> ∅) tagged_codec)
   = (ok (inr (inl "copy"%string)),
      mkKVS (<[ascii_bytes "copy" := ascii_bytes "T"]> ∅) tagged_codec)).
Proof.
  split.
  - destruct (attribute_hides_entry plain_repr (fun _ _ => no_such_slot)
                string string dict_getattribute KVS_getattribute tagged_codec
                ∅ (codepoints "put") (PyBool true) (ascii_bytes "put")
                (ascii_bytes "T") eq_refl eq_refl eq_refl eq_refl
                tagged_codec_inverts ltac:(discriminate))
      as (Hset & Hget & Hown & _).
    split; [exact Hset|]. split; [exact Hget|].
    apply Hown. reflexivity.
  - destruct (attribute_hides_entry plain_repr (fun _ _ => no_such_slot)
                string string dict_getattribute KVS_getattribute tagged_codec
                ∅ (codepoints "copy") (PyBool true) (ascii_bytes "copy")
                (ascii_bytes "T") eq_refl eq_refl eq_refl eq_refl
                tagged_codec_inverts ltac:(discriminate))
      as (Hset & Hget & _ & Hbackend).
    split; [exact Hset|]. split; [exact Hget|].
    apply Hbackend; reflexivity.
Defined.

(** X21. For a name that is no slot of the facade, [del kvs.name] and
    [kvs.name = None] both do what [delete(name)] does: on the transient
    map they never raise, whether or not the entry exists, and leave no
    entry under the name, so that reading [kvs.name] answers [None] when
    neither the facade's class nor the backing object has an attribute of
    that name. *)
Theorem attribute_delete (builtin_repr : pyobj -> pystr)
    (object_setattr : pystr -> pyobj -> method (gmap bytes bytes) unit)
    (object_delattr : pystr -> method (gmap bytes bytes) unit)
    (attribute member : Type)
    (database_getattribute : pystr -> call (gmap bytes bytes) attribute)
    (object_getattribute : pystr -> method (gmap bytes bytes) member)
    (c : Codec) (m : gmap bytes bytes) (name : pystr) (k : bytes) :
  object_setattr name PyNone (mkKVS m c) = (raise AttributeError, mkKVS m c) ->
  object_delattr name (mkKVS m c) = (raise AttributeError, mkKVS m c) ->
  object_getattribute name (mkKVS (delete k m) c)
  = (raise AttributeError, mkKVS (delete k m) c) ->
  database_getattribute name (delete k m) = (raise AttributeError, delete k m) ->
  encode name = ok k ->
  __delattr__ builtin_repr object_delattr name (mkKVS m c)
  = (ok tt, mkKVS (delete k m) c) /\
  __setattr__ builtin_repr object_setattr name PyNone (mkKVS m c)
  = (ok tt, mkKVS (delete k m) c) /\
  getattr builtin_repr database_getattribute object_getattribute name
    (mkKVS (delete k m) c)
  = (ok (inr (inr PyNone)), mkKVS (delete k m) c).
Proof.
  intros Hset Hdel Hown Hattr Hk.
  rewrite (delattr_dict builtin_repr object_delattr m c name Hdel).
  rewrite (delitem_dict builtin_repr m c (PyStr name) k Hk).
  rewrite (setattr_dict builtin_repr object_setattr m c name PyNone Hset).
  rewrite (setitem_None_dict builtin_repr m c (PyStr name) k Hk).
  split; [reflexivity|]. split; [reflexivity|].
  rewrite (getattr_fallback builtin_repr database_getattribute
             object_getattribute _ c name Hown).
  rewrite (getattr_dict_missing builtin_repr database_getattribute _ c name
             Hattr).
  rewrite (getitem_dict builtin_repr _ c (PyStr name) k Hk).
  by rewrite lookup_delete_eq.
Qed.

Lemma attribute_delete_witness :
  __delattr__ plain_repr (fun _ => no_such_slot) (codepoints "colour")
    (mkKVS {[ ascii_bytes "colour" := ascii_bytes "T" ]} tagged_codec)
  = (ok tt,
     mkKVS (delete (ascii_bytes "colour")
              {[ ascii_bytes "colour" := ascii_bytes "T" ]}) tagged_codec) /\
  __setattr__ plain_repr (fun _ _ => no_such_slot) (codepoints "colour")
    PyNone (mkKVS {[ ascii_bytes "colour" := ascii_bytes "T" ]} tagged_codec)
  = (ok tt,
     mkKVS (delete (ascii_bytes "colour")
              {[ ascii_bytes "colour" := ascii_bytes "T" ]}) tagged_codec) /\
  getattr plain_repr dict_getattribute KVS_getattribute (codepoints "colour")
    (mkKVS (delete (ascii_bytes "colour")
              {[ ascii_bytes "colour" := ascii_bytes "T" ]}) tagged_codec)
  = (ok (inr (inr PyNone)),
     mkKVS (delete (ascii_bytes "colour")
              {[ ascii_bytes "colour" := ascii_bytes "T" ]}) tagged_codec).
Proof.
  apply (attribute_delete plain_repr (fun _ _ => no_such_slot)
           (fun _ => no_such_slot) string string dict_getattribute
           KVS_getattribute tagged_codec
           {[ ascii_bytes "colour" := ascii_bytes "T" ]} (codepoints "colour")
           (ascii_bytes "colour")).
  - reflexivity.
  - reflexivity.
  - reflexivity.
  - reflexivity.
  - reflexivity.
Defined.

(** ** Reads *)

(** X22. Reading never writes: on the transient map [get], [in], the call
    form with a key only, [keys()], [values()], [items()], [sync()],
    [optimize()] and [close()] leave the store exactly as it was, whatever
    the key (supported or not) and whatever they answer or raise. *)
Theorem reads_change_nothing (builtin_repr : pyobj -> pystr) (c : Codec)
    (m : gmap bytes bytes) (key : pyobj) :
  (__getitem__ builtin_repr key (mkKVS m c)).2 = mkKVS m c /\
  (__contains__ builtin_repr key (mkKVS m c)).2 = mkKVS m c /\
  (__call__ builtin_repr key PyNone (mkKVS m c)).2 = mkKVS m c /\
  (keys (mkKVS m c)).2 = mkKVS m c /\
  (values builtin_repr (mkKVS m c)).2 = mkKVS m c /\
  (items builtin_repr (mkKVS m c)).2 = mkKVS m c /\
  (sync (mkKVS m c)).2 = mkKVS m c /\
  (optimize (mkKVS m c)).2 = mkKVS m c /\
  (close (mkKVS m c)).2 = mkKVS m c.
Proof.
  assert ((__getitem__ builtin_repr key (mkKVS m c)).2 = mkKVS m c) as Hget.
  { destruct (_convert builtin_repr key) as [k|e] eqn:Hk.
    - by rewrite (getitem_dict _ m c key k Hk).
    - by rewrite (getitem_unsupported _ m c key e Hk). }
  split; [exact Hget|]. split.
  { destruct (_convert builtin_repr key) as [k|e] eqn:Hk.
    - by rewrite (contains_dict _ m c key k Hk).
    - by rewrite (contains_unsupported _ m c key e Hk). }
  split; [exact Hget|].
  by rewrite keys_dict, values_dict, items_dict.
Qed.

(** X23. What the look-up of the backing object raises, [get] raises: on
    every backing object, an exception from the dispatched look-up ([get]
    if exposed, [__getitem__] otherwise), a [KeyError] for a missing key
    included, comes out of [get], of the call form with a key only, of the
    [get]-based containment test and of [pop], which then removes nothing.
    Only [delete] swallows [KeyError]. *)
Theorem lookup_errors_come_out (builtin_repr : pyobj -> pystr) (DB : Type)
    (B : Backend DB) (key : pyobj) (k : bytes) (e : exn) (st st' : KVS DB) :
  _convert builtin_repr key = ok k ->
  (if hasattr attr_get
   then invoke attr_get (fun get => get k)
   else invoke attr_getitem (fun __getitem__ => __getitem__ k)) st
  = (raise e, st') ->
  __getitem__ builtin_repr key st = (raise e, st') /\
  __call__ builtin_repr key PyNone st = (raise e, st') /\
  contains_fallback builtin_repr k st = (raise e, st') /\
  pop builtin_repr key st = (raise e, st').
Proof.
  intros Hk Hlook.
  assert (forall key', _convert builtin_repr key' = ok k ->
            __getitem__ builtin_repr key' st = (raise e, st')) as Hget.
  { intros key' Hk'. unfold __getitem__, bind, lift. by rewrite Hk', Hlook. }
  split; [by apply Hget|]. split; [by apply Hget|]. split.
  - unfold contains_fallback, bind. by rewrite (Hget (PyBytes k) eq_refl).
  - unfold pop, bind. by rewrite (Hget key Hk).
Qed.

Lemma lookup_errors_come_out_witness :
  __getitem__ plain_repr key_a (mkKVS (mkTable ∅) tagged_codec)
  = (raise KeyError, mkKVS (mkTable ∅) tagged_codec) /\
  __call__ plain_repr key_a PyNone (mkKVS (mkTable ∅) tagged_codec)
  = (raise KeyError, mkKVS (mkTable ∅) tagged_codec) /\
  contains_fallback plain_repr (ascii_bytes "a")
    (mkKVS (mkTable ∅) tagged_codec)
  = (raise KeyError, mkKVS (mkTable ∅) tagged_codec) /\
  pop plain_repr key_a (mkKVS (mkTable ∅) tagged_codec)
  = (raise KeyError, mkKVS (mkTable ∅) tagged_codec).
Proof.
  exact (lookup_errors_come_out plain_repr table _ key_a (ascii_bytes "a")
           KeyError (mkKVS (mkTable ∅) tagged_codec)
           (mkKVS (mkTable ∅) tagged_codec) eq_refl eq_refl).
Defined.

(** ** The transient store is a finite map *)

Section MapSemantics.
Variable builtin_repr : pyobj -> pystr.
Variable c : Codec.
Hypothesis Hinv : codec_inverts c.
Hypothesis Hne : codec_nonempty c.
Implicit Types (m : gmap bytes bytes) (a : gmap bytes pyobj) (k : bytes).

Lemma holds_delete m a k :
  holds_encodings c m a -> holds_encodings c (delete k m) (delete k a).
Proof.
  intros Hma k'. destruct (decide (k' = k)) as [->|Hk].
  - by rewrite !lookup_delete_eq.
  - rewrite !lookup_delete_ne by done. apply Hma.
Qed.

Lemma holds_insert m a k v b :
  holds_encodings c m a -> is_None v = false -> dumps c v = ok b ->
  holds_encodings c (<[k:=b]> m) (<[k:=v]> a).
Proof.
  intros Hma Hv Hb k'. destruct (decide (k' = k)) as [->|Hk].
  - rewrite !lookup_insert_eq. split; [done|]. by exists b.
  - rewrite !lookup_insert_ne by done. apply Hma.
Qed.

Lemma holds_get m a key k :
  holds_encodings c m a ->
  _convert builtin_repr key = ok k ->
  __getitem__ builtin_repr key (mkKVS m c)
  = (ok (default PyNone (a !! k)), mkKVS m c) /\
  __contains__ builtin_repr key (mkKVS m c)
  = (ok (bool_decide (is_Some (a !! k))), mkKVS m c).
Proof.
  intros Hma Hk.
  rewrite (getitem_dict _ m c key k Hk), (contains_dict _ m c key k Hk).
  specialize (Hma k). destruct (a !! k) as [v|].
  - destruct Hma as (Hv & b & -> & Hb).
    pose proof (Hne v b Hb) as Hnonempty.
    destruct b as [|x b]; [done|]. cbn. by rewrite (Hinv v (x :: b) Hb).
  - by rewrite Hma.
Qed.

Lemma holds_perform o m a :
  holds_encodings c m a ->
  exists m', perform builtin_repr o (mkKVS m c) = mkKVS m' c /\
             holds_encodings c m' (record builtin_repr c o a).
Proof.
  intros Hma.
  assert (forall key value k, _convert builtin_repr key = ok k ->
    is_None value = false ->
    exists m', (__setitem__ builtin_repr key value (mkKVS m c)).2 = mkKVS m' c
      /\ holds_encodings c m'
           (if is_ok (dumps c value) then <[k:=value]> a else a)) as Hset.
  { intros key value k Hk Hv.
    rewrite (setitem_dict _ m c key value k Hk Hv).
    destruct (dumps c value) as [b|e] eqn:Hb; cbn [is_ok snd].
    - eexists. split; [reflexivity|]. by apply holds_insert.
    - by exists m. }
  destruct o as [key value|key|key|key|key value|key| | | | | ];
    cbn [perform record].
  - destruct (_convert builtin_repr key) as [k|e] eqn:Hk.
    + destruct (is_None value) eqn:Hv.
      * apply is_None_true in Hv as ->.
        rewrite (setitem_None_dict _ m c key k Hk).
        eexists. split; [reflexivity|]. by apply holds_delete.
      * by apply Hset.
    + rewrite (setitem_unsupported _ m c key value e Hk). by exists m.
  - destruct (_convert builtin_repr key) as [k|e] eqn:Hk.
    + rewrite (getitem_dict _ m c key k Hk). by exists m.
    + rewrite (getitem_unsupported _ m c key e Hk). by exists m.
  - destruct (_convert builtin_repr key) as [k|e] eqn:Hk.
    + rewrite (delitem_dict _ m c key k Hk).
      eexists. split; [reflexivity|]. by apply holds_delete.
    + rewrite (delitem_unsupported _ m c key e Hk). by exists m.
  - destruct (_convert builtin_repr key) as [k|e] eqn:Hk.
    + rewrite (contains_dict _ m c key k Hk). by exists m.
    + rewrite (contains_unsupported _ m c key e Hk). by exists m.
  - rewrite call_dict.
    destruct (_convert builtin_repr key) as [k|e] eqn:Hk.
    + destruct (is_None value) eqn:Hv.
      * rewrite (getitem_dict _ m c key k Hk). by exists m.
      * by apply Hset.
    + rewrite (getitem_unsupported _ m c key e Hk),
        (setitem_unsupported _ m c key value e Hk).
      exists m. by destruct (is_None value).
  - destruct (_convert builtin_repr key) as [k|e] eqn:Hk.
    + rewrite (pop_dict _ m c key k Hk).
      destruct (holds_get m a key k Hma Hk) as [-> _]. cbn [fst snd].
      eexists. split; [reflexivity|]. by apply holds_delete.
    + rewrite (pop_unsupported _ m c key e Hk). by exists m.
  - by exists m.
  - by exists m.
  - by exists m.
  - by exists m.
  - exists ∅. split; [reflexivity|]. intros k. by rewrite !lookup_empty.
Qed.

Lemma holds_run ops m a :
  holds_encodings c m a ->
  exists m', run builtin_repr ops (mkKVS m c) = mkKVS m' c /\
    holds_encodings c m'
      (foldl (fun a o => record builtin_repr c o a) a ops).
Proof.
  revert m a. induction ops as [|o ops IH]; intros m a Hma.
  - by exists m.
  - cbn [run foldl]. destruct (holds_perform o m a Hma) as (m1 & -> & H1).
    apply (IH m1 _ H1).
Qed.
End MapSemantics.

(** X24. A transient store is a finite map of values. Provided [loads]
    inverts [dumps] and [dumps] never answers the empty byte string, after
    any sequence of operations on a fresh transient store (failing ones
    included) [get] under a supported key answers the value last written
    under its canonical key, unless a write of [None], a [delete], a [pop]
    or a [clear] came after it, and [None] otherwise; [in] answers whether
    there is such a value; neither raises or changes the store. *)
Theorem transient_store_is_a_map (builtin_repr : pyobj -> pystr) (c : Codec)
    (ops : list operation) (key : pyobj) (k : bytes) :
  codec_inverts c ->
  codec_nonempty c ->
  _convert builtin_repr key = ok k ->
  __getitem__ builtin_repr key (run builtin_repr ops (KVS_memory c))
  = (ok (default PyNone (recorded builtin_repr c ops !! k)),
     run builtin_repr ops (KVS_memory c)) /\
  __contains__ builtin_repr key (run builtin_repr ops (KVS_memory c))
  = (ok (bool_decide (is_Some (recorded builtin_repr c ops !! k))),
     run builtin_repr ops (KVS_memory c)).
Proof.
  intros Hinv Hne Hk.
  destruct (holds_run builtin_repr c Hinv Hne ops ∅ ∅) as (m & Hrun & Hm).
  { intros k'. by rewrite !lookup_empty. }
  unfold KVS_memory. rewrite Hrun.
  by apply holds_get.
Qed.

Lemma transient_store_is_a_map_witness :
  __getitem__ plain_repr (PyInt 7)
    (run plain_repr
       [OpSet (PyInt 7) (PyBool true); OpSet key_a (PyInt 1);
        OpCall (PyStr (codepoints "7")) (PyBool false); OpPop key_a]
       (KVS_memory tagged_codec))
  = (ok (default PyNone
           (recorded plain_repr tagged_codec
              [OpSet (PyInt 7) (PyBool true); OpSet key_a (PyInt 1);
               OpCall (PyStr (codepoints "7")) (PyBool false); OpPop key_a]
            !! ascii_bytes "7")),
     run plain_repr
       [OpSet (PyInt 7) (PyBool true); OpSet key_a (PyInt 1);
        OpCall (PyStr (codepoints "7")) (PyBool false); OpPop key_a]
       (KVS_memory tagged_codec)) /\
  __contains__ plain_repr (PyInt 7)
    (run plain_repr
       [OpSet (PyInt 7) (PyBool true); OpSet key_a (PyInt 1);
        OpCall (PyStr (codepoints "7")) (PyBool false); OpPop key_a]
       (KVS_memory tagged_codec))
  = (ok (bool_decide (is_Some
           (recorded plain_repr tagged_codec
              [OpSet (PyInt 7) (PyBool true); OpSet key_a (PyInt 1);
               OpCall (PyStr (codepoints "7")) (PyBool false); OpPop key_a]
            !! ascii_bytes "7"))),
     run plain_repr
       [OpSet (PyInt 7) (PyBool true); OpSet key_a (PyInt 1);
        OpCall (PyStr (codepoints "7")) (PyBool false); OpPop key_a]
       (KVS_memory tagged_codec)).
Proof.
  refine (transient_store_is_a_map plain_repr tagged_codec
            [OpSet (PyInt 7) (PyBool true); OpSet key_a (PyInt 1);
             OpCall (PyStr (codepoints "7")) (PyBool false); OpPop key_a]
            (PyInt 7) (ascii_bytes "7")
            tagged_codec_inverts tagged_codec_nonempty _).
  by vm_compute.
Defined.
